(** * download.py: name resolution and request handling of the icon downloader

    A shallow embedding of [src/download.py].  A Python [str] is
    modelled by a [string]: the bytes of its UTF-8 encoding, which for
    ASCII text are its characters.  The script tells characters apart in
    two ways.  Commas, quotes, newlines, [#], [/], the backslash and the
    characters of a tier token are ASCII, single bytes that are part of
    no other character, so the csv reader, [startswith], [replace] and
    [join] are written out on bytes once and for all.  Whitespace, case
    folding and [int] consult the Unicode tables: [Py] writes them out
    for ASCII text, which is what the embedded data set and the examples
    are; [Os.Str] leaves them open, so that what is proved about
    [Os.main] holds whatever these functions do; and [Unicode] states
    [norm_name] over any alphabet.  A Python [int] is modelled by [Z],
    the name table by a [gmap string string], and the effects of [main]
    (console output, the files, the network fetch) by explicit state
    passing. *)

From Stdlib Require Import ZArith Lia Bool List Ascii String.
From Stdlib Require Import Numbers.DecimalString.
From stdpp Require Import base option list strings gmap.

Local Open Scope string_scope.
Local Open Scope Z_scope.

(* stdpp keeps [simpl] from unfolding the append of strings; the proofs
   below compute with it. *)
Local Arguments String.append !_ _ / : simpl nomatch.

(** ** Python string primitives *)

Module Py.

(** [str.isspace] on one ASCII character: TAB, LF, VT, FF, CR, the four
    separators FS, GS, RS, US, and the space.  The same set is matched by
    the regular expression class [\s] on [str] patterns.  Beyond ASCII
    there is more whitespace (the no-break space is one); [Unicode]
    below leaves the table open. *)
Definition isspace (c : ascii) : bool :=
  let n := N_of_ascii c in
  (((9 <=? n) && (n <=? 13)) || ((28 <=? n) && (n <=? 32)))%N.

(** [str.casefold] on one ASCII character.  Beyond ASCII a character
    may fold to several (the sharp s does); see [Unicode] below. *)
Definition casefold_char (c : ascii) : ascii :=
  let n := N_of_ascii c in
  if ((65 <=? n) && (n <=? 90))%N then ascii_of_N (n + 32) else c.

Fixpoint casefold (s : string) : string :=
  match s with
  | EmptyString => EmptyString
  | String c s' => String (casefold_char c) (casefold s')
  end.

Definition is_empty (s : string) : bool :=
  match s with EmptyString => true | String _ _ => false end.

(** [len(s)] *)
Fixpoint len (s : string) : N :=
  match s with
  | EmptyString => 0
  | String _ s' => N.succ (len s')
  end.

Fixpoint all_space (s : string) : bool :=
  match s with
  | EmptyString => true
  | String c s' => isspace c && all_space s'
  end.

(** [str.lstrip()] *)
Fixpoint lstrip (s : string) : string :=
  match s with
  | EmptyString => EmptyString
  | String c s' => if isspace c then lstrip s' else s
  end.

(** [str.rstrip()] *)
Fixpoint rstrip (s : string) : string :=
  match s with
  | EmptyString => EmptyString
  | String c s' =>
      let r := rstrip s' in
      if isspace c && is_empty r then EmptyString else String c r
  end.

(** [str.strip()]: the leading whitespace is skipped first, then the
    trailing whitespace of what is left. *)
Definition strip (s : string) : string := rstrip (lstrip s).

(** [re.compile(r"\s+").sub(" ", s)]: every maximal run of whitespace
    is replaced by one space.  [in_run] tells that the previous character
    belonged to a run whose replacement has been emitted already. *)
Fixpoint sub_space (in_run : bool) (s : string) : string :=
  match s with
  | EmptyString => EmptyString
  | String c s' =>
      if isspace c
      then if in_run then sub_space true s' else String " " (sub_space true s')
      else String c (sub_space false s')
  end.

(** [s.replace(old, new)] for a one-character [old]. *)
Fixpoint replace_char (old : ascii) (new : string) (s : string) : string :=
  match s with
  | EmptyString => EmptyString
  | String c s' =>
      if Ascii.eqb c old then new ++ replace_char old new s'
      else String c (replace_char old new s')
  end.

(** [s.startswith(p)] *)
Fixpoint startswith (p s : string) : bool :=
  match p, s with
  | EmptyString, _ => true
  | String a p', String b s' => Ascii.eqb a b && startswith p' s'
  | String _ _, EmptyString => false
  end.

(** [s.endswith(p)] for a one-character [p]. *)
Fixpoint endswith (p s : string) : bool :=
  match s with
  | EmptyString => false
  | String c EmptyString => String.eqb p (String c EmptyString)
  | String _ s' => endswith p s'
  end.

(** [sep.join(l)] *)
Fixpoint join (sep : string) (l : list string) : string :=
  match l with
  | [] => EmptyString
  | [x] => x
  | x :: l' => x ++ sep ++ join sep l'
  end.

(** [sys.get_int_max_str_digits()] *)
Definition int_max_str_digits : N := 4300.

(** [str(n)] for an [int] of at most 4300 digits, as are the tier, the
    enchantment and the quality of every request that
    [parse_requests_file] returns.  For a longer number Python raises
    [ValueError] where this function still prints the digits. *)
Definition str (n : Z) : string := NilZero.string_of_int (Z.to_int n).

Definition is_digit (c : ascii) : bool :=
  let n := N_of_ascii c in ((48 <=? n) && (n <=? 57))%N.

Definition digit_val (c : ascii) : Z := Z.of_N (N_of_ascii c) - 48.

(** The digits of an [int] literal: decimal digits, single underscores
    allowed between two digits.  [acc] is the value read so far and
    [after_digit] tells that the previous character was a digit. *)
Fixpoint int_digits (acc : Z) (after_digit : bool) (s : string) : option Z :=
  match s with
  | EmptyString => if after_digit then Some acc else None
  | String c s' =>
      if is_digit c then int_digits (10 * acc + digit_val c) true s'
      else if Ascii.eqb c "_" && after_digit
           then match s' with
                | String d _ => if is_digit d then int_digits acc false s' else None
                | EmptyString => None
                end
           else None
  end.

(** The number of decimal digits of [s]. *)
Fixpoint digit_count (s : string) : N :=
  match s with
  | EmptyString => 0
  | String c s' => if is_digit c then N.succ (digit_count s') else digit_count s'
  end.

(** The digits of [int(s)] after the sign: a numeral of more than 4300
    digits is refused. *)
Definition int_body (ds : string) : option Z :=
  if (int_max_str_digits <? digit_count ds)%N then None
  else int_digits 0 false ds.

(** [int(s)] on ASCII text: [None] stands for [ValueError].  Surrounding
    whitespace is accepted, then an optional sign, then the digits.
    (Python also reads the decimal digits of other scripts; the run with
    [Os.Str] below takes [int] as it comes.) *)
Definition int (s : string) : option Z :=
  match strip s with
  | String "-" ds => option_map Z.opp (int_body ds)
  | String "+" ds => int_body ds
  | ds => int_body ds
  end.

End Py.

(** ** Constants and pure helpers of the script *)

Definition BASE_URL : string := "https://render.albiononline.com/v1/item/".
Definition DEFAULT_INPUT : string := "downloads.txt".
Definition DEFAULT_OUTPUT_DIR : string := "downloads".

(** [QUALITY_WORD.get(quality, str(quality))] *)
Definition QUALITY_WORD_get (quality : Z) : string :=
  if quality =? 1 then "Common"
  else if quality =? 2 then "Good"
  else if quality =? 3 then "Outstanding"
  else if quality =? 4 then "Excellent"
  else if quality =? 5 then "Masterpiece"
  else Py.str quality.

(** [norm_name]: normalisation for the table lookup. *)
Definition norm_name (name : string) : string :=
  Py.casefold (Py.sub_space false (Py.strip name)).

(** [safe_file_stem] *)
Definition safe_file_stem (text : string) : string :=
  Py.replace_char "\" "-" (Py.replace_char "/" "-" text).

(** [_TIER_PREFIX_RX = ^T([1-8])_]: the digit matched at the start of
    [ident], if any. *)
Definition tier_prefix_match (ident : string) : option ascii :=
  match ident with
  | String t (String d (String u _)) =>
      let n := N_of_ascii d in
      if Ascii.eqb t "T" && ((49 <=? n) && (n <=? 56))%N && Ascii.eqb u "_"
      then Some d else None
  | _ => None
  end.

Definition has_tier_prefix (ident : string) : bool :=
  match tier_prefix_match ident with Some _ => true | None => false end.

Definition extract_tier_from_ident (ident : string) : Z :=
  match tier_prefix_match ident with
  | Some d => match Py.int (String d EmptyString) with Some n => n | None => -1 end
  | None => -1
  end.

(** [build_identifier]: [inl msg] stands for the raised [ValueError]. *)
Definition build_identifier (base_ident : string) (tier enchant : Z)
  : string + (string * Z) :=
  if has_tier_prefix base_ident then
    let tier_for_name := extract_tier_from_ident base_ident in
    let core := base_ident in
    inr (if enchant =? 0 then core else core ++ "@" ++ Py.str enchant, tier_for_name)
  else if tier =? -1 then
    inl "Tier is required for items without a T1_…T8_ identifier."
  else
    let tier_for_name := tier in
    let core := "T" ++ Py.str tier ++ "_" ++ base_ident in
    inr (if enchant =? 0 then core else core ++ "@" ++ Py.str enchant, tier_for_name).

(** [build_url] *)
Definition build_url (identifier : string) (quality : Z) : string :=
  if quality =? 1 then BASE_URL ++ identifier ++ ".png"
  else BASE_URL ++ identifier ++ ".png?quality=" ++ Py.str quality.

(** [build_filename] *)
Definition build_filename (name : string) (tier enchant quality : Z) : string :=
  let stem := safe_file_stem name ++ " " ++ Py.str tier in
  let stem := if 0 <? enchant then stem ++ "." ++ Py.str enchant else stem in
  let stem := if 1 <? quality then stem ++ " " ++ QUALITY_WORD_get quality else stem in
  stem ++ ".png".

(** ** Reading text line by line *)

Definition LF : ascii := ascii_of_N 10.
Definition CR : ascii := ascii_of_N 13.
Definition QUOTE : ascii := ascii_of_N 34.

Definition is_newline (c : ascii) : bool := Ascii.eqb c LF || Ascii.eqb c CR.

Definition snoc (s : string) (c : ascii) : string := s ++ String c EmptyString.

(** The lines a text file opened with [newline=""] yields: a line
    ends after LF, CR or CR LF, and keeps its terminator.  [cur] is the
    part of the current line read so far. *)
Fixpoint file_lines (cur : string) (text : string) : list string :=
  match text with
  | EmptyString => if Py.is_empty cur then [] else [cur]
  | String c rest =>
      if Ascii.eqb c LF then snoc cur c :: file_lines EmptyString rest
      else if Ascii.eqb c CR then
        match rest with
        | String d rest' =>
            if Ascii.eqb d LF then snoc (snoc cur c) d :: file_lines EmptyString rest'
            else snoc cur c :: file_lines EmptyString rest
        | EmptyString => snoc cur c :: file_lines EmptyString rest
        end
      else file_lines (snoc cur c) rest
  end.

(** The lines an [io.StringIO] yields: only LF ends a line. *)
Fixpoint stringio_lines (cur : string) (text : string) : list string :=
  match text with
  | EmptyString => if Py.is_empty cur then [] else [cur]
  | String c rest =>
      if Ascii.eqb c LF then snoc cur c :: stringio_lines EmptyString rest
      else stringio_lines (snoc cur c) rest
  end.

(** The ASCII line boundaries of [str.splitlines]: LF, VT, FF, CR and
    the separators FS, GS, RS. *)
Definition is_linebreak (c : ascii) : bool :=
  let n := N_of_ascii c in
  (((10 <=? n) && (n <=? 13)) || ((28 <=? n) && (n <=? 30)))%N.

(** [str.splitlines()]: the terminators are dropped, CR LF counts once,
    and a final terminator opens no further line. *)
Fixpoint splitlines (cur : string) (text : string) : list string :=
  match text with
  | EmptyString => if Py.is_empty cur then [] else [cur]
  | String c rest =>
      if is_linebreak c then
        match rest with
        | String d rest' =>
            if Ascii.eqb c CR && Ascii.eqb d LF
            then cur :: splitlines EmptyString rest'
            else cur :: splitlines EmptyString rest
        | EmptyString => cur :: splitlines EmptyString rest
        end
      else splitlines (snoc cur c) rest
  end.

(** ** The reader of the csv module

    [csv.reader] with the default dialect (delimiter [,], the double
    quote as quote character, doubled quotes, no escape character, not strict), as
    the state machine of the module: [process_char] is one step of it and
    [None] as a character is the end-of-line mark fed after every line.
    A result [None] stands for [csv.Error]: a character other than a
    newline after the end of a line, or a field that outgrows the limit
    of the module, [csv.field_size_limit()], 131072 characters.  (This
    is the reader of Python 3.11 and later; before, it also refused the
    NUL character.) *)

Module Csv.

Inductive state :=
| START_RECORD | START_FIELD | IN_FIELD
| IN_QUOTED_FIELD | QUOTE_IN_QUOTED_FIELD | EAT_CRNL.

Record reader := Reader { st : state; field : string; fields : list string }.

Definition reset : reader := Reader START_RECORD EmptyString [].

Definition set_state (s : state) (r : reader) : reader :=
  Reader s (field r) (fields r).

Definition save_field (r : reader) : reader :=
  Reader (st r) EmptyString (fields r ++ [field r]).

(** [csv.field_size_limit()] *)
Definition field_limit : N := 131072.

(** A byte that goes on with a character begun before it, in UTF-8.
    ASCII text has none. *)
Definition is_continuation (c : ascii) : bool :=
  let n := N_of_ascii c in ((128 <=? n) && (n <=? 191))%N.

(** The number of characters of a text: its bytes, but for those that
    go on with a character.  On ASCII text this is [Py.len]. *)
Fixpoint chars (s : string) : N :=
  match s with
  | EmptyString => 0
  | String c s' => if is_continuation c then chars s' else N.succ (chars s')
  end.

(** The reader refuses a character that would make the field longer
    than the limit. *)
Definition add_char (c : ascii) (r : reader) : option reader :=
  if negb (is_continuation c) && (field_limit <=? chars (field r))%N then None
  else Some (Reader (st r) (snoc (field r) c) (fields r)).

Definition is_quoted (s : state) : bool :=
  match s with IN_QUOTED_FIELD => true | _ => false end.

Definition is_start (s : state) : bool :=
  match s with START_RECORD => true | _ => false end.

Definition start_field (r : reader) (c : option ascii) : option reader :=
  match c with
  | None => Some (set_state START_RECORD (save_field r))
  | Some ch =>
      if is_newline ch then Some (set_state EAT_CRNL (save_field r))
      else if Ascii.eqb ch QUOTE then Some (set_state IN_QUOTED_FIELD r)
      else if Ascii.eqb ch "," then Some (set_state START_FIELD (save_field r))
      else option_map (set_state IN_FIELD) (add_char ch r)
  end.

Definition process_char (r : reader) (c : option ascii) : option reader :=
  match st r with
  | START_RECORD =>
      match c with
      | None => Some r
      | Some ch =>
          if is_newline ch then Some (set_state EAT_CRNL r) else start_field r c
      end
  | START_FIELD => start_field r c
  | IN_FIELD =>
      match c with
      | None => Some (set_state START_RECORD (save_field r))
      | Some ch =>
          if is_newline ch then Some (set_state EAT_CRNL (save_field r))
          else if Ascii.eqb ch "," then Some (set_state START_FIELD (save_field r))
          else add_char ch r
      end
  | IN_QUOTED_FIELD =>
      match c with
      | None => Some r
      | Some ch =>
          if Ascii.eqb ch QUOTE then Some (set_state QUOTE_IN_QUOTED_FIELD r)
          else add_char ch r
      end
  | QUOTE_IN_QUOTED_FIELD =>
      match c with
      | None => Some (set_state START_RECORD (save_field r))
      | Some ch =>
          if Ascii.eqb ch QUOTE then option_map (set_state IN_QUOTED_FIELD) (add_char ch r)
          else if Ascii.eqb ch "," then Some (set_state START_FIELD (save_field r))
          else if is_newline ch then Some (set_state EAT_CRNL (save_field r))
          else option_map (set_state IN_FIELD) (add_char ch r)
      end
  | EAT_CRNL =>
      match c with
      | None => Some (set_state START_RECORD r)
      | Some ch => if is_newline ch then Some r else None
      end
  end.

(** One line of input is fed character by character, then the
    end-of-line mark. *)
Fixpoint feed (r : reader) (line : string) : option reader :=
  match line with
  | EmptyString => process_char r None
  | String c line' =>
      match process_char r (Some c) with
      | Some r' => feed r' line'
      | None => None
      end
  end.

(** All the rows of the input.  A row is complete when the reader is
    back in [START_RECORD] after a line; when the input ends inside a
    quoted field the row read so far is returned. *)
Fixpoint rows (r : reader) (lines : list string) : option (list (list string)) :=
  match lines with
  | [] =>
      if negb (Py.is_empty (field r)) || is_quoted (st r)
      then Some [fields (save_field r)] else Some []
  | line :: lines' =>
      match feed r line with
      | None => None
      | Some r' =>
          if is_start (st r')
          then option_map (cons (fields r')) (rows reset lines')
          else rows r' lines'
      end
  end.

Definition reader_rows (lines : list string) : option (list (list string)) :=
  rows reset lines.

End Csv.

(** ** The embedded name table *)

(** The lines [parse_embedded_items] keeps: stripped, neither empty nor
    starting with [#]. *)
Definition cleaned_lines (csv_text : string) : list string :=
  List.filter
    (fun line => negb (Py.is_empty line || Py.startswith "#" line))
    (List.map Py.strip (splitlines EmptyString csv_text)).

(** The body of the loop over the rows of the table. *)
Definition add_item (mapping : gmap string string) (row : list string)
  : gmap string string :=
  match row with
  | r0 :: r1 :: _ =>
      let name := Py.strip r0 in
      let ident := Py.strip r1 in
      if negb (Py.is_empty name) && negb (Py.is_empty ident)
      then <[norm_name name := ident]> mapping
      else mapping
  | _ => mapping
  end.

(** [parse_embedded_items]; [None] stands for a [csv.Error]. *)
Definition parse_embedded_items (csv_text : string) : option (gmap string string) :=
  match cleaned_lines csv_text with
  | [] => Some ∅
  | cleaned =>
      match Csv.reader_rows
              (stringio_lines EmptyString (Py.join (String LF EmptyString) cleaned)) with
      | Some rows => Some (fold_left add_item rows ∅)
      | None => None
      end
  end.

(** ** Requests *)

(** What the script prints, one constructor per [print] call. *)
Inductive Event :=
| ErrInputNotFound (path : string)
| WarnBadTier (name col : string)
| WarnBadEnchant (name col : string)
| WarnBadQuality (name col : string)
| WarnInvalidTier (tier : Z) (name : string)
| WarnInvalidEnchant (enchant : Z) (name : string)
| WarnInvalidQuality (quality : Z) (name : string)
| ErrMappingEmpty
| InfoNoEntries
| FailNotInData (name : string)
| WarnTierIgnored (name : string) (tier embedded_tier : Z)
| FailTierRequired (name : string)
| OkSaved (name out_file : string)
| FailException (name base_ident e : string)
| InfoKept (n : nat) (path : string)
| InfoAllDownloaded (path : string)
| WarnCouldNotRewrite (path e : string).

(** The tuple [(name, tier, enchant, quality, original_line)]. *)
Record Request := mkRequest {
  name : string;
  tier : Z;
  enchant : Z;
  quality : Z;
  original_line : string
}.

(** The integer of column [i] of [cols] when the column is there and
    not empty.  [inl col] is the text of a column that [int] refuses. *)
Definition int_column (cols : list string) (i : nat) : option (string + Z) :=
  match cols !! i with
  | Some col =>
      if Py.is_empty col then None
      else match Py.int col with
           | Some n => Some (inr n)
           | None => Some (inl col)
           end
  | None => None
  end.

(** The value an integer column gives: its integer, or [default] when
    the column is missing, empty or refused by [int]. *)
Definition column_or (default : Z) (c : option (string + Z)) : Z :=
  match c with Some (inr n) => n | _ => default end.

(** The warning printed for a column that [int] refuses. *)
Definition bad_column (warn : string -> string -> Event) (name : string)
    (c : option (string + Z)) : list Event :=
  match c with Some (inl col) => [warn name col] | _ => [] end.

(** [len(raw_line) == 1 and raw_line[0].lstrip().startswith("#")] *)
Definition is_comment (raw_line : list string) : bool :=
  (length raw_line =? 1)%nat &&
  match raw_line !! 0%nat with
  | Some first => Py.startswith "#" (Py.lstrip first)
  | None => false
  end.

(** The body of the loop of [parse_requests_file] on one row of the
    csv reader: what it prints and the request it appends, if any. *)
Definition parse_row (raw_line : list string) : list Event * option Request :=
  match raw_line with
  | [] => ([], None)
  | _ =>
      if is_comment raw_line then ([], None)
      else
        let cols := List.map Py.strip raw_line in
        match cols with
        | [] => ([], None)
        | name :: _ =>
            if Py.is_empty name then ([], None)
            else
              let original_line := Py.join ", " cols in
              let tier := column_or (-1) (int_column cols 1) in
              let enchant := column_or 0 (int_column cols 2) in
              let quality := column_or 1 (int_column cols 3) in
              let w := (bad_column WarnBadTier name (int_column cols 1) ++
                        bad_column WarnBadEnchant name (int_column cols 2) ++
                        bad_column WarnBadQuality name (int_column cols 3))%list in
              if negb (tier =? -1) && negb ((1 <=? tier) && (tier <=? 8))
              then ((w ++ [WarnInvalidTier tier name])%list, None)
              else if negb ((0 <=? enchant) && (enchant <=? 4))
              then ((w ++ [WarnInvalidEnchant enchant name])%list, None)
              else if negb ((1 <=? quality) && (quality <=? 5))
              then ((w ++ [WarnInvalidQuality quality name])%list, None)
              else (w, Some (mkRequest name tier enchant quality original_line))
        end
  end.

Fixpoint parse_rows (rows : list (list string)) : list Event * list Request :=
  match rows with
  | [] => ([], [])
  | raw_line :: rows' =>
      let '(w, r) := parse_row raw_line in
      let '(ws, rs) := parse_rows rows' in
      ((w ++ ws)%list, match r with Some q => q :: rs | None => rs end)
  end.

(** [parse_requests_file] where every file that exists can be read: the
    files are a map from paths to their decoded text, and [None] stands
    for a [csv.Error].  [Os.parse_requests_file] below asks the
    operating system instead, which may refuse. *)
Definition parse_requests_file (files : gmap string string) (path : string)
  : option (list Event * list Request) :=
  match files !! path with
  | None => Some ([ErrInputNotFound path], [])
  | Some text =>
      match Csv.reader_rows (file_lines EmptyString text) with
      | Some rows => Some (parse_rows rows)
      | None => None
      end
  end.

(** [os.path.join(a, b)] where it is [posixpath.join], that is on every
    system but Windows. *)
Definition path_join (a b : string) : string :=
  if Py.startswith "/" b then b
  else if Py.is_empty a || Py.endswith "/" a then a ++ b
  else a ++ "/" ++ b.

(** ** The run *)

(** How the process ends: [main] returns, [sys.exit(code)] is called, or
    an exception is not caught. *)
Inductive Outcome :=
| Returned
| SysExit (code : Z)
| Uncaught (what : string).

(** What the loop body knows once an item is resolved and before it is
    fetched. *)
Record Target := mkTarget {
  base_ident : string;
  ident : string;
  tier_for_filename : Z;
  url : string;
  out_file : string
}.

(** The loop body of [main] up to the fetch: the diagnostics printed on
    the way, and either the [FAIL] message of a request that is given up
    or the target to fetch. *)
Definition resolve (name_to_ident : gmap string string) (output_dir : string)
    (q : Request) : list Event * (Event + Target) :=
  let key := norm_name (name q) in
  match name_to_ident !! key with
  | None => ([], inl (FailNotInData (name q)))
  | Some base_ident =>
      let attempt :=
        match build_identifier base_ident (tier q) (enchant q) with
        | inl e => inl (FailException (name q) base_ident e)
        | inr (ident, tier_for_filename) =>
            let url := build_url ident (quality q) in
            let out_file :=
              path_join output_dir
                (build_filename (name q) tier_for_filename (enchant q) (quality q)) in
            inr (mkTarget base_ident ident tier_for_filename url out_file)
        end in
      if has_tier_prefix base_ident then
        let embedded_tier := extract_tier_from_ident base_ident in
        (if negb (tier q =? -1) && negb (tier q =? embedded_tier)
         then [WarnTierIgnored (name q) (tier q) embedded_tier] else [],
         attempt)
      else if tier q =? -1 then ([], inl (FailTierRequired (name q)))
      else ([], attempt)
  end.

Section Run.

(** The remote service and the output directory are left abstract:
    [download_one url filepath w] is [None] when the image was fetched
    and written, and [Some e] when an exception with message [e] was
    raised, together with the state of the world afterwards. *)
Context {World : Type}.
Variable download_one : string -> string -> World -> option string * World.

(** The state the loop of [main] carries. *)
Record Loop := mkLoop {
  failed_lines : list string;
  console : list Event;
  world : World
}.

(** One iteration of the loop of [main]. *)
Definition process (name_to_ident : gmap string string) (output_dir : string)
    (s : Loop) (q : Request) : Loop :=
  let '(warnings, r) := resolve name_to_ident output_dir q in
  let out := (console s ++ warnings)%list in
  match r with
  | inl failure =>
      mkLoop (failed_lines s ++ [original_line q]) (out ++ [failure]) (world s)
  | inr t =>
      match download_one (url t) (out_file t) (world s) with
      | (None, w) =>
          mkLoop (failed_lines s) (out ++ [OkSaved (name q) (out_file t)]) w
      | (Some e, w) =>
          mkLoop (failed_lines s ++ [original_line q])
                 (out ++ [FailException (name q) (base_ident t) e]) w
      end
  end.

(** The text written back to the request file. *)
Definition rewritten (failed : list string) : string :=
  String.concat EmptyString
    (List.map (fun line => Py.rstrip line ++ String LF EmptyString) failed).

(** The result of a run. *)
Record Result := mkResult {
  outcome : Outcome;
  printed : list Event;
  files_after : gmap string string;
  world_after : World
}.

(** [main], given the command line, the text of the embedded table, the
    files and the world, where the output directory can be made and the
    request file can be written.  [Os.main] below is [main] without
    these assumptions. *)
Definition main (argv : list string) (items_csv : string)
    (files : gmap string string) (w : World) : Result :=
  let input_path := default DEFAULT_INPUT (argv !! 1%nat) in
  let output_dir := default DEFAULT_OUTPUT_DIR (argv !! 2%nat) in
  match parse_embedded_items items_csv with
  | None => mkResult (Uncaught "csv.Error") [] files w
  | Some name_to_ident =>
      if bool_decide (name_to_ident = ∅)
      then mkResult (SysExit 1) [ErrMappingEmpty] files w
      else
        match parse_requests_file files input_path with
        | None => mkResult (Uncaught "csv.Error") [] files w
        | Some (warnings, entries) =>
            match entries with
            | [] => mkResult Returned (warnings ++ [InfoNoEntries]) files w
            | _ =>
                let s := fold_left (process name_to_ident output_dir) entries
                           (mkLoop [] warnings w) in
                let files' := <[input_path := rewritten (failed_lines s)]> files in
                mkResult Returned
                  (console s ++
                   [match failed_lines s with
                    | [] => InfoAllDownloaded input_path
                    | _ => InfoKept (length (failed_lines s)) input_path
                    end])
                  files' (world s)
            end
        end
  end.

End Run.

(** ** The run with what it asks of Python and of the operating system

    [main] above is the run in a world where the output directory can
    be made, the request file is a text that can be read, and it can be
    written at the end, and on ASCII text.  Here is [main] without these
    assumptions: every call that leaves the process is answered by an
    environment that may refuse it, and the operations on text whose
    answers rest on the Unicode tables are taken as they come. *)

Module Os.

(** The operations of [str] and [int] that read the Unicode tables. *)
Record Str := mkStr {
  strip : string -> string;
  lstrip : string -> string;
  rstrip : string -> string;
  int : string -> option Z;
  norm : string -> string
}.

(** These operations on ASCII text, as modelled above. *)
Definition py : Str := mkStr Py.strip Py.lstrip Py.rstrip Py.int norm_name.

(** The calls that leave the process.  An answer [Some e] or [inl e]
    stands for an exception of class [Exception] with message [e].
    - [makedirs d]: [os.makedirs(d, exist_ok=True)];
    - [path_exists p]: [os.path.exists(p)];
    - [read_text p]: the decoded text of [open(p, "r", encoding="utf-8",
      errors="ignore", newline="")], or the exception of [open] or of a
      read (the path is a directory, the file may not be read);
    - [write_text p t]: [open(p, "w", ...)] and the writes that make up
      [t], or the exception of one of them;
    - [download_one url filepath]: the function of that name.
    [print] is taken to succeed. *)
Record Env {World : Type} := mkEnv {
  makedirs : string -> World -> option string * World;
  path_exists : string -> World -> bool;
  read_text : string -> World -> string + string;
  write_text : string -> string -> World -> option string * World;
  download_one : string -> string -> World -> option string * World
}.
Arguments Env : clear implicits.

(** How a run ends: with an exception that nothing catches, or by
    returning or exiting, with what was printed. *)
Inductive Result {World : Type} :=
| Crashed (what : string) (w : World)
| Finished (o : Outcome) (printed : list Event) (w : World).
Arguments Result : clear implicits.

Section With.

Variable P : Str.

Definition int_column (cols : list string) (i : nat) : option (string + Z) :=
  match cols !! i with
  | Some col =>
      if Py.is_empty col then None
      else match int P col with
           | Some n => Some (inr n)
           | None => Some (inl col)
           end
  | None => None
  end.

Definition is_comment (raw_line : list string) : bool :=
  (length raw_line =? 1)%nat &&
  match raw_line !! 0%nat with
  | Some first => Py.startswith "#" (lstrip P first)
  | None => false
  end.

(** The body of the loop of [parse_requests_file]. *)
Definition parse_row (raw_line : list string) : list Event * option Request :=
  match raw_line with
  | [] => ([], None)
  | _ =>
      if is_comment raw_line then ([], None)
      else
        let cols := List.map (strip P) raw_line in
        match cols with
        | [] => ([], None)
        | name :: _ =>
            if Py.is_empty name then ([], None)
            else
              let original_line := Py.join ", " cols in
              let tier := column_or (-1) (int_column cols 1) in
              let enchant := column_or 0 (int_column cols 2) in
              let quality := column_or 1 (int_column cols 3) in
              let w := (bad_column WarnBadTier name (int_column cols 1) ++
                        bad_column WarnBadEnchant name (int_column cols 2) ++
                        bad_column WarnBadQuality name (int_column cols 3))%list in
              if negb (tier =? -1) && negb ((1 <=? tier) && (tier <=? 8))
              then ((w ++ [WarnInvalidTier tier name])%list, None)
              else if negb ((0 <=? enchant) && (enchant <=? 4))
              then ((w ++ [WarnInvalidEnchant enchant name])%list, None)
              else if negb ((1 <=? quality) && (quality <=? 5))
              then ((w ++ [WarnInvalidQuality quality name])%list, None)
              else (w, Some (mkRequest name tier enchant quality original_line))
        end
  end.

Fixpoint parse_rows (rows : list (list string)) : list Event * list Request :=
  match rows with
  | [] => ([], [])
  | raw_line :: rows' =>
      let '(w, r) := parse_row raw_line in
      let '(ws, rs) := parse_rows rows' in
      ((w ++ ws)%list, match r with Some q => q :: rs | None => rs end)
  end.

(** The loop body of [main] up to the fetch. *)
Definition resolve (name_to_ident : gmap string string) (output_dir : string)
    (q : Request) : list Event * (Event + Target) :=
  let key := norm P (name q) in
  match name_to_ident !! key with
  | None => ([], inl (FailNotInData (name q)))
  | Some base_ident =>
      let attempt :=
        match build_identifier base_ident (tier q) (enchant q) with
        | inl e => inl (FailException (name q) base_ident e)
        | inr (ident, tier_for_filename) =>
            let url := build_url ident (quality q) in
            let out_file :=
              path_join output_dir
                (build_filename (name q) tier_for_filename (enchant q) (quality q)) in
            inr (mkTarget base_ident ident tier_for_filename url out_file)
        end in
      if has_tier_prefix base_ident then
        let embedded_tier := extract_tier_from_ident base_ident in
        (if negb (tier q =? -1) && negb (tier q =? embedded_tier)
         then [WarnTierIgnored (name q) (tier q) embedded_tier] else [],
         attempt)
      else if tier q =? -1 then ([], inl (FailTierRequired (name q)))
      else ([], attempt)
  end.

(** The text written back to the request file. *)
Definition rewritten (failed : list string) : string :=
  String.concat EmptyString
    (List.map (fun line => rstrip P line ++ String LF EmptyString) failed).

Context {World : Type}.
Variable E : Env World.

(** [parse_requests_file]: [inl e] stands for an exception that the
    function lets through, raised by [open] or by the csv reader. *)
Definition parse_requests_file (path : string) (w : World)
  : string + (list Event * list Request) :=
  if negb (path_exists E path w) then inr ([ErrInputNotFound path], [])
  else
    match read_text E path w with
    | inl e => inl e
    | inr text =>
        match Csv.reader_rows (file_lines EmptyString text) with
        | Some rows => inr (parse_rows rows)
        | None => inl "csv.Error"
        end
    end.

(** One iteration of the loop of [main]. *)
Definition process (name_to_ident : gmap string string) (output_dir : string)
    (s : Loop) (q : Request) : Loop :=
  let '(warnings, r) := resolve name_to_ident output_dir q in
  let out := (console s ++ warnings)%list in
  match r with
  | inl failure =>
      mkLoop (failed_lines s ++ [original_line q]) (out ++ [failure]) (world s)
  | inr t =>
      match download_one E (url t) (out_file t) (world s) with
      | (None, w) =>
          mkLoop (failed_lines s) (out ++ [OkSaved (name q) (out_file t)]) w
      | (Some e, w) =>
          mkLoop (failed_lines s ++ [original_line q])
                 (out ++ [FailException (name q) (base_ident t) e]) w
      end
  end.

(** The message that closes a run whose rewrite went through. *)
Definition closing (failed : list string) (input_path : string) : Event :=
  match failed with
  | [] => InfoAllDownloaded input_path
  | _ => InfoKept (length failed) input_path
  end.

(** [main] *)
Definition main (argv : list string) (items_csv : string) (w : World)
  : Result World :=
  let input_path := default DEFAULT_INPUT (argv !! 1%nat) in
  let output_dir := default DEFAULT_OUTPUT_DIR (argv !! 2%nat) in
  match makedirs E output_dir w with
  | (Some e, w) => Crashed e w
  | (None, w) =>
      match parse_embedded_items items_csv with
      | None => Crashed "csv.Error" w
      | Some name_to_ident =>
          if bool_decide (name_to_ident = ∅)
          then Finished (SysExit 1) [ErrMappingEmpty] w
          else
            match parse_requests_file input_path w with
            | inl e => Crashed e w
            | inr (warnings, entries) =>
                match entries with
                | [] => Finished Returned (warnings ++ [InfoNoEntries]) w
                | _ =>
                    let s := fold_left (process name_to_ident output_dir) entries
                               (mkLoop [] warnings w) in
                    match write_text E input_path (rewritten (failed_lines s))
                            (world s) with
                    | (None, w) =>
                        Finished Returned
                          (console s ++ [closing (failed_lines s) input_path]) w
                    | (Some e, w) =>
                        Finished Returned
                          (console s ++ [WarnCouldNotRewrite input_path e]) w
                    end
                end
            end
      end
  end.



End With.

(** An operating system that refuses nothing: the files are a map from
    paths to texts, and [fetch] tells how each fetch ends. *)
Definition memory (fetch : string -> string -> option string)
  : Env (gmap string string) :=
  mkEnv (gmap string string)
    (fun _ w => (None, w))
    (fun p w => bool_decide (is_Some (w !! p)))
    (fun p w => match w !! p with
                | Some text => inr text
                | None => inl "FileNotFoundError"
                end)
    (fun p text w => (None, <[p := text]> w))
    (fun url filepath w => (fetch url filepath, w)).

End Os.


(** ** The embedded item data *)

Definition ITEMS_CSV : string := "
# WEAPONS
Bow, 2H_BOW
Warbow, 2H_WARBOW
Longbow, 2H_LONGBOW
Whispering Bow, 2H_LONGBOW_UNDEAD
Wailing Bow, 2H_BOW_HELL
Bow of Badon, 2H_BOW_KEEPER
Mistpiercer, 2H_BOW_AVALON
Skystrider Bow, 2H_BOW_CRYSTAL
Crossbow, 2H_CROSSBOW
Heavy Crossbow, 2H_CROSSBOWLARGE
Light Crossbow, MAIN_1HCROSSBOW
Weeping Repeater, 2H_REPEATINGCROSSBOW_UNDEAD
Boltcasters, 2H_DUALCROSSBOW_HELL
Siegebow, 2H_CROSSBOWLARGE_MORGANA
Energy Shaper, 2H_CROSSBOW_CANNON_AVALON
Arclight Blasters, 2H_DUALCROSSBOW_CRYSTAL
Cursed Staff, MAIN_CURSEDSTAFF
Great Cursed Staff, 2H_CURSEDSTAFF
Demonic Staff, 2H_DEMONICSTAFF
Lifecurse Staff, MAIN_CURSEDSTAFF_UNDEAD
Cursed Skull, 2H_SKULLORB_HELL
Damnation Staff, 2H_CURSEDSTAFF_MORGANA
Shadowcaller, MAIN_CURSEDSTAFF_AVALON
Rotcaller Staff, MAIN_CURSEDSTAFF_CRYSTAL
Fire Staff, MAIN_FIRESTAFF
Great Fire Staff, 2H_FIRESTAFF
Vendetta's Wrath, 2H_FIRESTAFF
Infernal Staff, 2H_INFERNOSTAFF
Wildfire Staff, MAIN_FIRESTAFF_KEEPER
Brimstone Staff, 2H_FIRESTAFF_HELL
Blazing Staff, 2H_INFERNOSTAFF_MORGANA
Dawnsong, 2H_FIRE_RINGPAIR_AVALON
Flamewalker Staff, MAIN_FIRESTAFF_CRYSTAL
Frost Staff, MAIN_FROSTSTAFF
Great Frost Staff, 2H_FROSTSTAFF
Glacial Staff, 2H_GLACIALSTAFF
Hoarfrost Staff, MAIN_FROSTSTAFF_KEEPER
Icicle Staff, 2H_ICEGAUNTLETS_HELL
Permafrost Prism, 2H_ICECRYSTAL_UNDEAD
Chillhowl, MAIN_FROSTSTAFF_AVALON
Arctic Staff, 2H_FROSTSTAFF_CRYSTAL
Arcane Staff, MAIN_ARCANESTAFF
Great Arcane Staff, 2H_ARCANESTAFF
Enigmatic Staff, 2H_ENIGMATICSTAFF
Witchwork Staff, MAIN_ARCANESTAFF_UNDEAD
Occult Staff, 2H_ARCANESTAFF_HELL
Malevolent Locus, 2H_ENIGMATICORB_MORGANA
Evensong, 2H_ARCANE_RINGPAIR_AVALON
Astral Staff, 2H_ARCANESTAFF_CRYSTAL
Holy Staff, MAIN_HOLYSTAFF
Great Holy Staff, 2H_HOLYSTAFF
Divine Staff, 2H_DIVINESTAFF
Lifetouch Staff, MAIN_HOLYSTAFF_MORGANA
Fallen Staff, 2H_HOLYSTAFF_HELL
Redemption Staff, 2H_HOLYSTAFF_UNDEAD
Hallowfall, MAIN_HOLYSTAFF_AVALON
Exalted Staff, 2H_HOLYSTAFF_CRYSTAL
Nature Staff, MAIN_NATURESTAFF
Great Nature Staff, 2H_NATURESTAFF
Wild Staff, 2H_WILDSTAFF
Druidic Staff, MAIN_NATURESTAFF_KEEPER
Blight Staff, 2H_NATURESTAFF_HELL
Rampant Staff, 2H_NATURESTAFF_KEEPER
Ironroot Staff, MAIN_NATURESTAFF_AVALON
Forgebark Staff, MAIN_NATURESTAFF_CRYSTAL
Dagger, MAIN_DAGGER
Dagger Pair, 2H_DAGGERPAIR
Claws, 2H_CLAWPAIR
Bloodletter, MAIN_RAPIER_MORGANA
Demonfang, MAIN_DAGGER_HELL
Deathgivers, 2H_DUALSICKLE_UNDEAD
Bridled Fury, 2H_DAGGER_KATAR_AVALON
Twin Slayers, 2H_DAGGERPAIR_CRYSTAL
Spear, MAIN_SPEAR
Pike, 2H_SPEAR
Glaive, 2H_GLAIVE
Heron Spear, MAIN_SPEAR_KEEPER
Spirithunter, 2H_HARPOON_HELL
Trinity Spear, 2H_TRIDENT_UNDEAD
Daybreaker, MAIN_SPEAR_LANCE_AVALON
Rift Glaive, 2H_GLAIVE_CRYSTAL
Battleaxe, MAIN_AXE
Greataxe, 2H_AXE
The Hand of Khor, 2H_AXE
Halberd, 2H_HALBERD
Carrioncaller, 2H_HALBERD_MORGANA
Infernal Scythe, 2H_SCYTHE_HELL
Bear Paws, 2H_DUALAXE_KEEPER
Realmbreaker, 2H_AXE_AVALON
Crystal Reaper, 2H_SCYTHE_CRYSTAL
Broadsword, MAIN_SWORD
Claymore, 2H_CLAYMORE
Dual Swords, 2H_DUALSWORD
Clarent Blade, MAIN_SCIMITAR_MORGANA
Carving Sword, 2H_CLEAVER_HELL
Galatine Pair, 2H_DUALSCIMITAR_UNDEAD
Kingmaker, 2H_CLAYMORE_AVALON
Infinity Blade, MAIN_SWORD_CRYSTAL
Quarterstaff, 2H_QUARTERSTAFF
Iron-clad Staff, 2H_IRONCLADEDSTAFF
Double Bladed Staff, 2H_DOUBLEBLADEDSTAFF
Black Monk Stave, 2H_COMBATSTAFF_MORGANA
Soulscythe, 2H_TWINSCYTHE_HELL
Staff of Balance, 2H_ROCKSTAFF_KEEPER
Grailseeker, 2H_QUARTERSTAFF_AVALON
Phantom Twinblade, 2H_DOUBLEBLADEDSTAFF_CRYSTAL
Hammer, MAIN_HAMMER
Polehammer, 2H_POLEHAMMER
Great Hammer, 2H_HAMMER
Tombhammer, 2H_HAMMER_UNDEAD
Forge Hammers, 2H_DUALHAMMER_HELL
Grovekeeper, 2H_RAM_KEEPER
Hand of Justice, 2H_HAMMER_AVALON
Truebolt Hammer, 2H_HAMMER_CRYSTAL
Mace, MAIN_MACE
Heavy Mace, 2H_MACE
Morning Star, 2H_FLAIL
Bedrock Mace, MAIN_ROCKMACE_KEEPER
Incubus Mace, MAIN_MACE_HELL
Camlann Mace, 2H_MACE_MORGANA
Oathkeepers, 2H_DUALMACE_AVALON
Dreadstorm Monarch, MAIN_MACE_CRYSTAL
Brawler Gloves, 2H_KNUCKLES_SET1
Battle Bracers, 2H_KNUCKLES_SET2
Spiked Gauntlets, 2H_KNUCKLES_SET3
Ursine Maulers, 2H_KNUCKLES_KEEPER
Hellfire Hands, 2H_KNUCKLES_HELL
Ravenstrike Cestus, 2H_KNUCKLES_MORGANA
Fists of Avalon, 2H_KNUCKLES_AVALON
Forcepulse Bracers, 2H_KNUCKLES_CRYSTAL
Prowling Staff, 2H_SHAPESHIFTER_SET1
Rootbound Staff, 2H_SHAPESHIFTER_SET2
Primal Staff, 2H_SHAPESHIFTER_SET3
Bloodmoon Staff, 2H_SHAPESHIFTER_MORGANA
Hellspawn Staff, 2H_SHAPESHIFTER_HELL
Earthrune Staff, 2H_SHAPESHIFTER_KEEPER
Lightcaller, 2H_SHAPESHIFTER_AVALON
Stillgaze Staff, 2H_SHAPESHIFTER_CRYSTAL

# OFFHANDS
Shield, OFF_SHIELD
Sarcophagus, OFF_TOWERSHIELD_UNDEAD
Caitiff Shield, OFF_SHIELD_HELL
Facebreaker, OFF_SPIKEDSHIELD_MORGANA
Astral Aegis, OFF_SHIELD_AVALON
Tome of Spells, OFF_BOOK
Eye of Secrets, OFF_ORB_MORGANA
Muisak, OFF_DEMONSKULL_HELL
Taproot, OFF_TOTEM_KEEPER
Celestial Censer, OFF_CENSER_AVALON
Torch, OFF_TORCH
Mistcaller, OFF_HORN_KEEPER
Sacred Scepter, OFF_TALISMAN_AVALON
Cryptcandle, OFF_LAMP_UNDEAD
Leering Cane, OFF_JESTERCANE_HELL

# ARMORS
Soldier Helmet, HEAD_PLATE_SET1
Soldier Armor, ARMOR_PLATE_SET1
Soldier Boots, SHOES_PLATE_SET1
Knight Helmet, HEAD_PLATE_SET2
Knight Armor, ARMOR_PLATE_SET2
Knight Boots, SHOES_PLATE_SET2
Guardian Helmet, HEAD_PLATE_SET3
Guardian Armor, ARMOR_PLATE_SET3
Guardian Boots, SHOES_PLATE_SET3
Graveguard Helmet, HEAD_PLATE_UNDEAD
Graveguard Armor, ARMOR_PLATE_UNDEAD
Graveguard Boots, SHOES_PLATE_UNDEAD
Demon Helmet, HEAD_PLATE_HELL
Demon Armor, ARMOR_PLATE_HELL
Demon Boots, SHOES_PLATE_HELL
Judicator Helmet, HEAD_PLATE_KEEPER
Judicator Armor, ARMOR_PLATE_KEEPER
Judicator Boots, SHOES_PLATE_KEEPER
Duskweaver Helmet, HEAD_PLATE_FEY
Duskweaver Armor, ARMOR_PLATE_FEY
Duskweaver Boots, SHOES_PLATE_FEY
Helmet of Valor, HEAD_PLATE_AVALON
Armor of Valor, ARMOR_PLATE_AVALON
Boots of Valor, SHOES_PLATE_AVALON
Mercenary Hood, HEAD_LEATHER_SET1
Mercenary Jacket, ARMOR_LEATHER_SET1
Mercenary Shoes, SHOES_LEATHER_SET1
Hunter Hood, HEAD_LEATHER_SET2
Hunter Jacket, ARMOR_LEATHER_SET2
Hunter Shoes, SHOES_LEATHER_SET2
Assassin Hood, HEAD_LEATHER_SET3
Assassin Jacket, ARMOR_LEATHER_SET3
Assassin Shoes, SHOES_LEATHER_SET3
Stalker Hood, HEAD_LEATHER_MORGANA
Stalker Jacket, ARMOR_LEATHER_MORGANA
Stalker Shoes, SHOES_LEATHER_MORGANA
Hellion Hood, HEAD_LEATHER_HELL
Hellion Jacket, ARMOR_LEATHER_HELL
Hellion Shoes, SHOES_LEATHER_HELL
Specter Hood, HEAD_LEATHER_UNDEAD
Specter Jacket, ARMOR_LEATHER_UNDEAD
Specter Shoes, SHOES_LEATHER_UNDEAD
Mistwalker Hood, HEAD_LEATHER_FEY
Mistwalker Jacket, ARMOR_LEATHER_FEY
Mistwalker Shoes, SHOES_LEATHER_FEY
Hood of Tenacity, HEAD_LEATHER_AVALON
Jacket of Tenacity, ARMOR_LEATHER_AVALON
Shoes of Tenacity, SHOES_LEATHER_AVALON
Scholar Cowl, HEAD_CLOTH_SET1
Scholar Robe, ARMOR_CLOTH_SET1
Scholar Sandals, SHOES_CLOTH_SET1
Cleric Cowl, HEAD_CLOTH_SET2
Cleric Robe, ARMOR_CLOTH_SET2
Cleric Sandals, SHOES_CLOTH_SET2
Mage Cowl, HEAD_CLOTH_SET3
Mage Robe, ARMOR_CLOTH_SET3
Mage Sandals, SHOES_CLOTH_SET3
Druid Cowl, HEAD_CLOTH_KEEPER
Druid Robe, ARMOR_CLOTH_KEEPER
Druid Sandals, SHOES_CLOTH_KEEPER
Fiend Cowl, HEAD_CLOTH_HELL
Fiend Robe, ARMOR_CLOTH_HELL
Fiend Sandals, SHOES_CLOTH_HELL
Cultist Cowl, HEAD_CLOTH_MORGANA
Cultist Robe, ARMOR_CLOTH_MORGANA
Cultist Sandals, SHOES_CLOTH_MORGANA
Feyscale Hat, HEAD_CLOTH_FEY
Feyscale Robe, ARMOR_CLOTH_FEY
Feyscale Sandals, SHOES_CLOTH_FEY
Cowl of Purity, HEAD_CLOTH_AVALON
Robe of Purity, ARMOR_CLOTH_AVALON
Sandals of Purity, SHOES_CLOTH_AVALON
Royal Cowl, HEAD_CLOTH_ROYAL
Royal Robe, ARMOR_CLOTH_ROYAL
Royal Sandals, SHOES_CLOTH_ROYAL
Royal Hood, HEAD_LEATHER_ROYAL
Royal Jacket, ARMOR_LEATHER_ROYAL
Royal Shoes, SHOES_LEATHER_ROYAL
Royal Helmet, HEAD_PLATE_ROYAL
Royal Armor, ARMOR_PLATE_ROYAL
Royal Boots, SHOES_PLATE_ROYAL

# CAPES
Cape, CAPE
Bridgewatch Cape, CAPEITEM_FW_BRIDGEWATCH
Fort Sterling Cape, CAPEITEM_FW_FORTSTERLING
Lymhurst Cape, CAPEITEM_FW_LYMHURST
Martlock Cape, CAPEITEM_FW_MARTLOCK
Thetford Cape, CAPEITEM_FW_THETFORD
Caerleon Cape, CAPEITEM_FW_CAERLEON
Brecilien Cape, CAPEITEM_FW_BRECILIEN
Avalonian Cape, CAPEITEM_AVALON
Smuggler Cape, CAPEITEM_SMUGGLER
Heretic Cape, CAPEITEM_HERETIC
Undead Cape, CAPEITEM_UNDEAD
Keeper Cape, CAPEITEM_KEEPER
Morgana Cape, CAPEITEM_MORGANA
Demon Cape, CAPEITEM_DEMON

# BAGS
Bag, BAG
Satchel of Insight, BAG_INSIGHT

# MOUNTS
Mule, T2_MOUNT_MULE
Riding Horse, T3_MOUNT_HORSE
Armored Horse, T5_MOUNT_ARMORED_HORSE
Transport Ox, T3_MOUNT_OX
Giant Stag, T4_MOUNT_GIANTSTAG
Moose, T6_MOUNT_GIANTSTAG_MOOSE
Direwolf, T6_MOUNT_DIREWOLF
Saddled Direboar, T7_MOUNT_DIREBOAR
Saddled Swamp Dragon, T7_MOUNT_SWAMPDRAGON
Saddled Direbear, T8_MOUNT_DIREBEAR
Transport Mammoth, T8_MOUNT_MAMMOTH_TRANSPORT
Saddled Moabird, T5_MOUNT_MOABIRD_FW_BRIDGEWATCH
Saddled Winter Bear, T5_MOUNT_DIREBEAR_FW_FORTSTERLING
Saddled Wild Boar, T5_MOUNT_DIREBOAR_FW_LYMHURST
Saddled Bighorn Ram, T5_MOUNT_RAM_FW_MARTLOCK
Saddled Swamp Salamander, T5_MOUNT_SWAMPDRAGON_FW_THETFORD
Saddled Greywolf, T5_MOUNT_GREYWOLF_FW_CAERLEON
Saddled Mystic Owl, T5_MOUNT_OWL_FW_BRECILIEN
Elite Terrorbird, T8_MOUNT_MOABIRD_FW_BRIDGEWATCH_ELITE
Elite Winter Bear, T8_MOUNT_DIREBEAR_FW_FORTSTERLING_ELITE
Elite Wild Boar, T8_MOUNT_DIREBOAR_FW_LYMHURST_ELITE
Elite Bighorn Ram, T8_MOUNT_RAM_FW_MARTLOCK_ELITE
Elite Swamp Salamander, T8_MOUNT_SWAMPDRAGON_FW_THETFORD_ELITE
Elite Greywolf, T8_MOUNT_GREYWOLF_FW_CAERLEON_ELITE
Elite Mystic Owl, T8_MOUNT_OWL_FW_BRECILIEN_ELITE
Hellspinner, T5_MOUNT_SPIDER_HELL
Soulspinner, T8_MOUNT_SPIDER_HELL
Command Mammoth, T8_MOUNT_MAMMOTH_BATTLE
Flame Basilisk, T7_MOUNT_SWAMPDRAGON_BATTLE
Venom Basilisk, T7_MOUNT_ARMORED_SWAMPDRAGON_BATTLE
Siege Ballista, T6_MOUNT_SIEGE_BALLISTA
Spectral Bonehorse, T8_MOUNT_HORSE_UNDEAD
Swiftclaw, T5_MOUNT_COUGAR_KEEPER
Rageclaw, T8_MOUNT_COUGAR_KEEPER
Morgana Nightmare, T8_MOUNT_ARMORED_HORSE_MORGANA
Spring Cottontail, T8_MOUNT_RABBIT_EASTER
Caerleon Cottontail, T8_MOUNT_RABBIT_EASTER_DARK
Yule Ram, UNIQUE_MOUNT_RAM_XMAS
Avalonian Basilisk, T7_MOUNT_SWAMPDRAGON_AVALON_BASILISK
Recruiter's Ram, UNIQUE_MOUNT_RAM_TELLAFRIEND
Recruiter's Moabird, UNIQUE_MOUNT_MOABIRD_TELLAFRIEND
Recruiter's Saddled Bat, UNIQUE_MOUNT_BAT_TELLAFRIEND
Recruiter's Toad, UNIQUE_MOUNT_GIANTTOAD_TELLAFRIEND
Recruiter's Giant Frog, UNIQUE_MOUNT_GIANTTOAD_02_TELLAFRIEND
Warhorse, T5_MOUNT_ARMORED_HORSE_SKIN_01
Spectral Bat, UNIQUE_MOUNT_BAT_PERSONAL
Pest Lizard, T7_MOUNT_MONITORLIZARD_ADC
Snow Husky, T7_MOUNT_HUSKY_ADC
Frost Ram, T6_MOUNT_FROSTRAM_ADC
Saddled Terrorbird, T7_MOUNT_TERRORBIRD_ADC
Grizzly Bear, UNIQUE_MOUNT_BEAR_KEEPER_ADC
Black Panther, UNIQUE_MOUNT_BLACK_PANTHER_ADC
Morgana Raven, UNIQUE_MOUNT_MORGANA_RAVEN_ADC
Gallant Horse, UNIQUE_MOUNT_GIANT_HORSE_ADC
Spectral Direboar, UNIQUE_MOUNT_UNDEAD_DIREBOAR_ADC
Divine Owl, UNIQUE_MOUNT_DIVINE_OWL_ADC
Heretic Combat Mule, UNIQUE_MOUNT_HERETIC_MULE_ADC
Crystal Battle Rhino, UNIQUE_MOUNT_RHINO_SEASON_CRYSTAL
Gold Battle Rhino, UNIQUE_MOUNT_RHINO_SEASON_GOLD
Silver Battle Rhino, UNIQUE_MOUNT_RHINO_SEASON_SILVER
Bronze Battle Rhino, UNIQUE_MOUNT_RHINO_SEASON_BRONZE
Crystal Tower Chariot, UNIQUE_MOUNT_TOWER_CHARIOT_CRYSTAL
Gold Tower Chariot, UNIQUE_MOUNT_TOWER_CHARIOT_GOLD
Silver Tower Chariot, UNIQUE_MOUNT_TOWER_CHARIOT_SILVER
Crystal Battle Eagle, UNIQUE_MOUNT_ARMORED_EAGLE_CRYSTAL
Gold Battle Eagle, UNIQUE_MOUNT_ARMORED_EAGLE_GOLD
Silver Battle Eagle, UNIQUE_MOUNT_ARMORED_EAGLE_SILVER
Crystal Colossus Beetle, UNIQUE_MOUNT_BEETLE_CRYSTAL
Gold Colossus Beetle, UNIQUE_MOUNT_BEETLE_GOLD
Silver Colossus Beetle, UNIQUE_MOUNT_BEETLE_SILVER
Crystal Behemoth, UNIQUE_MOUNT_BEHEMOTH_CRYSTAL
Gold Behemoth, UNIQUE_MOUNT_BEHEMOTH_GOLD
Silver Behemoth, UNIQUE_MOUNT_BEHEMOTH_SILVER
Crystal Ancient Ent, UNIQUE_MOUNT_ENT_CRYSTAL
Gold Ancient Ent, UNIQUE_MOUNT_ENT_GOLD
Silver Ancient Ent, UNIQUE_MOUNT_ENT_SILVER
Crystal Goliath Horseeater, UNIQUE_MOUNT_BATTLESPIDER_CRYSTAL
Gold Goliath Horseeater, UNIQUE_MOUNT_BATTLESPIDER_GOLD
Silver Goliath Horseeater, UNIQUE_MOUNT_BATTLESPIDER_SILVER
Crystal Roving Bastion, UNIQUE_MOUNT_BASTION_CRYSTAL
Gold Roving Bastion, UNIQUE_MOUNT_BASTION_GOLD
Silver Roving Bastion, UNIQUE_MOUNT_BASTION_SILVER
Crystal Juggernaut, UNIQUE_MOUNT_JUGGERNAUT_CRYSTAL
Gold Juggernaut, UNIQUE_MOUNT_JUGGERNAUT_GOLD
Silver Juggernaut, UNIQUE_MOUNT_JUGGERNAUT_SILVER
Crystal Phalanx Beetle, UNIQUE_MOUNT_TANKBEETLE_CRYSTAL
Gold Phalanx Beetle, UNIQUE_MOUNT_TANKBEETLE_GOLD
Silver Phalanx Beetle, UNIQUE_MOUNT_TANKBEETLE_SILVER

# POTIONS
Healing Potion, POTION_HEAL
Energy Potion, POTION_ENERGY
Gigantify Potion, POTION_REVIVE
Resistance Potion, POTION_STONESKIN
Sticky Potion, POTION_SLOWFIELD
Poison Potion, POTION_COOLDOWN
Invisibility Potion, POTION_CLEANSE
Calming Potion, POTION_MOB_RESET
Cleansing Potion, POTION_CLEANSE2
Acid Potion, POTION_ACID
Berserk Potion, POTION_BERSERK
Hellfire Potion, POTION_LAVA
Gathering Potion, POTION_GATHER
Tornado in a Bottle, POTION_TORNADO

# FOODS
Grilled Fish, T1_MEAL_GRILLEDFISH
Seaweed Salad, T1_MEAL_SEAWEEDSALAD
Carrot Soup, T1_MEAL_SOUP
Wheat Soup, T3_MEAL_SOUP
Cabbage Soup, T5_MEAL_SOUP
Greenmoor Clam Soup, T1_MEAL_SOUP_FISH
Murkwater Clam Soup, T3_MEAL_SOUP_FISH
Blackbog Clam Soup, T5_MEAL_SOUP_FISH
Bean Salad, T2_MEAL_SALAD
Turnip Salad, T4_MEAL_SALAD
Potato Salad, T6_MEAL_SALAD
Shallowshore Squid Salad, T2_MEAL_SALAD_FISH
Midwater Octopus Salad, T4_MEAL_SALAD_FISH
Deepwater Kraken Salad, T6_MEAL_SALAD_FISH
Chicken Pie, T3_MEAL_PIE
Goose Pie, T5_MEAL_PIE
Pork Pie, T7_MEAL_PIE
Upland Coldeye Pie, T3_MEAL_PIE_FISH
Mountain Blindeye Pie, T5_MEAL_PIE_FISH
Frostpeak Deadeye Pie, T7_MEAL_PIE_FISH
Chicken Omelette, T3_MEAL_OMELETTE
Goose Omelette, T5_MEAL_OMELETTE
Pork Omelette, T7_MEAL_OMELETTE
Lowriver Crab Omelette, T3_MEAL_OMELETTE_FISH
Drybrook Crab Omelette, T5_MEAL_OMELETTE_FISH
Dusthole Crab Omelette, T7_MEAL_OMELETTE_FISH
Avalonian Chicken Omelette, T3_MEAL_OMELETTE_AVALON
Avalonian Goose Omelette, T5_MEAL_OMELETTE_AVALON
Avalonian Pork Omelette, T7_MEAL_OMELETTE_AVALON
Goat Stew, T4_MEAL_STEW
Mutton Stew, T6_MEAL_STEW
Beef Stew, T8_MEAL_STEW
Greenriver Eel Stew, T4_MEAL_STEW_FISH
Redspring Eel Stew, T6_MEAL_STEW_FISH
Deadwater Eel Stew, T8_MEAL_STEW_FISH
Avalonian Goat Stew, T4_MEAL_STEW_AVALON
Avalonian Mutton Stew, T6_MEAL_STEW_AVALON
Avalonian Beef Stew, T8_MEAL_STEW_AVALON
Goat Sandwich, T4_MEAL_SANDWICH
Mutton Sandwich, T6_MEAL_SANDWICH
Beef Sandwich, T8_MEAL_SANDWICH
Stonestream Lurcher Sandwich, T4_MEAL_SANDWICH_FISH
Rushwater Lurcher Sandwich, T6_MEAL_SANDWICH_FISH
Thunderfall Lurcher Sandwich, T8_MEAL_SANDWICH_FISH
Avalonian Goat Sandwich, T4_MEAL_SANDWICH_AVALON
Avalonian Mutton Sandwich, T6_MEAL_SANDWICH_AVALON
Avalonian Beef Sandwich, T8_MEAL_SANDWICH_AVALON
Roast Chicken, T3_MEAL_ROAST
Roast Goose, T5_MEAL_ROAST
Roast Pork, T7_MEAL_ROAST
Roasted Whitefog Snapper, T3_MEAL_ROAST_FISH
Roasted Clearhaze Snapper, T5_MEAL_ROAST_FISH
Roasted Puremist Snapper, T7_MEAL_ROAST_FISH

# SIPHONED
Siphoned Energy, UNIQUE_GVGTOKEN_GENERIC
".

(** The table the script works with. *)
Definition name_to_ident : gmap string string :=
  default ∅ (parse_embedded_items ITEMS_CSV).

(** ** Vocabulary of the specification *)

(** The local variable [core] of [build_identifier]. *)
Definition core_token (base_ident : string) (tier : Z) : string :=
  if has_tier_prefix base_ident then base_ident
  else "T" ++ Py.str tier ++ "_" ++ base_ident.

(** The enchantment marker that follows the core token. *)
Definition enchant_suffix (enchant : Z) : string :=
  if enchant =? 0 then EmptyString else "@" ++ Py.str enchant.

(** What a path separator becomes in a file name. *)
Definition escape_separator (c : ascii) : ascii :=
  if Ascii.eqb c "/" || Ascii.eqb c "\" then "-"%char else c.

Fixpoint map_chars (f : ascii -> ascii) (s : string) : string :=
  match s with
  | EmptyString => EmptyString
  | String c s' => String (f c) (map_chars f s')
  end.

(** The words of the qualities above the default one. *)
Definition quality_word (quality : Z) : option string :=
  if quality =? 2 then Some "Good"
  else if quality =? 3 then Some "Outstanding"
  else if quality =? 4 then Some "Excellent"
  else if quality =? 5 then Some "Masterpiece"
  else None.

(** The file name up to the quality: name, tier and enchantment. *)
Definition filename_stem (name : string) (tier enchant : Z) : string :=
  map_chars escape_separator name ++ " " ++ Py.str tier ++
  (if 0 <? enchant then "." ++ Py.str enchant else EmptyString).

(** The range checks a request passes before it is handed on. *)
Definition valid_request (q : Request) : Prop :=
  name q <> EmptyString /\
  (tier q = -1 \/ 1 <= tier q <= 8) /\
  0 <= enchant q <= 4 /\
  1 <= quality q <= 5.

(** The columns of a line that is dropped for a number out of its
    range: the tier, the enchantment or the quality is an integer for
    [int], and not one the script accepts. *)
Definition out_of_range (P : Os.Str) (cols : list string) : Prop :=
  (exists n, Os.int_column P cols 1 = Some (inr n) /\ n <> -1 /\ ~ 1 <= n <= 8) \/
  (exists n, Os.int_column P cols 2 = Some (inr n) /\ ~ 0 <= n <= 4) \/
  (exists n, Os.int_column P cols 3 = Some (inr n) /\ ~ 1 <= n <= 5).

Definition is_invalid_warning (name : string) (e : Event) : Prop :=
  exists n, e = WarnInvalidTier n name \/ e = WarnInvalidEnchant n name \/
            e = WarnInvalidQuality n name.

(** ** Sample runs *)

(** A service that delivers every image. *)
Definition always_fetched (url filepath : string) (w : unit) : option string * unit :=
  (None, w).

Definition line (text : string) : string := text ++ String LF EmptyString.

(** The service for [Os.memory]: one that delivers every image, and one
    that is down. *)
Definition fetch_ok (url filepath : string) : option string := None.

Definition unknown_item_bad_tier : gmap string string :=
  {[ "downloads.txt" := line "Not A Real Item, six" ]}.
Definition two_requests : gmap string string :=
  {[ "downloads.txt" := line "Cleric Robe, 6, 1, 4" ++ line "Not A Real Item, 3" ]}.

(** ** Auxiliary definitions for the proofs *)

(** The normal form of a name computed in one pass over the text: a
    space is owed ([Pending]) once whitespace follows a word and is paid
    when the next word starts. *)
Inductive scan_state := AtStart | InWord | Pending.

Definition after_space (st : scan_state) : scan_state :=
  match st with AtStart => AtStart | _ => Pending end.

Fixpoint scan (st : scan_state) (s : string) : string :=
  match s with
  | EmptyString => EmptyString
  | String c s' =>
      if Py.isspace c then scan (after_space st) s'
      else match st with
           | Pending => String " " (String c (scan InWord s'))
           | _ => String c (scan InWord s')
           end
  end.

(** Every character of [s] satisfies [p]. *)
Fixpoint all_chars (p : ascii -> bool) (s : string) : bool :=
  match s with
  | EmptyString => true
  | String c s' => p c && all_chars p s'
  end.

Definition not_newline (c : ascii) : bool := negb (is_newline c).

Definition not_CR (c : ascii) : bool := negb (Ascii.eqb c CR).

(** The number of characters of all the lines. *)
Fixpoint total_len (lines : list string) : N :=
  match lines with
  | [] => 0
  | l :: lines' => Py.len l + total_len lines'
  end.

(** The characters of all the lines, one more for each line. *)
Fixpoint weight (lines : list string) : N :=
  match lines with
  | [] => 0
  | l :: lines' => Py.len l + 1 + weight lines'
  end.

(** Where the csv reader stands after a whole line. *)
Definition between_lines (r : Csv.reader) : Prop :=
  Csv.st r = Csv.START_RECORD \/ Csv.st r = Csv.IN_QUOTED_FIELD.

(** A line as a line-by-line read hands it to the csv reader: once a
    newline character has come, only newline characters follow. *)
Fixpoint line_ok (s : string) : bool :=
  match s with
  | EmptyString => true
  | String c s' => if is_newline c then all_chars is_newline s' else line_ok s'
  end.

(** ** Vocabulary of the further properties *)

Definition is_separator (c : ascii) : bool :=
  Ascii.eqb c "/" || Ascii.eqb c "\".

Definition not_separator (c : ascii) : bool := negb (is_separator c).

(** A digit or the minus sign: the characters [str] prints. *)
Definition is_numeral (c : ascii) : bool := Py.is_digit c || Ascii.eqb c "-".

(** A text that does not start with whitespace. *)
Definition starts_clean (s : string) : Prop :=
  match s with
  | EmptyString => True
  | String c _ => Py.isspace c = false
  end.

(** What holds of every entry of the table. *)
Definition entry_ok (k v : string) : Prop :=
  norm_name k = k /\ k <> EmptyString /\ Py.strip v = v /\ v <> EmptyString.

(** A character that neither ends a field nor a line. *)
Definition plain_char (c : ascii) : bool :=
  negb (Ascii.eqb c ",") && not_newline c.

(** A field the csv reader takes as it is written: no comma, no
    newline, no quote in front, and not longer than a field may be. *)
Definition field_ok (f : string) : Prop :=
  all_chars plain_char f = true /\
  Py.startswith (String QUOTE EmptyString) f = false /\
  (Py.len f <= Csv.field_limit)%N.

(** A column that, written back with a space in front of it, is such
    a field. *)
Definition column_ok (c : string) : Prop :=
  all_chars plain_char c = true /\ (Py.len c < Csv.field_limit)%N.

(** Part of a line fed to the csv reader, without the end-of-line
    mark. *)
Fixpoint feed_chars (r : Csv.reader) (s : string) : option Csv.reader :=
  match s with
  | EmptyString => Some r
  | String c s' =>
      match Csv.process_char r (Some c) with
      | Some r' => feed_chars r' s'
      | None => None
      end
  end.

(** [g] applied to the last element of a list. *)
Fixpoint map_last {A : Type} (g : A -> A) (l : list A) : list A :=
  match l with
  | [] => []
  | [x] => [g x]
  | x :: l' => x :: map_last g l'
  end.

(** The targets of the requests that resolve, in the order of the
    input. *)
Definition resolved_targets (name_to_ident : gmap string string)
    (output_dir : string) (entries : list Request) : list Target :=
  omap (fun q => match snd (resolve name_to_ident output_dir q) with
                 | inr t => Some t
                 | inl _ => None
                 end) entries.

(** One fetch after the other, threading the world. *)
Definition fetch_all {World : Type}
    (download_one : string -> string -> World -> option string * World)
    (w : World) (targets : list Target) : World :=
  fold_left (fun w t => snd (download_one (url t) (out_file t) w)) targets w.

(** ** Vocabulary of the request file *)





(** ** Normalisation over any alphabet

    [norm_name] once more, on texts over an alphabet that is left open:
    [isspace] tells the whitespace of [str.strip] and of the class [\s],
    [fold] is [str.casefold] on one character (it may give several:
    the sharp s folds to two letters), and [space] is the character the
    regular expression puts in.  With the 1,114,112 code points for
    [char] and Python's tables for [isspace] and [fold] this is
    [norm_name] on every [str]. *)

Module Unicode.

Section Chars.

Context {char : Type}.
Variable isspace : char -> bool.
Variable fold : char -> list char.
Variable space : char.

Definition is_empty (s : list char) : bool :=
  match s with [] => true | _ :: _ => false end.

Fixpoint lstrip (s : list char) : list char :=
  match s with
  | [] => []
  | c :: s' => if isspace c then lstrip s' else s
  end.

Fixpoint rstrip (s : list char) : list char :=
  match s with
  | [] => []
  | c :: s' =>
      let r := rstrip s' in
      if isspace c && is_empty r then [] else c :: r
  end.

Definition strip (s : list char) : list char := rstrip (lstrip s).

Fixpoint sub_space (in_run : bool) (s : list char) : list char :=
  match s with
  | [] => []
  | c :: s' =>
      if isspace c
      then if in_run then sub_space true s' else space :: sub_space true s'
      else c :: sub_space false s'
  end.

Definition casefold (s : list char) : list char := flat_map fold s.

Definition norm_name (name : list char) : list char :=
  casefold (sub_space false (strip name)).

(** The normal form before folding, in one pass. *)
Fixpoint scan (st : scan_state) (s : list char) : list char :=
  match s with
  | [] => []
  | c :: s' =>
      if isspace c then scan (after_space st) s'
      else match st with
           | Pending => space :: c :: scan InWord s'
           | _ => c :: scan InWord s'
           end
  end.

Fixpoint scan_end (st : scan_state) (s : list char) : scan_state :=
  match s with
  | [] => st
  | c :: s' => scan_end (if isspace c then after_space st else InWord) s'
  end.

End Chars.

(** The alphabet of [string]: ASCII, with the tables of [Py]. *)
Definition ascii_fold (c : ascii) : list ascii := [Py.casefold_char c].

(** Code points as numbers, with Python's tables for those below 256:
    whitespace is TAB to CR, FS to US, the space, NEL (133) and the
    no-break space (160); folding lowers A-Z and the capital letters
    192 to 222 (but not the multiplication sign, 215), turns the sharp
    s (223) into two letters s and the micro sign (181) into the Greek
    mu (956).  From 256 on the code points are left as they are, which
    is not Python's table. *)
Definition latin_isspace (n : N) : bool :=
  (((9 <=? n) && (n <=? 13)) || ((28 <=? n) && (n <=? 32)) ||
   (n =? 133) || (n =? 160))%N.

Definition latin_fold (n : N) : list N :=
  (if n =? 223 then [115; 115]
   else if n =? 181 then [956]
   else if (65 <=? n) && (n <=? 90) then [n + 32]
   else if (192 <=? n) && (n <=? 222) && negb (n =? 215) then [n + 32]
   else [n])%N.

Definition latin_norm_name : list N -> list N :=
  norm_name latin_isspace latin_fold 32%N.

End Unicode.

(** * Properties *)

(** ** Name normalisation *)

Section Normalisation.

Lemma isspace_casefold c : Py.isspace (Py.casefold_char c) = Py.isspace c.
Proof. destruct c as [[] [] [] [] [] [] [] []]; reflexivity. Qed.

Lemma casefold_char_idem c :
  Py.casefold_char (Py.casefold_char c) = Py.casefold_char c.
Proof. destruct c as [[] [] [] [] [] [] [] []]; reflexivity. Qed.

Lemma casefold_idem s : Py.casefold (Py.casefold s) = Py.casefold s.
Proof.
  induction s as [|c s IH]; simpl; [reflexivity|].
  now rewrite casefold_char_idem, IH.
Qed.

Lemma scan_pending u :
  scan Pending u =
  if Py.is_empty (Py.rstrip u) then EmptyString else String " " (scan AtStart u).
Proof.
  induction u as [|c u IH]; simpl; [reflexivity|].
  destruct (Py.isspace c) eqn:Hc; simpl.
  - rewrite IH. destruct (Py.is_empty (Py.rstrip u)); reflexivity.
  - reflexivity.
Qed.

Lemma sub_space_rstrip u :
  Py.sub_space true (Py.rstrip u) = scan AtStart u /\
  Py.sub_space false (Py.rstrip u) = scan InWord u.
Proof.
  induction u as [|c u [IH1 IH2]]; simpl; [split; reflexivity|].
  destruct (Py.isspace c) eqn:Hc; simpl.
  - rewrite scan_pending.
    destruct (Py.is_empty (Py.rstrip u)) eqn:He; simpl.
    + destruct (Py.rstrip u); [|discriminate].
      simpl in IH1. rewrite <- IH1. split; reflexivity.
    + rewrite Hc, IH1. split; reflexivity.
  - rewrite Hc, IH2. split; reflexivity.
Qed.

Lemma scan_lstrip s : scan InWord (Py.lstrip s) = scan AtStart s.
Proof.
  induction s as [|c s IH]; simpl; [reflexivity|].
  destruct (Py.isspace c) eqn:Hc; simpl; [exact IH|].
  rewrite Hc. reflexivity.
Qed.

(** [norm_name] is the one-pass normal form, case-folded. *)
Lemma norm_name_scan s : norm_name s = Py.casefold (scan AtStart s).
Proof.
  unfold norm_name, Py.strip.
  rewrite (proj2 (sub_space_rstrip _)), scan_lstrip. reflexivity.
Qed.

Lemma casefold_scan st s : Py.casefold (scan st s) = scan st (Py.casefold s).
Proof.
  revert st. induction s as [|c s IH]; intros st; simpl; [reflexivity|].
  rewrite isspace_casefold.
  destruct (Py.isspace c) eqn:Hc; [apply IH|].
  destruct st; simpl; rewrite IH; reflexivity.
Qed.

Lemma scan_idem s :
  scan AtStart (scan AtStart s) = scan AtStart s /\
  scan InWord (scan InWord s) = scan InWord s /\
  scan InWord (scan Pending s) = scan Pending s /\
  scan Pending (scan Pending s) = scan Pending s.
Proof.
  induction s as [|c s (IH1 & IH2 & IH3 & IH4)]; simpl; [repeat split|].
  destruct (Py.isspace c) eqn:Hc; simpl.
  - repeat split; assumption.
  - rewrite Hc, IH2. repeat split.
Qed.

Lemma app_empty_r (s : string) : s ++ EmptyString = s.
Proof. induction s as [|c s IH]; simpl; [reflexivity|now rewrite IH]. Qed.

End Normalisation.

(** ** Normalisation over any alphabet *)

Section AnyAlphabet.

Context {char : Type}.
Variable isspace : char -> bool.
Variable fold : char -> list char.
Variable space : char.

Hypothesis space_isspace : isspace space = true.
Hypothesis fold_space : forall c, isspace c = true -> fold c = [c].
Hypothesis fold_word : forall c d,
  isspace c = false -> In d (fold c) -> isspace d = false.
Hypothesis fold_not_empty : forall c, isspace c = false -> fold c <> [].
Hypothesis fold_idem : forall c, flat_map fold (fold c) = fold c.

Abbreviation uscan := (Unicode.scan isspace space).
Abbreviation ucasefold := (Unicode.casefold fold).
Abbreviation unorm := (Unicode.norm_name isspace fold space).

Lemma uscan_pending u :
  uscan Pending u =
  if Unicode.is_empty (Unicode.rstrip isspace u) then [] else space :: uscan AtStart u.
Proof.
  induction u as [|c u IH]; simpl; [reflexivity|].
  destruct (isspace c) eqn:Hc; simpl.
  - rewrite IH. destruct (Unicode.is_empty (Unicode.rstrip isspace u)); reflexivity.
  - reflexivity.
Qed.

Lemma usub_space_rstrip u :
  Unicode.sub_space isspace space true (Unicode.rstrip isspace u) = uscan AtStart u /\
  Unicode.sub_space isspace space false (Unicode.rstrip isspace u) = uscan InWord u.
Proof.
  induction u as [|c u [IH1 IH2]]; simpl; [split; reflexivity|].
  destruct (isspace c) eqn:Hc; simpl.
  - rewrite uscan_pending.
    destruct (Unicode.is_empty (Unicode.rstrip isspace u)) eqn:He; simpl.
    + destruct (Unicode.rstrip isspace u); [|discriminate].
      simpl in IH1. rewrite <- IH1. split; reflexivity.
    + rewrite Hc, IH1. split; reflexivity.
  - rewrite Hc, IH2. split; reflexivity.
Qed.

Lemma uscan_lstrip s : uscan InWord (Unicode.lstrip isspace s) = uscan AtStart s.
Proof.
  induction s as [|c s IH]; simpl; [reflexivity|].
  destruct (isspace c) eqn:Hc; simpl; [exact IH|].
  rewrite Hc. reflexivity.
Qed.

Lemma unorm_scan s : unorm s = ucasefold (uscan AtStart s).
Proof.
  unfold Unicode.norm_name, Unicode.strip.
  rewrite (proj2 (usub_space_rstrip _)), uscan_lstrip. reflexivity.
Qed.

(** A pass over a word that holds no whitespace. *)
Lemma uscan_word w : forall st s,
  w <> [] -> forallb (fun d => negb (isspace d)) w = true ->
  uscan st (w ++ s) =
  (match st with Pending => [space] | _ => [] end ++ w ++ uscan InWord s)%list.
Proof.
  induction w as [|d w IH]; intros st s Hne Hw; [contradiction|].
  cbn [forallb] in Hw. apply andb_true_iff in Hw as [Hd Hw].
  apply negb_true_iff in Hd.
  cbn [app Unicode.scan]. rewrite Hd.
  destruct w as [|d' w].
  - destruct st; reflexivity.
  - rewrite (IH InWord s ltac:(discriminate) Hw).
    destruct st; reflexivity.
Qed.

Lemma fold_word_all c :
  isspace c = false -> forallb (fun d => negb (isspace d)) (fold c) = true.
Proof.
  intros Hc. apply forallb_forall. intros d Hd.
  now rewrite (fold_word c d Hc Hd).
Qed.

Lemma ucasefold_scan st s : ucasefold (uscan st s) = uscan st (ucasefold s).
Proof.
  revert st. induction s as [|c s IH]; intros st; [reflexivity|].
  cbn [Unicode.scan Unicode.casefold flat_map].
  destruct (isspace c) eqn:Hc.
  - rewrite (fold_space c Hc). cbn [app Unicode.scan]. rewrite Hc. apply IH.
  - fold (ucasefold s).
    rewrite (uscan_word (fold c) st (ucasefold s) (fold_not_empty c Hc)
               (fold_word_all c Hc)).
    rewrite <- IH.
    destruct st; cbn [Unicode.casefold flat_map app];
      rewrite ?(fold_space space space_isspace); reflexivity.
Qed.

Lemma ucasefold_idem s : ucasefold (ucasefold s) = ucasefold s.
Proof.
  induction s as [|c s IH]; [reflexivity|].
  unfold Unicode.casefold in *. cbn [flat_map].
  now rewrite flat_map_app, fold_idem, IH.
Qed.

Lemma uscan_idem s :
  uscan AtStart (uscan AtStart s) = uscan AtStart s /\
  uscan InWord (uscan InWord s) = uscan InWord s /\
  uscan InWord (uscan Pending s) = uscan Pending s /\
  uscan Pending (uscan Pending s) = uscan Pending s.
Proof.
  induction s as [|c s (IH1 & IH2 & IH3 & IH4)]; simpl; [repeat split|].
  destruct (isspace c) eqn:Hc; simpl.
  - repeat split; assumption.
  - repeat split; rewrite ?space_isspace; cbn [Unicode.scan after_space];
      rewrite ?Hc, ?IH2; reflexivity.
Qed.

Lemma uscan_all_space st w : forallb isspace w = true -> uscan st w = [].
Proof.
  revert st. induction w as [|c w IH]; intros st H; simpl in *; [reflexivity|].
  apply andb_true_iff in H as [Hc Hw]. rewrite Hc. now apply IH.
Qed.

Lemma uscan_app st a x :
  uscan st (a ++ x) = (uscan st a ++ uscan (Unicode.scan_end isspace st a) x)%list.
Proof.
  revert st. induction a as [|c a IH]; intros st; simpl; [reflexivity|].
  destruct (isspace c) eqn:Hc; [apply IH|].
  destruct st; simpl; rewrite IH; reflexivity.
Qed.

Lemma uscan_end_space st w :
  forallb isspace w = true -> w <> [] ->
  Unicode.scan_end isspace st w = after_space st.
Proof.
  revert st. induction w as [|c w IH]; intros st H Hne; [congruence|].
  simpl in *. apply andb_true_iff in H as [Hc Hw]. rewrite Hc.
  destruct w as [|d w]; [reflexivity|].
  rewrite IH; [destruct st; reflexivity|assumption|discriminate].
Qed.

Lemma uscan_end_space0 w :
  forallb isspace w = true -> Unicode.scan_end isspace AtStart w = AtStart.
Proof.
  induction w as [|c w IH]; intros H; simpl in *; [reflexivity|].
  apply andb_true_iff in H as [Hc Hw]. rewrite Hc. simpl. now apply IH.
Qed.

Lemma unorm_idem x : unorm (unorm x) = unorm x.
Proof.
  rewrite !unorm_scan, <- ucasefold_scan, ucasefold_idem.
  now rewrite (proj1 (uscan_idem x)).
Qed.

Lemma unorm_casefold x y : ucasefold x = ucasefold y -> unorm x = unorm y.
Proof. intros H. rewrite !unorm_scan, !ucasefold_scan. now rewrite H. Qed.

Lemma unorm_ends l x r :
  forallb isspace l = true -> forallb isspace r = true ->
  unorm (l ++ x ++ r) = unorm x.
Proof.
  intros Hl Hr. rewrite !unorm_scan. f_equal.
  rewrite uscan_app, (uscan_all_space _ l Hl), (uscan_end_space0 l Hl).
  cbn [app]. rewrite uscan_app, (uscan_all_space _ r Hr). apply app_nil_r.
Qed.

Lemma unorm_runs a b w1 w2 :
  w1 <> [] -> w2 <> [] -> forallb isspace w1 = true -> forallb isspace w2 = true ->
  unorm (a ++ w1 ++ b) = unorm (a ++ w2 ++ b).
Proof.
  intros H1 H2 Hw1 Hw2. rewrite !unorm_scan. f_equal.
  rewrite !uscan_app.
  rewrite (uscan_all_space _ w1 Hw1), (uscan_all_space _ w2 Hw2).
  rewrite (uscan_end_space _ w1 Hw1 H1), (uscan_end_space _ w2 Hw2 H2).
  reflexivity.
Qed.

Lemma ulstrip_scan u :
  Unicode.lstrip isspace (uscan AtStart u) = uscan AtStart u.
Proof.
  induction u as [|c u IH]; [reflexivity|].
  cbn [Unicode.scan after_space]. destruct (isspace c) eqn:Hc; [exact IH|].
  cbn [Unicode.lstrip]. now rewrite Hc.
Qed.

Lemma urstrip_scan u : forall st,
  Unicode.rstrip isspace (uscan st u) = uscan st u.
Proof.
  induction u as [|c u IH]; intros st; [reflexivity|].
  cbn [Unicode.scan]. destruct (isspace c) eqn:Hc; [apply IH|].
  assert (Unicode.rstrip isspace (c :: uscan InWord u) = c :: uscan InWord u) as H
    by (cbn [Unicode.rstrip]; now rewrite IH, Hc).
  destruct st; try exact H.
  change (Unicode.rstrip isspace (space :: c :: uscan InWord u))
    with (if isspace space &&
             Unicode.is_empty (Unicode.rstrip isspace (c :: uscan InWord u))
          then [] else space :: Unicode.rstrip isspace (c :: uscan InWord u)).
  rewrite H. cbn [Unicode.is_empty]. now rewrite andb_false_r.
Qed.

Lemma usub_space_scan u : forall st b,
  st = AtStart \/ b = false ->
  Unicode.sub_space isspace space b (uscan st u) = uscan st u.
Proof.
  induction u as [|c u IH]; intros st b Hb; [reflexivity|].
  cbn [Unicode.scan]. destruct (isspace c) eqn:Hc.
  - apply IH. destruct Hb as [-> |Hb]; [now left|now right].
  - destruct st; cbn [Unicode.sub_space]; rewrite ?Hc.
    + now rewrite (IH InWord false (or_intror eq_refl)).
    + now rewrite (IH InWord false (or_intror eq_refl)).
    + destruct Hb as [Hb| ->]; [discriminate|].
      rewrite space_isspace.
      now rewrite (IH InWord false (or_intror eq_refl)).
Qed.

Lemma uscan_empty_iff s : uscan AtStart s = [] <-> forallb isspace s = true.
Proof.
  induction s as [|c s IH]; cbn [Unicode.scan forallb after_space]; [tauto|].
  destruct (isspace c); cbn [andb]; [exact IH|].
  split; discriminate.
Qed.

Lemma ucasefold_empty_iff s : ucasefold s = [] <-> s = [].
Proof.
  destruct s as [|c s]; [tauto|]. split; [|discriminate].
  unfold Unicode.casefold. cbn [flat_map]. intros H.
  apply app_eq_nil in H as [H _].
  destruct (isspace c) eqn:Hc.
  - rewrite (fold_space c Hc) in H. discriminate.
  - now apply fold_not_empty in H.
Qed.

Lemma unorm_normal_form s :
  Unicode.strip isspace (unorm s) = unorm s /\
  Unicode.sub_space isspace space false (unorm s) = unorm s /\
  ucasefold (unorm s) = unorm s /\
  (unorm s = [] <-> forallb isspace s = true).
Proof.
  split; [|split; [|split]].
  - rewrite unorm_scan, ucasefold_scan. unfold Unicode.strip.
    now rewrite ulstrip_scan, urstrip_scan.
  - rewrite unorm_scan, ucasefold_scan. apply usub_space_scan. now left.
  - rewrite unorm_scan. apply ucasefold_idem.
  - rewrite unorm_scan, ucasefold_empty_iff. apply uscan_empty_iff.
Qed.

End AnyAlphabet.

(** The tables of the code points below 256 are as the theorems on
    normalisation want them. *)
Section Latin.

Local Open Scope N_scope.

Lemma latin_isspace_true c :
  Unicode.latin_isspace c = true <->
  (9 <= c <= 13 \/ 28 <= c <= 32 \/ c = 133 \/ c = 160).
Proof.
  unfold Unicode.latin_isspace.
  rewrite !orb_true_iff, !andb_true_iff, !N.leb_le, !N.eqb_eq. tauto.
Qed.

Lemma latin_isspace_false c :
  Unicode.latin_isspace c = false <->
  ~ (9 <= c <= 13 \/ 28 <= c <= 32 \/ c = 133 \/ c = 160).
Proof.
  rewrite <- latin_isspace_true. destruct (Unicode.latin_isspace c); split;
    intros H; try reflexivity; try discriminate; try (intros [=]); now elim H.
Qed.

(** The folding of a code point, case by case. *)
Lemma latin_fold_cases c :
  (c = 223 /\ Unicode.latin_fold c = [115; 115]) \/
  (c = 181 /\ Unicode.latin_fold c = [956]) \/
  ((65 <= c <= 90 \/ 192 <= c <= 222 /\ c <> 215) /\
   Unicode.latin_fold c = [c + 32]) \/
  (c <> 223 /\ c <> 181 /\ ~ 65 <= c <= 90 /\ ~ (192 <= c <= 222 /\ c <> 215) /\
   Unicode.latin_fold c = [c]).
Proof.
  unfold Unicode.latin_fold.
  destruct (N.eqb_spec c 223) as [->|H1]; [left; split; reflexivity|].
  destruct (N.eqb_spec c 181) as [->|H2]; [right; left; split; reflexivity|].
  destruct (N.leb_spec 65 c), (N.leb_spec c 90); cbn [andb];
    try (right; right; left; split; [lia|reflexivity]).
  all: destruct (N.leb_spec 192 c), (N.leb_spec c 222), (N.eqb_spec c 215);
    cbn [andb negb];
    try (right; right; left; split; [lia|reflexivity]);
    right; right; right; repeat split; lia || reflexivity.
Qed.

Lemma latin_space : Unicode.latin_isspace 32 = true.
Proof. reflexivity. Qed.

Lemma latin_fold_space c :
  Unicode.latin_isspace c = true -> Unicode.latin_fold c = [c].
Proof.
  intros H. apply latin_isspace_true in H.
  destruct (latin_fold_cases c) as [[-> _]|[[-> _]|[[Hc _]|(_ & _ & _ & _ & Hf)]]];
    [lia|lia|lia|exact Hf].
Qed.

Lemma latin_fold_word c d :
  Unicode.latin_isspace c = false -> In d (Unicode.latin_fold c) ->
  Unicode.latin_isspace d = false.
Proof.
  intros Hc Hd. apply latin_isspace_false. apply latin_isspace_false in Hc.
  destruct (latin_fold_cases c) as [[_ Hf]|[[_ Hf]|[[Hr Hf]|(_ & _ & _ & _ & Hf)]]];
    rewrite Hf in Hd; cbn [In] in Hd; lia.
Qed.

Lemma latin_fold_not_empty c : Unicode.latin_fold c <> [].
Proof.
  destruct (latin_fold_cases c) as [[_ Hf]|[[_ Hf]|[[_ Hf]|(_ & _ & _ & _ & Hf)]]];
    rewrite Hf; discriminate.
Qed.

Lemma latin_fold_fixed c :
  c <> 223 -> c <> 181 -> ~ 65 <= c <= 90 -> ~ (192 <= c <= 222 /\ c <> 215) ->
  Unicode.latin_fold c = [c].
Proof.
  intros H1 H2 H3 H4.
  destruct (latin_fold_cases c) as [[-> _]|[[-> _]|[[Hc _]|(_ & _ & _ & _ & Hf)]]];
    [lia|lia|lia|exact Hf].
Qed.

Lemma latin_fold_idem c :
  flat_map Unicode.latin_fold (Unicode.latin_fold c) = Unicode.latin_fold c.
Proof.
  destruct (latin_fold_cases c) as [[_ Hf]|[[_ Hf]|[[Hr Hf]|(_ & _ & _ & _ & Hf)]]];
    rewrite Hf; cbn [flat_map]; rewrite ?app_nil_r.
  - reflexivity.
  - reflexivity.
  - apply latin_fold_fixed; lia.
  - exact Hf.
Qed.

End Latin.

(** [norm_name] on [string] is the instance for ASCII. *)
Section Ascii.

Abbreviation chars := list_ascii_of_string.

Lemma chars_lstrip s : chars (Py.lstrip s) = Unicode.lstrip Py.isspace (chars s).
Proof.
  induction s as [|c s IH]; simpl; [reflexivity|].
  destruct (Py.isspace c); [exact IH|reflexivity].
Qed.

Lemma chars_is_empty s : Unicode.is_empty (chars s) = Py.is_empty s.
Proof. destruct s; reflexivity. Qed.

Lemma chars_rstrip s : chars (Py.rstrip s) = Unicode.rstrip Py.isspace (chars s).
Proof.
  induction s as [|c s IH]; simpl; [reflexivity|].
  rewrite <- IH, chars_is_empty.
  destruct (Py.isspace c && Py.is_empty (Py.rstrip s)); reflexivity.
Qed.

Lemma chars_sub_space b s :
  chars (Py.sub_space b s) = Unicode.sub_space Py.isspace " "%char b (chars s).
Proof.
  revert b. induction s as [|c s IH]; intros b; simpl; [reflexivity|].
  destruct (Py.isspace c); [destruct b|]; simpl; now rewrite IH.
Qed.

Lemma chars_casefold s :
  chars (Py.casefold s) = Unicode.casefold Unicode.ascii_fold (chars s).
Proof.
  induction s as [|c s IH]; simpl; [reflexivity|]. now rewrite IH.
Qed.

Lemma chars_norm_name s :
  chars (norm_name s) =
  Unicode.norm_name Py.isspace Unicode.ascii_fold " "%char (chars s).
Proof.
  unfold norm_name, Unicode.norm_name, Py.strip, Unicode.strip.
  now rewrite chars_casefold, chars_sub_space, chars_rstrip, chars_lstrip.
Qed.

End Ascii.

(** C9. Name normalisation is idempotent, and it does not see the case
    of letters, whitespace at either end, or how long a run of
    whitespace inside the name is: texts that differ in nothing else
    have the same normal form.  This holds over every alphabet whose
    whitespace folds to itself, whose other characters fold to at
    least one character and to no whitespace, and whose folding is
    idempotent, as is the case of the code points of Python with
    [str.isspace] and [str.casefold]; the space is whitespace. *)
Theorem norm_name_idempotent_insensitive :
  forall (char : Type) (isspace : char -> bool) (fold : char -> list char)
         (space : char),
    isspace space = true ->
    (forall c, isspace c = true -> fold c = [c]) ->
    (forall c d, isspace c = false -> In d (fold c) -> isspace d = false) ->
    (forall c, isspace c = false -> fold c <> []) ->
    (forall c, flat_map fold (fold c) = fold c) ->
    let norm := Unicode.norm_name isspace fold space in
    (forall x, norm (norm x) = norm x) /\
    (forall x y, Unicode.casefold fold x = Unicode.casefold fold y ->
       norm x = norm y) /\
    (forall l x r, forallb isspace l = true -> forallb isspace r = true ->
       norm (l ++ x ++ r)%list = norm x) /\
    (forall a b w1 w2, w1 <> [] -> w2 <> [] ->
       forallb isspace w1 = true -> forallb isspace w2 = true ->
       norm (a ++ w1 ++ b)%list = norm (a ++ w2 ++ b)%list).
Proof.
  intros char isspace fold space Hs F1 F2 F2' F3 norm.
  split; [|split; [|split]].
  - exact (unorm_idem isspace fold space Hs F1 F2 F2' F3).
  - exact (unorm_casefold isspace fold space Hs F1 F2 F2').
  - exact (unorm_ends isspace fold space).
  - exact (unorm_runs isspace fold space).
Qed.

(** The theorem on three texts with characters beyond ASCII: Cleric
    Robe with a space and a no-break space between the words, and with
    one space; STRASSE written with a sharp s, and strasse. *)
Lemma norm_name_idempotent_insensitive_witness :
  Unicode.latin_norm_name
    ([67; 108; 101; 114; 105; 99]%N ++ [32; 160]%N ++ [82; 111; 98; 101]%N)%list =
  Unicode.latin_norm_name
    ([67; 108; 101; 114; 105; 99]%N ++ [32]%N ++ [82; 111; 98; 101]%N)%list /\
  Unicode.latin_norm_name [83; 84; 82; 65; 223; 69]%N =
  Unicode.latin_norm_name [115; 116; 114; 97; 115; 115; 101]%N /\
  Unicode.latin_norm_name (Unicode.latin_norm_name [83; 84; 82; 65; 223; 69]%N) =
  Unicode.latin_norm_name [83; 84; 82; 65; 223; 69]%N.
Proof.
  destruct (norm_name_idempotent_insensitive N Unicode.latin_isspace
              Unicode.latin_fold 32%N latin_space latin_fold_space
              latin_fold_word (fun c _ => latin_fold_not_empty c) latin_fold_idem)
    as (Hidem & Hcase & _ & Hruns).
  split; [|split].
  - apply Hruns; [discriminate|discriminate|reflexivity|reflexivity].
  - apply Hcase. reflexivity.
  - apply Hidem.
Defined.

(** ** Tier tokens *)

Section TierTokens.

Lemma small_tier t : 1 <= t <= 8 ->
  t = 1 \/ t = 2 \/ t = 3 \/ t = 4 \/ t = 5 \/ t = 6 \/ t = 7 \/ t = 8.
Proof. lia. Qed.

Lemma tier_digit_cases d :
  ((49 <=? N_of_ascii d) && (N_of_ascii d <=? 56))%N = true ->
  d = "1"%char \/ d = "2"%char \/ d = "3"%char \/ d = "4"%char \/
  d = "5"%char \/ d = "6"%char \/ d = "7"%char \/ d = "8"%char.
Proof.
  intros H. apply andb_true_iff in H as [H1 H2].
  apply N.leb_le in H1, H2.
  rewrite <- (ascii_N_embedding d).
  assert (N_of_ascii d = 49 \/ N_of_ascii d = 50 \/ N_of_ascii d = 51 \/
          N_of_ascii d = 52 \/ N_of_ascii d = 53 \/ N_of_ascii d = 54 \/
          N_of_ascii d = 55 \/ N_of_ascii d = 56)%N as Hn by lia.
  destruct Hn as [->|[->|[->|[->|[->|[->|[->| ->]]]]]]]; tauto.
Qed.

Lemma tier_prefix_match_inv base d :
  tier_prefix_match base = Some d ->
  exists rest, base = String "T" (String d (String "_" rest)) /\
    ((49 <=? N_of_ascii d) && (N_of_ascii d <=? 56))%N = true.
Proof.
  destruct base as [|t [|d' [|u rest]]]; simpl; try discriminate.
  destruct (Ascii.eqb t "T") eqn:Ht; simpl; [|discriminate].
  destruct ((49 <=? N_of_ascii d') && (N_of_ascii d' <=? 56))%N eqn:Hd;
    simpl; [|discriminate].
  destruct (Ascii.eqb u "_") eqn:Hu; [|discriminate].
  intros [= <-]. apply Ascii.eqb_eq in Ht, Hu. subst. eauto.
Qed.

(** An identifier that matches the tier pattern is [T], the decimal
    digit of its tier, an underscore and the rest. *)
Lemma tier_prefix_inv base :
  has_tier_prefix base = true ->
  exists d rest, 1 <= d <= 8 /\
    base = "T" ++ Py.str d ++ "_" ++ rest /\
    extract_tier_from_ident base = d.
Proof.
  unfold has_tier_prefix, extract_tier_from_ident.
  destruct (tier_prefix_match base) as [d|] eqn:Hm; [intros _|discriminate].
  destruct (tier_prefix_match_inv _ _ Hm) as (rest & -> & Hd).
  destruct (tier_digit_cases d Hd) as [->|[->|[->|[->|[->|[->|[->| ->]]]]]]].
  - exists 1, rest. repeat split; lia.
  - exists 2, rest. repeat split; lia.
  - exists 3, rest. repeat split; lia.
  - exists 4, rest. repeat split; lia.
  - exists 5, rest. repeat split; lia.
  - exists 6, rest. repeat split; lia.
  - exists 7, rest. repeat split; lia.
  - exists 8, rest. repeat split; lia.
Qed.

(** Conversely a tier from 1 to 8 printed between [T] and [_] is
    matched by the pattern. *)
Lemma tier_prefix_intro t rest :
  1 <= t <= 8 ->
  has_tier_prefix ("T" ++ Py.str t ++ "_" ++ rest) = true /\
  extract_tier_from_ident ("T" ++ Py.str t ++ "_" ++ rest) = t.
Proof.
  intros H.
  destruct (small_tier t H) as [->|[->|[->|[->|[->|[->|[->| ->]]]]]]];
    split; reflexivity.
Qed.

Lemma has_tier_prefix_app base suffix :
  has_tier_prefix base = true -> has_tier_prefix (base ++ suffix) = true.
Proof.
  intros H. destruct base as [|c0 [|c1 [|c2 rest]]]; try discriminate H.
  exact H.
Qed.

Lemma string_app_assoc (a b c : string) : (a ++ b) ++ c = a ++ (b ++ c).
Proof. induction a as [|x a IH]; simpl; [reflexivity|now rewrite IH]. Qed.

End TierTokens.

(** ** Request lines *)

(** Turns the boolean range checks met in the hypotheses into
    inequalities. *)
Ltac range_checks :=
  repeat match goal with
  | H : negb _ = false |- _ => apply negb_false_iff in H
  | H : negb _ = true |- _ => apply negb_true_iff in H
  | H : _ && _ = true |- _ => apply andb_true_iff in H as [? ?]
  | H : _ && _ = false |- _ => apply andb_false_iff in H as [H|H]
  | H : (_ =? _) = true |- _ => apply Z.eqb_eq in H
  | H : (_ =? _) = false |- _ => apply Z.eqb_neq in H
  | H : (_ <=? _) = true |- _ => apply Z.leb_le in H
  | H : (_ <=? _) = false |- _ => apply Z.leb_gt in H
  end.

Section RequestLines.

(** A request that [parse_row] hands on passed every range check, and
    carries the stripped first column as name and the stripped columns
    joined by a comma and a space as its text. *)
Lemma parse_row_valid raw w q :
  parse_row raw = (w, Some q) ->
  valid_request q /\
  Some (name q) = head (List.map Py.strip raw) /\
  original_line q = Py.join ", " (List.map Py.strip raw).
Proof.
  unfold parse_row, valid_request. intros H.
  repeat case_match; simplify_eq; simpl; range_checks.
  all: repeat split; try lia; try congruence; try (intros ->; discriminate).
Qed.

End RequestLines.

(** ** Identifier construction *)

Section Identifier.

Lemma build_identifier_eq base t e :
  build_identifier base t e =
  if has_tier_prefix base
  then inr (base ++ enchant_suffix e, extract_tier_from_ident base)
  else if t =? -1
       then inl "Tier is required for items without a T1_…T8_ identifier."
       else inr (("T" ++ Py.str t ++ "_" ++ base) ++ enchant_suffix e, t).
Proof.
  unfold build_identifier, enchant_suffix.
  destruct (has_tier_prefix base), (t =? -1), (e =? 0);
    rewrite ?app_empty_r; reflexivity.
Qed.

Lemma enchant_suffix_empty e : enchant_suffix e = EmptyString <-> e = 0.
Proof.
  unfold enchant_suffix. destruct (e =? 0) eqn:He.
  - apply Z.eqb_eq in He. tauto.
  - apply Z.eqb_neq in He. split; [discriminate|contradiction].
Qed.

(** What [resolve] answers once the name is in the table. *)
Lemma resolve_found m dir q base :
  m !! norm_name (name q) = Some base ->
  resolve m dir q =
  if has_tier_prefix base then
    (if negb (tier q =? -1) && negb (tier q =? extract_tier_from_ident base)
     then [WarnTierIgnored (name q) (tier q) (extract_tier_from_ident base)]
     else [],
     inr (mkTarget base (base ++ enchant_suffix (enchant q))
            (extract_tier_from_ident base)
            (build_url (base ++ enchant_suffix (enchant q)) (quality q))
            (path_join dir
               (build_filename (name q) (extract_tier_from_ident base)
                  (enchant q) (quality q)))))
  else if tier q =? -1 then ([], inl (FailTierRequired (name q)))
  else
    ([], inr (mkTarget base
            (("T" ++ Py.str (tier q) ++ "_" ++ base) ++ enchant_suffix (enchant q))
            (tier q)
            (build_url
               (("T" ++ Py.str (tier q) ++ "_" ++ base) ++ enchant_suffix (enchant q))
               (quality q))
            (path_join dir
               (build_filename (name q) (tier q) (enchant q) (quality q))))).
Proof.
  intros Hm. unfold resolve. rewrite Hm, build_identifier_eq.
  destruct (has_tier_prefix base); [reflexivity|].
  destruct (tier q =? -1); reflexivity.
Qed.

End Identifier.

(** C3. Without an embedded tier and with a tier from 1 to 8, the
    identifier is the base identifier with [T], the tier and [_] in
    front; in every case the enchantment marker [@] with the enchantment
    follows the core token exactly when the enchantment is not 0.
    Guardian Helmet at tier 6 gives T6_HEAD_PLATE_SET3, and Cleric Robe
    at tier 6 with enchantment 1 gives T6_ARMOR_CLOTH_SET2@1. *)
Theorem build_identifier_prefix_and_suffix :
  (forall base t e, 1 <= t <= 8 -> has_tier_prefix base = false ->
     build_identifier base t e =
     inr (("T" ++ Py.str t ++ "_" ++ base) ++ enchant_suffix e, t)) /\
  (forall base t e id tf, build_identifier base t e = inr (id, tf) ->
     id = core_token base t ++ enchant_suffix e) /\
  (forall e, (enchant_suffix e = EmptyString <-> e = 0) /\
             (e <> 0 -> enchant_suffix e = "@" ++ Py.str e)) /\
  name_to_ident !! norm_name "Guardian Helmet" = Some "HEAD_PLATE_SET3" /\
  build_identifier "HEAD_PLATE_SET3" 6 0 = inr ("T6_HEAD_PLATE_SET3", 6) /\
  name_to_ident !! norm_name "Cleric Robe" = Some "ARMOR_CLOTH_SET2" /\
  build_identifier "ARMOR_CLOTH_SET2" 6 1 = inr ("T6_ARMOR_CLOTH_SET2@1", 6).
Proof.
  split; [|split; [|split; [|split; [|split; [|split]]]]];
    [| | |vm_compute; reflexivity..].
  - intros base t e Ht Hb. rewrite build_identifier_eq, Hb.
    destruct (t =? -1) eqn:E; [apply Z.eqb_eq in E; lia|reflexivity].
  - intros base t e id tf. rewrite build_identifier_eq. unfold core_token.
    destruct (has_tier_prefix base); [congruence|].
    destruct (t =? -1); [discriminate|congruence].
  - intros e. split; [apply enchant_suffix_empty|].
    intros He. unfold enchant_suffix.
    destruct (e =? 0) eqn:E; [apply Z.eqb_eq in E; contradiction|reflexivity].
Qed.

Lemma build_identifier_prefix_and_suffix_witness :
  build_identifier "HEAD_PLATE_SET3" 6 3 =
  inr (("T" ++ Py.str 6 ++ "_" ++ "HEAD_PLATE_SET3") ++ enchant_suffix 3, 6).
Proof.
  apply (proj1 build_identifier_prefix_and_suffix); [lia|reflexivity].
Defined.

(** C10. Whenever an identifier is built, that is when the base
    identifier carries a tier or the tier given is from 1 to 8 as the
    checks on a request line ensure, it starts with [T], a digit from 1
    to 8 and [_], then come the rest and the enchantment marker if any: a
    request that went through the checks never resolves to an
    identifier without a tier in front. *)
Theorem resolved_identifier_has_tier :
  (forall base t e, has_tier_prefix base = true \/ 1 <= t <= 8 ->
     exists d rest, 1 <= d <= 8 /\
       build_identifier base t e =
       inr (("T" ++ Py.str d ++ "_" ++ rest) ++ enchant_suffix e, d) /\
       has_tier_prefix (("T" ++ Py.str d ++ "_" ++ rest) ++ enchant_suffix e) = true) /\
  (forall m dir raw w0 q w tg,
     parse_row raw = (w0, Some q) -> resolve m dir q = (w, inr tg) ->
     has_tier_prefix (ident tg) = true /\ 1 <= tier_for_filename tg <= 8).
Proof.
  assert (forall base t e, has_tier_prefix base = true \/ 1 <= t <= 8 ->
     exists d rest, 1 <= d <= 8 /\
       build_identifier base t e =
       inr (("T" ++ Py.str d ++ "_" ++ rest) ++ enchant_suffix e, d) /\
       has_tier_prefix (("T" ++ Py.str d ++ "_" ++ rest) ++ enchant_suffix e) = true)
    as Hbuild.
  { intros base t e H. rewrite build_identifier_eq.
    destruct (has_tier_prefix base) eqn:Hb.
    - destruct (tier_prefix_inv base Hb) as (d & rest & Hd & Hbase & Hx).
      exists d, rest. rewrite Hx, <- Hbase. repeat split; try lia.
      now apply has_tier_prefix_app.
    - destruct H as [H|H]; [discriminate|].
      exists t, base. destruct (t =? -1) eqn:E; [apply Z.eqb_eq in E; lia|].
      repeat split; try lia.
      apply has_tier_prefix_app. now apply tier_prefix_intro. }
  split; [exact Hbuild|].
  intros m dir raw w0 q w tg Hp Hr.
  apply parse_row_valid in Hp as ((_ & Ht & _ & _) & _ & _).
  unfold resolve in Hr.
  destruct (m !! norm_name (name q)) as [base|] eqn:Hm; [|discriminate].
  assert (has_tier_prefix base = true \/ 1 <= tier q <= 8) as Hc.
  { destruct (has_tier_prefix base); [now left|].
    destruct (tier q =? -1) eqn:E; [discriminate|].
    apply Z.eqb_neq in E. right. lia. }
  destruct (Hbuild base (tier q) (enchant q) Hc) as (d & rest & Hd & Hb & Hp).
  rewrite Hb in Hr.
  destruct (has_tier_prefix base); [|destruct (tier q =? -1); [discriminate|]];
    injection Hr as _ <-; simpl; (split; [exact Hp|lia]).
Qed.

Lemma resolved_identifier_has_tier_witness :
  exists d rest, 1 <= d <= 8 /\
    build_identifier "T2_MOUNT_MULE" 5 1 =
    inr (("T" ++ Py.str d ++ "_" ++ rest) ++ enchant_suffix 1, d) /\
    has_tier_prefix (("T" ++ Py.str d ++ "_" ++ rest) ++ enchant_suffix 1) = true.
Proof.
  apply (proj1 resolved_identifier_has_tier). left. reflexivity.
Defined.

(** ** File names and fetch targets *)

Section Names.

(** The two replacements of [safe_file_stem] turn every slash and
    backslash into a hyphen and leave the other characters alone. *)
Lemma safe_file_stem_map s : safe_file_stem s = map_chars escape_separator s.
Proof.
  unfold safe_file_stem. induction s as [|c s IH]; simpl; [reflexivity|].
  unfold escape_separator.
  destruct (Ascii.eqb c "/") eqn:E1; simpl.
  - rewrite IH. reflexivity.
  - destruct (Ascii.eqb c "\") eqn:E2; simpl; rewrite IH; reflexivity.
Qed.

Lemma build_filename_eq n t e q :
  build_filename n t e q =
  filename_stem n t e ++
  (if 1 <? q then " " ++ QUALITY_WORD_get q else EmptyString) ++ ".png".
Proof.
  unfold build_filename, filename_stem. rewrite safe_file_stem_map.
  destruct (0 <? e), (1 <? q);
    rewrite ?string_app_assoc; simpl; rewrite ?app_empty_r; reflexivity.
Qed.

Lemma quality_word_valid q :
  1 <= q <= 5 ->
  (if 1 <? q then " " ++ QUALITY_WORD_get q else EmptyString) =
  match quality_word q with Some word => " " ++ word | None => EmptyString end.
Proof.
  intros H.
  assert (q = 1 \/ q = 2 \/ q = 3 \/ q = 4 \/ q = 5) as Hq by lia.
  destruct Hq as [->|[->|[->|[->| ->]]]]; reflexivity.
Qed.

End Names.

(** C7. The file name of a resolved request is the display name with
    slashes and backslashes replaced by a hyphen, a space, the resolved
    tier, then a dot and the enchantment exactly when the enchantment is
    above 0, then a space and the quality word exactly when the quality
    is above 1, then [.png].  Cleric Robe at tier 6, enchantment 1 and
    quality 4 is saved as Cleric Robe 6.1 Excellent.png. *)
Theorem build_filename_shape :
  (forall n t e q, 1 <= q <= 5 ->
     build_filename n t e q =
     map_chars escape_separator n ++ " " ++ Py.str t ++
     (if 0 <? e then "." ++ Py.str e else EmptyString) ++
     match quality_word q with Some word => " " ++ word | None => EmptyString end ++
     ".png") /\
  (forall q, 1 <= q <= 5 -> (quality_word q = None <-> q = 1)) /\
  (forall m dir raw w0 q w tg,
     parse_row raw = (w0, Some q) -> resolve m dir q = (w, inr tg) ->
     out_file tg =
     path_join dir
       (build_filename (name q) (tier_for_filename tg) (enchant q) (quality q)) /\
     1 <= quality q <= 5) /\
  build_filename "Cleric Robe" 6 1 4 = "Cleric Robe 6.1 Excellent.png" /\
  snd (resolve name_to_ident "downloads"
         (mkRequest "Cleric Robe" 6 1 4 "Cleric Robe, 6, 1, 4")) =
  inr (mkTarget "ARMOR_CLOTH_SET2" "T6_ARMOR_CLOTH_SET2@1" 6
         "https://render.albiononline.com/v1/item/T6_ARMOR_CLOTH_SET2@1.png?quality=4"
         "downloads/Cleric Robe 6.1 Excellent.png").
Proof.
  split; [|split; [|split; [|split]]].
  - intros n t e q Hq.
    rewrite build_filename_eq, (quality_word_valid q Hq). unfold filename_stem.
    rewrite !string_app_assoc. reflexivity.
  - intros q Hq.
    assert (q = 1 \/ q = 2 \/ q = 3 \/ q = 4 \/ q = 5) as H by lia.
    destruct H as [->|[->|[->|[->| ->]]]]; simpl; split;
      (reflexivity || discriminate || lia).
  - intros m dir raw w0 q w tg Hp Hr.
    apply parse_row_valid in Hp as ((_ & _ & _ & Hq) & _ & _).
    split; [|exact Hq].
    destruct (m !! norm_name (name q)) as [base|] eqn:Hm.
    + rewrite (resolve_found _ _ _ _ Hm) in Hr.
      destruct (has_tier_prefix base);
        [|destruct (tier q =? -1); [discriminate|]];
        injection Hr as _ <-; reflexivity.
    + unfold resolve in Hr. rewrite Hm in Hr. discriminate.
  - reflexivity.
  - vm_compute. reflexivity.
Qed.

Lemma build_filename_shape_witness :
  build_filename "Cleric Robe" 6 1 4 =
  map_chars escape_separator "Cleric Robe" ++ " " ++ Py.str 6 ++
  (if 0 <? 1 then "." ++ Py.str 1 else EmptyString) ++
  match quality_word 4 with Some word => " " ++ word | None => EmptyString end ++
  ".png".
Proof. apply (proj1 build_filename_shape). lia. Defined.

(** C8. Quality 1 leaves no trace in the file name or in the fetch
    target.  Each quality from 2 to 5 adds its word to the file name
    (Good, Outstanding, Excellent, Masterpiece) and the query
    [?quality=] with its number (2, 3, 4, 5) to the target.  The target
    always starts with the base URL, the identifier and [.png].  The
    last lines are the file names and targets of Cleric Robe, tier 6
    and enchantment 1, at quality 1 and at quality 4, letter by
    letter. *)
Theorem quality_in_filename_and_url :
  (forall n t e, build_filename n t e 1 = filename_stem n t e ++ ".png") /\
  (forall id, build_url id 1 = BASE_URL ++ id ++ ".png") /\
  (forall n t e,
     build_filename n t e 2 = filename_stem n t e ++ " Good.png" /\
     build_filename n t e 3 = filename_stem n t e ++ " Outstanding.png" /\
     build_filename n t e 4 = filename_stem n t e ++ " Excellent.png" /\
     build_filename n t e 5 = filename_stem n t e ++ " Masterpiece.png") /\
  (forall id,
     build_url id 2 = BASE_URL ++ id ++ ".png?quality=2" /\
     build_url id 3 = BASE_URL ++ id ++ ".png?quality=3" /\
     build_url id 4 = BASE_URL ++ id ++ ".png?quality=4" /\
     build_url id 5 = BASE_URL ++ id ++ ".png?quality=5") /\
  (forall id q, exists query,
     build_url id q = (BASE_URL ++ id ++ ".png") ++ query /\
     (q = 1 -> query = EmptyString)) /\
  build_filename "Cleric Robe" 6 1 1 = "Cleric Robe 6.1.png" /\
  build_filename "Cleric Robe" 6 1 4 = "Cleric Robe 6.1 Excellent.png" /\
  build_url "T6_ARMOR_CLOTH_SET2@1" 1 =
    "https://render.albiononline.com/v1/item/T6_ARMOR_CLOTH_SET2@1.png" /\
  build_url "T6_ARMOR_CLOTH_SET2@1" 4 =
    "https://render.albiononline.com/v1/item/T6_ARMOR_CLOTH_SET2@1.png?quality=4".
Proof.
  split; [|split; [|split; [|split; [|split]]]].
  - intros n t e. rewrite build_filename_eq. reflexivity.
  - reflexivity.
  - intros n t e. rewrite !build_filename_eq. repeat split; reflexivity.
  - intros id. repeat split; reflexivity.
  - intros id q. unfold build_url. destruct (q =? 1) eqn:Hq.
    + exists EmptyString. now rewrite app_empty_r.
    + exists ("?quality=" ++ Py.str q). split.
      * rewrite !string_app_assoc. reflexivity.
      * intros ->. discriminate Hq.
  - repeat split; reflexivity.
Qed.

(** ** Resolution *)

(** C1. When the base identifier found for a request starts with a
    tier token, resolution succeeds with the tier of that token whatever
    tier the request gives; a different tier given only adds a warning,
    the request is not counted as failed and its text stays as it is; and
    the base identifier itself is the core token. *)
Theorem embedded_tier_wins :
  forall (m : gmap string string) dir q base,
    m !! norm_name (name q) = Some base ->
    has_tier_prefix base = true ->
    exists d rest tg,
      1 <= d <= 8 /\ base = "T" ++ Py.str d ++ "_" ++ rest /\
      snd (resolve m dir q) = inr tg /\
      tier_for_filename tg = d /\
      base_ident tg = base /\
      core_token base (tier q) = base /\
      ident tg = base ++ enchant_suffix (enchant q) /\
      (tier q = -1 \/ tier q = d -> fst (resolve m dir q) = []) /\
      (tier q <> -1 -> tier q <> d ->
         fst (resolve m dir q) = [WarnTierIgnored (name q) (tier q) d]) /\
      (forall World (download_one : string -> string -> World -> option string * World) s,
         fst (download_one (url tg) (out_file tg) (world s)) = None ->
         failed_lines (process download_one m dir s q) = failed_lines s).
Proof.
  intros m dir q base Hm Hb.
  destruct (tier_prefix_inv base Hb) as (d & rest & Hd & Hbase & Hx).
  pose proof (resolve_found m dir q base Hm) as Hr.
  rewrite Hb, Hx in Hr.
  eexists d, rest, _. split; [exact Hd|]. split; [exact Hbase|].
  split; [rewrite Hr; reflexivity|]. simpl.
  split; [reflexivity|]. split; [reflexivity|].
  split; [unfold core_token; rewrite Hb; reflexivity|].
  split; [reflexivity|]. split; [|split].
  - intros Ht. rewrite Hr. simpl.
    destruct Ht as [-> | ->]; [reflexivity|].
    rewrite Z.eqb_refl, andb_false_r. reflexivity.
  - intros H1 H2. rewrite Hr. simpl.
    apply Z.eqb_neq in H1, H2. rewrite H1, H2. reflexivity.
  - intros World download_one s Hdl. unfold process. rewrite Hr. simpl.
    simpl in Hdl.
    destruct (download_one _ _ (world s)) as [[e|] w]; [discriminate|reflexivity].
Qed.

Lemma embedded_tier_wins_witness :
  exists d rest tg,
    1 <= d <= 8 /\ "T2_MOUNT_MULE" = "T" ++ Py.str d ++ "_" ++ rest /\
    snd (resolve name_to_ident "downloads" (mkRequest "Mule" 5 0 1 "Mule, 5")) = inr tg /\
    tier_for_filename tg = d.
Proof.
  destruct (embedded_tier_wins name_to_ident "downloads"
              (mkRequest "Mule" 5 0 1 "Mule, 5") "T2_MOUNT_MULE")
    as (d & rest & tg & H1 & H2 & H3 & H4 & _).
  - vm_compute. reflexivity.
  - reflexivity.
  - exists d, rest, tg. auto.
Defined.

(** C2. Resolution fails in two cases and no other: the normalised name
    is not a key of the table (unknown item name), or the base
    identifier has no tier token and the request gives no tier (tier
    required).  Either failure ends that request only: the loop goes on
    with the text of the request added to the lines kept for a retry,
    and nothing is fetched. *)
Theorem resolution_failures :
  forall (m : gmap string string) dir q,
    (m !! norm_name (name q) = None ->
       resolve m dir q = ([], inl (FailNotInData (name q)))) /\
    (forall base, m !! norm_name (name q) = Some base ->
       has_tier_prefix base = false -> tier q = -1 ->
       resolve m dir q = ([], inl (FailTierRequired (name q)))) /\
    (forall w f, resolve m dir q = (w, inl f) ->
       (m !! norm_name (name q) = None /\ f = FailNotInData (name q)) \/
       (exists base, m !! norm_name (name q) = Some base /\
          has_tier_prefix base = false /\ tier q = -1 /\
          f = FailTierRequired (name q))) /\
    (forall World (download_one : string -> string -> World -> option string * World)
            s w f,
       resolve m dir q = (w, inl f) ->
       process download_one m dir s q =
       mkLoop (failed_lines s ++ [original_line q]) (console s ++ w ++ [f]) (world s)).
Proof.
  intros m dir q. split; [|split; [|split]].
  - intros Hm. unfold resolve. rewrite Hm. reflexivity.
  - intros base Hm Hb Ht. rewrite (resolve_found _ _ _ _ Hm), Hb, Ht. reflexivity.
  - intros w f Hr.
    destruct (m !! norm_name (name q)) as [base|] eqn:Hm.
    + right. exists base. rewrite (resolve_found _ _ _ _ Hm) in Hr.
      destruct (has_tier_prefix base); [discriminate|].
      destruct (tier q =? -1) eqn:E; [|discriminate].
      apply Z.eqb_eq in E. injection Hr as _ <-. auto.
    + left. unfold resolve in Hr. rewrite Hm in Hr.
      injection Hr as _ <-. auto.
  - intros World download_one s w f Hr. unfold process. rewrite Hr.
    rewrite <- app_assoc. reflexivity.
Qed.

Lemma resolution_failures_witness :
  resolve name_to_ident "downloads"
    (mkRequest "Not A Real Item" 3 0 1 "Not A Real Item, 3") =
    ([], inl (FailNotInData "Not A Real Item")) /\
  resolve name_to_ident "downloads"
    (mkRequest "Guardian Helmet" (-1) 0 1 "Guardian Helmet") =
    ([], inl (FailTierRequired "Guardian Helmet")).
Proof.
  split.
  - apply (proj1 (resolution_failures name_to_ident "downloads"
                    (mkRequest "Not A Real Item" 3 0 1 "Not A Real Item, 3"))).
    vm_compute. reflexivity.
  - apply (proj1 (proj2 (resolution_failures name_to_ident "downloads"
                    (mkRequest "Guardian Helmet" (-1) 0 1 "Guardian Helmet")))
             "HEAD_PLATE_SET3").
    + vm_compute. reflexivity.
    + reflexivity.
    + reflexivity.
Defined.

(** ** When the csv reader cannot fail *)

Section CsvTotal.

Import Csv.

Lemma len_snoc s c : Py.len (snoc s c) = (Py.len s + 1)%N.
Proof.
  unfold snoc. induction s as [|x s IH]; simpl; [reflexivity|].
  rewrite IH. lia.
Qed.

Lemma len_app a b : Py.len (a ++ b) = (Py.len a + Py.len b)%N.
Proof.
  induction a as [|x a IH]; simpl; [reflexivity|]. rewrite IH. lia.
Qed.

Lemma chars_le_len s : (chars s <= Py.len s)%N.
Proof.
  induction s as [|c s IH]; cbn [chars Py.len]; [lia|].
  destruct (is_continuation c); lia.
Qed.

Lemma add_char_room c r :
  (Py.len (field r) < field_limit)%N ->
  add_char c r = Some (Reader (st r) (snoc (field r) c) (fields r)).
Proof.
  intros H. unfold add_char. pose proof (chars_le_len (field r)).
  assert ((field_limit <=? chars (field r))%N = false) as ->
    by (apply N.leb_gt; lia).
  now rewrite andb_false_r.
Qed.

Lemma process_eol r :
  exists r', process_char r None = Some r' /\ between_lines r' /\
             (Py.len (field r') <= Py.len (field r))%N.
Proof.
  unfold process_char, between_lines.
  destruct r as [[] f fs]; simpl; eexists; (split; [reflexivity|]); simpl;
    (split; [auto|lia]).
Qed.

Lemma process_some r c :
  (Py.len (field r) < field_limit)%N ->
  is_newline c = true \/ st r <> EAT_CRNL ->
  exists r', process_char r (Some c) = Some r' /\
             (Py.len (field r') <= Py.len (field r) + 1)%N /\
             (is_newline c = false -> st r' <> EAT_CRNL).
Proof.
  intros Hlen Hc. pose proof (add_char_room c r Hlen) as Hadd.
  destruct r as [s f fs]. unfold process_char, start_field.
  cbn [st field fields] in *.
  destruct s; destruct (is_newline c) eqn:Hn;
    try (destruct Hc as [Hc|Hc]; [discriminate Hc|now contradiction Hc]);
    try destruct (Ascii.eqb c QUOTE); try destruct (Ascii.eqb c ",");
    rewrite ?Hadd; cbn [option_map];
    eexists; (split; [reflexivity|]); cbn [st field fields set_state save_field];
    rewrite ?len_snoc; cbn [Py.len];
    (split; [lia|intros; congruence]).
Qed.

Lemma feed_newlines t : forall r,
  all_chars is_newline t = true ->
  (Py.len (field r) + Py.len t <= field_limit)%N ->
  exists r', feed r t = Some r' /\ between_lines r' /\
             (Py.len (field r') <= Py.len (field r) + Py.len t)%N.
Proof.
  induction t as [|c t IH]; intros r H Hlen; cbn [feed Py.len all_chars] in *.
  - destruct (process_eol r) as (r' & Hp & Hb & Hl). exists r'.
    repeat split; [exact Hp|exact Hb|lia].
  - apply andb_true_iff in H as [Hc Ht].
    destruct (process_some r c) as (r' & -> & Hl & _); [lia|now left|].
    destruct (IH r' Ht) as (r'' & Hf & Hb & Hl'); [lia|].
    exists r''. repeat split; [exact Hf|exact Hb|lia].
Qed.

Lemma feed_ok line : forall r,
  line_ok line = true -> st r <> EAT_CRNL ->
  (Py.len (field r) + Py.len line <= field_limit)%N ->
  exists r', feed r line = Some r' /\ between_lines r' /\
             (Py.len (field r') <= Py.len (field r) + Py.len line)%N.
Proof.
  induction line as [|c line IH]; intros r H Hs Hlen.
  - destruct (process_eol r) as (r' & Hp & Hb & Hl). exists r'.
    repeat split; [exact Hp|exact Hb|cbn [Py.len]; lia].
  - cbn [line_ok] in H. destruct (is_newline c) eqn:Hc.
    + apply feed_newlines; [|exact Hlen]. cbn [all_chars]. now rewrite Hc.
    + cbn [Py.len] in Hlen.
      destruct (process_some r c) as (r' & Hp & Hl & Hs'); [lia|now right|].
      cbn [feed]. rewrite Hp.
      destruct (IH r' H (Hs' Hc)) as (r'' & Hf & Hb & Hl'); [lia|].
      exists r''. repeat split; [exact Hf|exact Hb|cbn [Py.len]; lia].
Qed.

Lemma rows_ok lines : forall r,
  Forall (fun l => line_ok l = true) lines -> between_lines r ->
  (Py.len (field r) + total_len lines <= field_limit)%N ->
  exists rs, rows r lines = Some rs.
Proof.
  induction lines as [|l lines IH]; intros r H Hr Hlen; cbn [rows].
  - destruct (negb _ || _); eauto.
  - cbn [total_len] in Hlen. inversion H as [|? ? Hl Hls]; subst.
    destruct (feed_ok l r Hl) as (r' & -> & Hr' & Hl').
    { destruct Hr as [-> | ->]; discriminate. }
    { lia. }
    destruct (is_start (st r')).
    + destruct (IH reset Hls) as [rs ->]; [now left|cbn [field reset Py.len]; lia|].
      simpl. eauto.
    + apply IH; [exact Hls|exact Hr'|lia].
Qed.

Lemma all_chars_snoc p s c :
  all_chars p (snoc s c) = all_chars p s && p c.
Proof.
  unfold snoc. induction s as [|x s IH]; simpl.
  - now rewrite andb_true_r.
  - now rewrite IH, andb_assoc.
Qed.

Lemma line_ok_app cur t :
  all_chars not_newline cur = true -> line_ok (cur ++ t) = line_ok t.
Proof.
  induction cur as [|c cur IH]; simpl; [reflexivity|].
  intros H. apply andb_true_iff in H as [Hc Hcur].
  unfold not_newline in Hc. apply negb_true_iff in Hc. rewrite Hc. now apply IH.
Qed.

Lemma line_ok_plain cur : all_chars not_newline cur = true -> line_ok cur = true.
Proof.
  intros H. rewrite <- (app_empty_r cur). now rewrite line_ok_app.
Qed.

Lemma is_newline_LF c : Ascii.eqb c LF = true -> is_newline c = true.
Proof. unfold is_newline. now intros ->. Qed.

Lemma is_newline_CR c : Ascii.eqb c CR = true -> is_newline c = true.
Proof. unfold is_newline. intros ->. now rewrite orb_true_r. Qed.

Lemma file_lines_ok text : forall cur,
  all_chars not_newline cur = true ->
  Forall (fun l => line_ok l = true) (file_lines cur text).
Proof.
  induction text as [|c text IH]; intros cur Hcur; simpl.
  - destruct (Py.is_empty cur); constructor; [|constructor].
    now apply line_ok_plain.
  - destruct (Ascii.eqb c LF) eqn:Hlf.
    { constructor; [|now apply IH].
      unfold snoc. rewrite line_ok_app by assumption. simpl.
      now rewrite (is_newline_LF c Hlf). }
    destruct (Ascii.eqb c CR) eqn:Hcr.
    + assert (line_ok (snoc cur c) = true) as Hone.
      { unfold snoc. rewrite line_ok_app by assumption. simpl.
        now rewrite (is_newline_CR c Hcr). }
      destruct text as [|d text']; [constructor; [exact Hone|now apply IH]|].
      destruct (Ascii.eqb d LF) eqn:Hd.
      * constructor.
        -- unfold snoc. rewrite string_app_assoc, line_ok_app by assumption.
           simpl. now rewrite (is_newline_CR c Hcr), (is_newline_LF d Hd).
        -- assert (Forall (fun l => line_ok l = true)
                     (file_lines EmptyString (String d text'))) as Hrec
             by now apply IH.
           simpl in Hrec. rewrite Hd in Hrec. now inversion Hrec.
      * constructor; [exact Hone|now apply IH].
    + apply IH. rewrite all_chars_snoc, Hcur. unfold not_newline, is_newline.
      now rewrite Hlf, Hcr.
Qed.

Lemma is_empty_len s : Py.is_empty s = true -> Py.len s = 0%N.
Proof. destruct s; [reflexivity|discriminate]. Qed.

(** Reading line by line loses no character and adds none. *)
Lemma file_lines_len text : forall cur,
  total_len (file_lines cur text) = (Py.len cur + Py.len text)%N.
Proof.
  induction text as [|c text IH]; intros cur; cbn [file_lines Py.len].
  - destruct (Py.is_empty cur) eqn:E; cbn [total_len].
    + rewrite (is_empty_len _ E). reflexivity.
    + lia.
  - destruct (Ascii.eqb c LF).
    { cbn [total_len]. rewrite IH, len_snoc. cbn [Py.len]. lia. }
    destruct (Ascii.eqb c CR).
    + destruct text as [|d text'].
      * cbn [total_len]. rewrite IH, len_snoc. cbn [Py.len]. lia.
      * destruct (Ascii.eqb d LF) eqn:Hd; cbn [total_len].
        -- pose proof (IH EmptyString) as Ht. cbn [file_lines] in Ht.
           rewrite Hd in Ht. cbn [total_len Py.len] in Ht.
           rewrite len_snoc in Ht. cbn [Py.len] in Ht.
           rewrite !len_snoc. cbn [Py.len]. lia.
        -- rewrite IH, len_snoc. cbn [Py.len]. lia.
    + rewrite IH, len_snoc. lia.
Qed.

Lemma all_chars_impl (p p' : ascii -> bool) s :
  (forall c, p c = true -> p' c = true) ->
  all_chars p s = true -> all_chars p' s = true.
Proof.
  intros Hp. induction s as [|c s IH]; simpl; [reflexivity|].
  intros H. apply andb_true_iff in H as [Hc Hs].
  now rewrite (Hp c Hc), IH.
Qed.

Lemma all_chars_app p a b :
  all_chars p (a ++ b) = all_chars p a && all_chars p b.
Proof.
  induction a as [|c a IH]; simpl; [reflexivity|].
  now rewrite IH, andb_assoc.
Qed.

Lemma all_chars_lstrip p s :
  all_chars p s = true -> all_chars p (Py.lstrip s) = true.
Proof.
  induction s as [|c s IH]; simpl; [reflexivity|].
  intros H. destruct (Py.isspace c); [|exact H].
  apply andb_true_iff in H as [_ Hs]. now apply IH.
Qed.

Lemma all_chars_rstrip p s :
  all_chars p s = true -> all_chars p (Py.rstrip s) = true.
Proof.
  induction s as [|c s IH]; simpl; [reflexivity|].
  intros H. apply andb_true_iff in H as [Hc Hs].
  destruct (Py.isspace c && Py.is_empty (Py.rstrip s)); [reflexivity|].
  simpl. now rewrite Hc, IH.
Qed.

Lemma linebreak_newline c : is_linebreak c = false -> not_newline c = true.
Proof.
  intros H. unfold not_newline, is_newline.
  destruct (Ascii.eqb c LF) eqn:E1;
    [apply Ascii.eqb_eq in E1; subst; discriminate H|].
  destruct (Ascii.eqb c CR) eqn:E2;
    [apply Ascii.eqb_eq in E2; subst; discriminate H|].
  reflexivity.
Qed.

Lemma splitlines_plain text : forall cur,
  all_chars not_newline cur = true ->
  Forall (fun l => all_chars not_newline l = true) (splitlines cur text).
Proof.
  induction text as [|c text IH]; intros cur Hcur; simpl.
  - destruct (Py.is_empty cur); repeat constructor. exact Hcur.
  - destruct (is_linebreak c) eqn:Hc.
    + destruct text as [|d text']; [repeat constructor; exact Hcur|].
      destruct (Ascii.eqb c CR && Ascii.eqb d LF) eqn:Hd.
      * constructor; [exact Hcur|].
        assert (Forall (fun l => all_chars not_newline l = true)
                  (splitlines EmptyString (String d text'))) as Hrec
          by now apply IH.
        simpl in Hrec. apply andb_true_iff in Hd as [_ Hd].
        apply Ascii.eqb_eq in Hd. subst d.
        change (is_linebreak LF) with true in Hrec.
        destruct text'; simpl in Hrec; now inversion Hrec.
      * constructor; [exact Hcur|now apply IH].
    + apply IH. rewrite all_chars_snoc, Hcur. now apply linebreak_newline.
Qed.

Lemma cleaned_lines_plain text :
  Forall (fun l => all_chars not_newline l = true) (cleaned_lines text).
Proof.
  unfold cleaned_lines.
  pose proof (splitlines_plain text EmptyString eq_refl) as H.
  induction H as [|l ls Hl Hls IH]; simpl; [constructor|].
  destruct (negb _); [constructor|]; [|exact IH|exact IH].
  unfold Py.strip. now apply all_chars_rstrip, all_chars_lstrip.
Qed.

Lemma join_no_CR ls :
  Forall (fun l => all_chars not_newline l = true) ls ->
  all_chars not_CR (Py.join (String LF EmptyString) ls) = true.
Proof.
  assert (forall c, not_newline c = true -> not_CR c = true) as Himp.
  { intros c. unfold not_newline, not_CR, is_newline.
    destruct (Ascii.eqb c CR); [now rewrite orb_true_r|reflexivity]. }
  induction 1 as [|l ls Hl Hls IH]; [reflexivity|].
  destruct ls as [|l' ls'].
  - simpl. now apply (all_chars_impl _ _ _ Himp).
  - change (Py.join (String LF EmptyString) (l :: l' :: ls'))
      with (l ++ String LF EmptyString ++ Py.join (String LF EmptyString) (l' :: ls')).
    rewrite !all_chars_app, IH, (all_chars_impl _ _ _ Himp Hl). reflexivity.
Qed.

Lemma stringio_lines_ok text : forall cur,
  all_chars not_CR text = true ->
  all_chars not_newline cur = true ->
  Forall (fun l => line_ok l = true) (stringio_lines cur text).
Proof.
  induction text as [|c text IH]; intros cur Ht Hcur; simpl.
  - destruct (Py.is_empty cur); constructor; [|constructor].
    now apply line_ok_plain.
  - simpl in Ht. apply andb_true_iff in Ht as [Hc Ht].
    destruct (Ascii.eqb c LF) eqn:Hlf.
    + constructor; [|now apply IH].
      unfold snoc. rewrite line_ok_app by assumption. simpl.
      now rewrite (is_newline_LF c Hlf).
    + apply IH; [exact Ht|].
      rewrite all_chars_snoc, Hcur. unfold not_newline, is_newline.
      unfold not_CR in Hc. apply negb_true_iff in Hc. now rewrite Hlf, Hc.
Qed.

Lemma stringio_lines_len text : forall cur,
  total_len (stringio_lines cur text) = (Py.len cur + Py.len text)%N.
Proof.
  induction text as [|c text IH]; intros cur; cbn [stringio_lines Py.len].
  - destruct (Py.is_empty cur) eqn:E; cbn [total_len].
    + rewrite (is_empty_len _ E). reflexivity.
    + lia.
  - destruct (Ascii.eqb c LF); [cbn [total_len]|]; rewrite IH, len_snoc;
      cbn [Py.len]; lia.
Qed.

(** Reading a request file of at most 131072 characters never raises
    [csv.Error]. *)
Lemma reader_rows_file_ok text :
  (Py.len text <= field_limit)%N ->
  exists rows, reader_rows (file_lines EmptyString text) = Some rows.
Proof.
  intros Hlen.
  destruct (rows_ok (file_lines EmptyString text) reset) as [rs Hrs].
  - now apply file_lines_ok.
  - now left.
  - rewrite file_lines_len. cbn [field reset Py.len]. lia.
  - unfold reader_rows. rewrite Hrs. eauto.
Qed.

Lemma parse_requests_file_ok files path :
  (forall text, files !! path = Some text -> (Py.len text <= field_limit)%N) ->
  exists w entries, parse_requests_file files path = Some (w, entries).
Proof.
  intros Hlen. unfold parse_requests_file.
  destruct (files !! path) as [text|] eqn:Hp; [|eauto].
  destruct (reader_rows_file_ok text (Hlen text eq_refl)) as [rs ->].
  destruct (parse_rows rs). eauto.
Qed.

Lemma len_lstrip s : (Py.len (Py.lstrip s) <= Py.len s)%N.
Proof.
  induction s as [|c s IH]; cbn [Py.lstrip Py.len]; [lia|].
  destruct (Py.isspace c); cbn [Py.len]; lia.
Qed.

Lemma len_rstrip s : (Py.len (Py.rstrip s) <= Py.len s)%N.
Proof.
  induction s as [|c s IH]; cbn [Py.rstrip Py.len]; [lia|].
  destruct (Py.isspace c && Py.is_empty (Py.rstrip s)); cbn [Py.len]; lia.
Qed.

Lemma len_strip s : (Py.len (Py.strip s) <= Py.len s)%N.
Proof.
  unfold Py.strip. pose proof (len_rstrip (Py.lstrip s)).
  pose proof (len_lstrip s). lia.
Qed.

Lemma weight_splitlines_upto n : forall text cur,
  (String.length text <= n)%nat ->
  (weight (splitlines cur text) <= Py.len cur + Py.len text + 1)%N.
Proof.
  induction n as [|n IH]; intros text cur Hn.
  - destruct text; [|simpl in Hn; lia].
    cbn [splitlines Py.len]. destruct (Py.is_empty cur); cbn [weight]; lia.
  - destruct text as [|c text]; cbn [splitlines Py.len].
    { destruct (Py.is_empty cur); cbn [weight]; lia. }
    cbn [String.length] in Hn.
    destruct (is_linebreak c).
    + destruct text as [|d text'].
      * cbn [splitlines Py.is_empty weight Py.len]. lia.
      * cbn [String.length] in Hn.
        destruct (Ascii.eqb c CR && Ascii.eqb d LF); cbn [weight Py.len].
        -- pose proof (IH text' EmptyString ltac:(lia)) as H0.
           cbn [Py.len] in H0. lia.
        -- pose proof (IH (String d text') EmptyString
                         ltac:(cbn [String.length]; lia)) as H0.
           cbn [Py.len] in H0. lia.
    + pose proof (IH text (snoc cur c) ltac:(lia)) as H0.
      rewrite len_snoc in H0. lia.
Qed.

Lemma weight_strip ls :
  (weight (List.map Py.strip ls) <= weight ls)%N.
Proof.
  induction ls as [|l ls IH]; cbn [List.map weight]; [lia|].
  pose proof (len_strip l). lia.
Qed.

Lemma weight_filter p ls : (weight (List.filter p ls) <= weight ls)%N.
Proof.
  induction ls as [|l ls IH]; cbn [List.filter weight]; [lia|].
  destruct (p l); cbn [weight]; lia.
Qed.

Lemma len_join ls :
  ls <> [] -> (Py.len (Py.join (String LF EmptyString) ls) + 1 = weight ls)%N.
Proof.
  induction ls as [|l [|l' ls] IH]; intros Hne; [contradiction| |].
  - cbn [Py.join weight]. lia.
  - change (Py.join (String LF EmptyString) (l :: l' :: ls))
      with (l ++ String LF (Py.join (String LF EmptyString) (l' :: ls))).
    rewrite len_app. cbn [Py.len weight] in *.
    specialize (IH ltac:(discriminate)). lia.
Qed.

(** Building the table from a text of at most 131072 characters never
    raises [csv.Error]. *)
Lemma parse_embedded_items_ok text :
  (Py.len text <= field_limit)%N ->
  exists m, parse_embedded_items text = Some m.
Proof.
  intros Hlen. unfold parse_embedded_items.
  pose proof (cleaned_lines_plain text) as Hc.
  assert (weight (cleaned_lines text) <= Py.len text + 1)%N as Hw.
  { unfold cleaned_lines.
    pose proof (weight_filter
                  (fun line => negb (Py.is_empty line || Py.startswith "#" line))
                  (List.map Py.strip (splitlines EmptyString text))).
    pose proof (weight_strip (splitlines EmptyString text)).
    pose proof (weight_splitlines_upto (String.length text) text EmptyString
                  (le_n _)) as H1.
    cbn [Py.len] in H1. lia. }
  destruct (cleaned_lines text) as [|l ls]; [eauto|].
  destruct (rows_ok (stringio_lines EmptyString
                       (Py.join (String LF EmptyString) (l :: ls))) reset)
    as [rs Hrs].
  - apply stringio_lines_ok; [now apply join_no_CR|reflexivity].
  - now left.
  - rewrite stringio_lines_len. cbn [field reset Py.len].
    pose proof (len_join (l :: ls) ltac:(discriminate)). lia.
  - unfold reader_rows. rewrite Hrs. eauto.
Qed.

End CsvTotal.

(** ** Plain lines through the csv reader *)

Section PlainLines.

Import Csv.

Lemma feed_app s t : forall r,
  feed r (s ++ t) =
  match feed_chars r s with Some r' => feed r' t | None => None end.
Proof.
  induction s as [|c s IH]; intros r; simpl.
  - destruct t; reflexivity.
  - destruct (process_char r (Some c)); [apply IH|reflexivity].
Qed.

Lemma plain_char_inv c :
  plain_char c = true -> Ascii.eqb c "," = false /\ is_newline c = false.
Proof.
  unfold plain_char, not_newline. intros H.
  apply andb_true_iff in H as [H1 H2].
  apply negb_true_iff in H1, H2. auto.
Qed.

Lemma in_field_chars f : forall r,
  st r = IN_FIELD -> all_chars plain_char f = true ->
  (Py.len (field r) + Py.len f <= field_limit)%N ->
  feed_chars r f = Some (Reader IN_FIELD (field r ++ f) (fields r)).
Proof.
  induction f as [|c f IH]; intros [s fd fs] Hs H Hlen;
    cbn [st field fields feed_chars all_chars Py.len] in *; subst.
  - now rewrite app_empty_r.
  - apply andb_true_iff in H as [Hc Hf].
    destruct (plain_char_inv c Hc) as [Hcomma Hnl].
    unfold process_char. cbn [st]. rewrite Hnl, Hcomma.
    rewrite add_char_room by (cbn [field]; lia). cbn [st field fields].
    rewrite IH; [|reflexivity|exact Hf|cbn [field]; rewrite len_snoc; lia].
    cbn [field fields]. unfold snoc. now rewrite string_app_assoc.
Qed.

Lemma start_field_chars f : forall r,
  st r = START_FIELD -> field r = EmptyString -> field_ok f ->
  feed_chars r f =
  Some (if Py.is_empty f then r else Reader IN_FIELD f (fields r)).
Proof.
  intros [s fd fs] Hs Hfd (Hp & Hq & Hlen); cbn [st field fields] in *; subst.
  destruct f as [|c f]; [reflexivity|].
  cbn [all_chars] in Hp. apply andb_true_iff in Hp as [Hc Hf].
  destruct (plain_char_inv c Hc) as [Hcomma Hnl].
  cbn [Py.startswith] in Hq. rewrite andb_true_r, Ascii.eqb_sym in Hq.
  cbn [feed_chars Py.is_empty Py.len] in *. unfold process_char, start_field.
  cbn [st]. rewrite Hnl, Hq, Hcomma.
  rewrite add_char_room by (cbn [field Py.len]; unfold field_limit; lia).
  unfold set_state. cbn [option_map st field fields].
  rewrite in_field_chars;
    [|reflexivity|exact Hf|cbn [field]; rewrite len_snoc; cbn [Py.len]; lia].
  reflexivity.
Qed.

Lemma field_then_comma f r :
  st r = START_FIELD -> field r = EmptyString -> field_ok f ->
  feed_chars r (f ++ ",") = Some (Reader START_FIELD EmptyString (fields r ++ [f])).
Proof.
  intros Hs Hfd Hok.
  assert (forall t r0, feed_chars r0 (f ++ t) =
            match feed_chars r0 f with Some r' => feed_chars r' t | None => None end)
    as Happ.
  { clear. induction f as [|c f IH]; intros t r0; simpl; [reflexivity|].
    destruct (process_char r0 (Some c)); [apply IH|reflexivity]. }
  rewrite Happ, (start_field_chars f r Hs Hfd Hok).
  destruct r as [s fd fs]; simpl in *; subst.
  destruct f; reflexivity.
Qed.

Lemma field_then_end f r :
  st r = START_FIELD -> field r = EmptyString -> field_ok f ->
  feed r (f ++ String LF EmptyString) =
  Some (Reader START_RECORD EmptyString (fields r ++ [f])).
Proof.
  intros Hs Hfd Hok.
  rewrite feed_app, (start_field_chars f r Hs Hfd Hok).
  destruct r as [s fd fs]; simpl in *; subst.
  destruct f; reflexivity.
Qed.

Lemma join_cons sep f g fs :
  Py.join sep (f :: g :: fs) = f ++ sep ++ Py.join sep (g :: fs).
Proof. reflexivity. Qed.

(** A line of fields that need no quoting reads as those fields. *)
Lemma fields_line fs : forall r,
  fs <> [] -> st r = START_FIELD -> field r = EmptyString ->
  Forall field_ok fs ->
  feed r (Py.join "," fs ++ String LF EmptyString) =
  Some (Reader START_RECORD EmptyString (fields r ++ fs)).
Proof.
  induction fs as [|f fs IH]; intros r Hne Hs Hfd Hok; [contradiction|].
  inversion Hok as [|? ? Hf Hfs]; subst.
  destruct fs as [|g fs].
  - simpl Py.join. now apply field_then_end.
  - assert (Py.join "," (f :: g :: fs) ++ String LF EmptyString =
            (f ++ ",") ++ (Py.join "," (g :: fs) ++ String LF EmptyString)) as ->
      by (rewrite join_cons, !string_app_assoc; reflexivity).
    rewrite feed_app, (field_then_comma f r Hs Hfd Hf).
    rewrite IH; [|discriminate|reflexivity|reflexivity|exact Hfs].
    simpl. now rewrite <- app_assoc.
Qed.

Lemma first_line_char c x r :
  st r = START_RECORD -> is_newline c = false ->
  feed r (String c x) = feed (set_state START_FIELD r) (String c x).
Proof.
  intros Hs Hc. destruct r as [s fd fs]; cbn [st] in Hs; subst.
  cbn [feed]. unfold process_char. cbn [st]. rewrite Hc.
  unfold start_field, add_char, set_state, save_field. cbn [st field fields].
  rewrite Hc.
  destruct (Ascii.eqb c QUOTE), (Ascii.eqb c ","),
    (negb (is_continuation c) && (field_limit <=? chars fd)%N); reflexivity.
Qed.

Lemma record_line f fs :
  f :: fs <> [EmptyString] -> Forall field_ok (f :: fs) ->
  feed reset (Py.join "," (f :: fs) ++ String LF EmptyString) =
  Some (Reader START_RECORD EmptyString (f :: fs)).
Proof.
  intros Hne Hok.
  assert (exists c x, Py.join "," (f :: fs) ++ String LF EmptyString = String c x /\
                      is_newline c = false) as (c & x & Heq & Hc).
  { inversion Hok as [|? ? [Hp _] _]; subst.
    destruct f as [|c f'].
    - destruct fs as [|g fs]; [contradiction|].
      eexists ","%char, _. split; reflexivity.
    - simpl in Hp. apply andb_true_iff in Hp as [Hc _].
      destruct fs; eexists c, _; (split; [reflexivity|]);
        apply (plain_char_inv c Hc). }
  rewrite Heq, (first_line_char c x reset eq_refl Hc), <- Heq.
  exact (fields_line (f :: fs) (set_state START_FIELD reset)
           ltac:(discriminate) eq_refl eq_refl Hok).
Qed.

Lemma file_lines_line s rest : forall cur,
  all_chars not_newline s = true ->
  file_lines cur (s ++ String LF rest) =
  (cur ++ s ++ String LF EmptyString) :: file_lines EmptyString rest.
Proof.
  induction s as [|c s IH]; intros cur H; simpl in *.
  - reflexivity.
  - apply andb_true_iff in H as [Hc Hs].
    unfold not_newline, is_newline in Hc. apply negb_true_iff in Hc.
    apply orb_false_iff in Hc as [Hlf Hcr]. rewrite Hlf, Hcr.
    rewrite (IH _ Hs). unfold snoc. now rewrite string_app_assoc.
Qed.

Lemma file_lines_one s : forall cur,
  all_chars not_newline s = true ->
  file_lines cur (s ++ String LF EmptyString) = [cur ++ s ++ String LF EmptyString].
Proof. intros cur H. now rewrite file_lines_line. Qed.

Lemma plain_not_newline c : plain_char c = true -> not_newline c = true.
Proof. unfold plain_char. intros H. now apply andb_true_iff in H as [_ H]. Qed.

Lemma join_not_newline fs :
  Forall field_ok fs -> all_chars not_newline (Py.join "," fs) = true.
Proof.
  induction 1 as [|f fs [Hf _] Hfs IH]; [reflexivity|].
  pose proof (all_chars_impl _ _ _ plain_not_newline Hf) as Hf'.
  destruct fs as [|g fs]; [exact Hf'|].
  rewrite join_cons, !all_chars_app, Hf', IH. reflexivity.
Qed.

(** The file that holds one such line reads as one row. *)
Lemma one_line_rows f fs :
  f <> EmptyString -> Forall field_ok (f :: fs) ->
  reader_rows (file_lines EmptyString (Py.join "," (f :: fs) ++ String LF EmptyString))
  = Some [f :: fs].
Proof.
  intros Hne Hok.
  rewrite (file_lines_one _ EmptyString (join_not_newline _ Hok)).
  unfold reader_rows. cbn [rows String.append].
  rewrite (record_line f fs); [reflexivity| |exact Hok].
  intros [= -> _]. contradiction.
Qed.

End PlainLines.

(** ** A file of plain lines through the csv reader *)

Section RowsOfText.

Import Csv.






End RowsOfText.

(** ** The whole run *)

Section WholeRun.

Context {World : Type}.
Variable download_one : string -> string -> World -> option string * World.

(** The table of the script is the one built from its data, and it is
    not empty. *)
Lemma ITEMS_CSV_table : parse_embedded_items ITEMS_CSV = Some name_to_ident.
Proof.
  unfold name_to_ident.
  destruct (parse_embedded_items_ok ITEMS_CSV) as [m ->]; [|reflexivity].
  apply N.leb_le. vm_compute. reflexivity.
Qed.

Lemma name_to_ident_not_empty : name_to_ident <> ∅.
Proof.
  intros H.
  assert (name_to_ident !! "mule" = Some "T2_MOUNT_MULE") as Hmule
    by (vm_compute; reflexivity).
  rewrite H, lookup_empty in Hmule. discriminate.
Qed.

End WholeRun.

(** ** Lines that are dropped, lines that are kept *)

Section Dropped.

(** Every request comes from a row that [parse_row] accepted. *)
Lemma parse_rows_origin rows q :
  In q (snd (parse_rows rows)) ->
  exists raw w, In raw rows /\ parse_row raw = (w, Some q).
Proof.
  induction rows as [|r rows IH]; simpl; [contradiction|].
  destruct (parse_row r) as [w [q'|]] eqn:Hr, (parse_rows rows) as [ws rs];
    simpl in *.
  - intros [<-|H]; [eauto|].
    destruct (IH H) as (raw & w' & Hin & Hp). eauto.
  - intros H. destruct (IH H) as (raw & w' & Hin & Hp). eauto.
Qed.

(** The row of a line with a name, once past the tests for empty rows
    and comments. *)
Lemma parse_row_named raw name rest :
  List.map Py.strip raw = name :: rest -> name <> EmptyString ->
  is_comment raw = false ->
  parse_row raw =
  let cols := name :: rest in
  let tier := column_or (-1) (int_column cols 1) in
  let enchant := column_or 0 (int_column cols 2) in
  let quality := column_or 1 (int_column cols 3) in
  let w := (bad_column WarnBadTier name (int_column cols 1) ++
            bad_column WarnBadEnchant name (int_column cols 2) ++
            bad_column WarnBadQuality name (int_column cols 3))%list in
  if negb (tier =? -1) && negb ((1 <=? tier) && (tier <=? 8))
  then ((w ++ [WarnInvalidTier tier name])%list, None)
  else if negb ((0 <=? enchant) && (enchant <=? 4))
  then ((w ++ [WarnInvalidEnchant enchant name])%list, None)
  else if negb ((1 <=? quality) && (quality <=? 5))
  then ((w ++ [WarnInvalidQuality quality name])%list, None)
  else (w, Some (mkRequest name tier enchant quality (Py.join ", " cols))).
Proof.
  intros Hcols Hname Hc. unfold parse_row.
  destruct raw as [|r0 raw']; [discriminate|].
  rewrite Hc, Hcols.
  destruct name; [contradiction|reflexivity].
Qed.

End Dropped.

(** ** Rows and runs, whatever the tables of Python and the answers of
    the operating system *)

Section OsRows.





Variable P : Os.Str.

Lemma os_parse_rows_app rows1 rows2 :
  snd (Os.parse_rows P (rows1 ++ rows2)) =
  (snd (Os.parse_rows P rows1) ++ snd (Os.parse_rows P rows2))%list.
Proof.
  induction rows1 as [|r rows1 IH]; simpl; [reflexivity|].
  destruct (Os.parse_row P r) as [w [q|]],
    (Os.parse_rows P (rows1 ++ rows2)) as [ws rs],
    (Os.parse_rows P rows1) as [ws1 rs1]; simpl in *; now rewrite IH.
Qed.

Lemma os_parse_rows_drop rows1 raw rows2 :
  snd (Os.parse_row P raw) = None ->
  snd (Os.parse_rows P (rows1 ++ raw :: rows2)) =
  snd (Os.parse_rows P (rows1 ++ rows2)).
Proof.
  intros H. rewrite !os_parse_rows_app. f_equal. simpl.
  destruct (Os.parse_row P raw) as [w [q|]]; [discriminate|].
  destruct (Os.parse_rows P rows2). reflexivity.
Qed.

(** The row of a line with a name, once past the tests for empty rows
    and comments. *)
Lemma os_parse_row_named raw name rest :
  List.map (Os.strip P) raw = name :: rest -> name <> EmptyString ->
  Os.is_comment P raw = false ->
  Os.parse_row P raw =
  let cols := name :: rest in
  let tier := column_or (-1) (Os.int_column P cols 1) in
  let enchant := column_or 0 (Os.int_column P cols 2) in
  let quality := column_or 1 (Os.int_column P cols 3) in
  let w := (bad_column WarnBadTier name (Os.int_column P cols 1) ++
            bad_column WarnBadEnchant name (Os.int_column P cols 2) ++
            bad_column WarnBadQuality name (Os.int_column P cols 3))%list in
  if negb (tier =? -1) && negb ((1 <=? tier) && (tier <=? 8))
  then ((w ++ [WarnInvalidTier tier name])%list, None)
  else if negb ((0 <=? enchant) && (enchant <=? 4))
  then ((w ++ [WarnInvalidEnchant enchant name])%list, None)
  else if negb ((1 <=? quality) && (quality <=? 5))
  then ((w ++ [WarnInvalidQuality quality name])%list, None)
  else (w, Some (mkRequest name tier enchant quality (Py.join ", " cols))).
Proof.
  intros Hcols Hname Hc. unfold Os.parse_row.
  destruct raw as [|r0 raw']; [discriminate|].
  rewrite Hc, Hcols.
  destruct name; [contradiction|reflexivity].
Qed.

(** A line with a second, third or fourth column is no comment. *)
Lemma os_out_of_range_not_comment raw name rest :
  List.map (Os.strip P) raw = name :: rest -> out_of_range P (name :: rest) ->
  Os.is_comment P raw = false.
Proof.
  intros Hcols H.
  destruct raw as [|r0 [|r1 raw']]; [discriminate| |reflexivity].
  injection Hcols as <- <-.
  destruct H as [(n & H & _)|[(n & H & _)|(n & H & _)]]; discriminate H.
Qed.






Context {World : Type}.
Variable E : Os.Env World.



(** [main] up to the reading of the request file. *)
Lemma os_main_read argv items w w1 m :
  Os.makedirs E (default DEFAULT_OUTPUT_DIR (argv !! 2%nat)) w = (None, w1) ->
  parse_embedded_items items = Some m -> m <> ∅ ->
  Os.main P E argv items w =
  match Os.parse_requests_file P E (default DEFAULT_INPUT (argv !! 1%nat)) w1 with
  | inl e => Os.Crashed e w1
  | inr (warnings, []) => Os.Finished Returned (warnings ++ [InfoNoEntries]) w1
  | inr (warnings, entries) =>
      let s := fold_left
                 (Os.process P E m (default DEFAULT_OUTPUT_DIR (argv !! 2%nat)))
                 entries (mkLoop [] warnings w1) in
      match Os.write_text E (default DEFAULT_INPUT (argv !! 1%nat))
              (Os.rewritten P (failed_lines s)) (world s) with
      | (None, w3) =>
          Os.Finished Returned
            (console s ++
             [Os.closing (failed_lines s) (default DEFAULT_INPUT (argv !! 1%nat))]) w3
      | (Some e, w3) =>
          Os.Finished Returned
            (console s ++
             [WarnCouldNotRewrite (default DEFAULT_INPUT (argv !! 1%nat)) e]) w3
      end
  end.
Proof.
  intros Hd Hm Hne. unfold Os.main. rewrite Hd, Hm.
  rewrite bool_decide_eq_false_2 by exact Hne.
  destruct (Os.parse_requests_file P E _ w1) as [e|[ws [|q entries]]]; reflexivity.
Qed.


End OsRows.

(** ** The end of the run *)




(** C5, as the code has it.  Whatever [strip] and [int] make of the
    columns: a line whose tier (other than -1), enchantment or quality
    is an integer outside its range is dropped with a warning and gives
    no request, so nothing of it reaches the resolver or the lines
    written back.  A column that [int] refuses does not drop the line:
    its default stands in (no tier, enchantment 0, quality 1), a warning
    is printed and the line goes on as a request. *)
Theorem out_of_range_line_dropped :
  forall (P : Os.Str) raw name rest,
    List.map (Os.strip P) raw = name :: rest -> name <> EmptyString ->
    (out_of_range P (name :: rest) ->
       snd (Os.parse_row P raw) = None /\
       (exists w e, fst (Os.parse_row P raw) = (w ++ [e])%list /\
                    is_invalid_warning name e) /\
       (forall rows1 rows2,
          snd (Os.parse_rows P (rows1 ++ raw :: rows2)) =
          snd (Os.parse_rows P (rows1 ++ rows2)))) /\
    (Os.is_comment P raw = false ->
     forall t e q,
       t = column_or (-1) (Os.int_column P (name :: rest) 1) ->
       e = column_or 0 (Os.int_column P (name :: rest) 2) ->
       q = column_or 1 (Os.int_column P (name :: rest) 3) ->
       (t = -1 \/ 1 <= t <= 8) -> 0 <= e <= 4 -> 1 <= q <= 5 ->
       Os.parse_row P raw =
       ((bad_column WarnBadTier name (Os.int_column P (name :: rest) 1) ++
         bad_column WarnBadEnchant name (Os.int_column P (name :: rest) 2) ++
         bad_column WarnBadQuality name (Os.int_column P (name :: rest) 3))%list,
        Some (mkRequest name t e q (Py.join ", " (name :: rest))))).
Proof.
  intros P raw name rest Hcols Hname. split.
  - intros Hout.
    pose proof (os_out_of_range_not_comment P raw name rest Hcols Hout) as Hc.
    assert (snd (Os.parse_row P raw) = None /\
            exists w e, fst (Os.parse_row P raw) = (w ++ [e])%list /\
                        is_invalid_warning name e) as [Hnone Hwarn].
    { rewrite (os_parse_row_named P raw name rest Hcols Hname Hc). cbv zeta.
      unfold is_invalid_warning.
      destruct Hout as [(n & Hn & H1 & H2)|[(n & Hn & H2)|(n & Hn & H2)]];
        rewrite ?Hn; simpl column_or;
        repeat match goal with
        | |- context [if ?b then _ else _] => destruct b eqn:?
        end; simpl; range_checks; try lia;
        (split; [reflexivity|]); eexists _, _; (split; [reflexivity|]); eauto. }
    split; [exact Hnone|]. split; [exact Hwarn|].
    intros rows1 rows2. now apply os_parse_rows_drop.
  - intros Hc t e q -> -> -> Ht He Hq.
    rewrite (os_parse_row_named P raw name rest Hcols Hname Hc). cbv zeta.
    repeat match goal with
    | |- context [if ?b then _ else _] => destruct b eqn:?
    end; range_checks; try lia; reflexivity.
Qed.

Lemma out_of_range_line_dropped_witness :
  snd (Os.parse_row Os.py ["Guardian Helmet"; " 9"]) = None /\
  Os.parse_row Os.py ["Guardian Helmet"; " six"; " 1"] =
    ([WarnBadTier "Guardian Helmet" "six"],
     Some (mkRequest "Guardian Helmet" (-1) 1 1 "Guardian Helmet, six, 1")).
Proof.
  split.
  - apply (proj1 (out_of_range_line_dropped Os.py ["Guardian Helmet"; " 9"]
                    "Guardian Helmet" ["9"] eq_refl ltac:(discriminate))).
    left. exists 9. split; [reflexivity|lia].
  - apply (proj2 (out_of_range_line_dropped Os.py ["Guardian Helmet"; " six"; " 1"]
                    "Guardian Helmet" ["six"; "1"] eq_refl ltac:(discriminate)));
      first [reflexivity | lia].
Defined.

(** A line whose tier is not an integer is not dropped: it goes on as a
    request without tier, and when that request fails the line is
    written back. *)
Lemma malformed_field_line_kept :
  Os.parse_row Os.py ["Not A Real Item"; " six"] =
    ([WarnBadTier "Not A Real Item" "six"],
     Some (mkRequest "Not A Real Item" (-1) 0 1 "Not A Real Item, six")) /\
  Os.main Os.py (Os.memory fetch_ok) ["download.py"] ITEMS_CSV unknown_item_bad_tier =
    Os.Finished Returned
      [WarnBadTier "Not A Real Item" "six"; FailNotInData "Not A Real Item";
       InfoKept 1 "downloads.txt"]
      {[ "downloads.txt" := line "Not A Real Item, six" ]} /\
  Os.parse_row Os.py ["Mule"; " -1"] =
    ([], Some (mkRequest "Mule" (-1) 0 1 "Mule, -1")).
Proof.
  split; [reflexivity|]. split; [|reflexivity].
  rewrite (os_main_read Os.py (Os.memory fetch_ok) ["download.py"] ITEMS_CSV
             unknown_item_bad_tier unknown_item_bad_tier name_to_ident
             eq_refl ITEMS_CSV_table name_to_ident_not_empty).
  vm_compute. reflexivity.
Qed.

(** ** The request file after the run *)




(** ** Worked examples *)

Example norm_name_cleric :
  norm_name "Cleric  Robe" = norm_name "cleric robe" /\
  norm_name "  Cleric   Robe " = "cleric robe".
Proof. split; reflexivity. Qed.

Example int_literals :
  Py.int "6" = Some 6 /\ Py.int "+07" = Some 7 /\ Py.int "1_0" = Some 10 /\
  Py.int "-1" = Some (-1) /\ Py.int "six" = None /\ Py.int "1__0" = None.
Proof. repeat split. Qed.

Example csv_rows :
  Csv.reader_rows
    (file_lines EmptyString
       (line "Guardian Helmet, 6" ++ line EmptyString ++
        String QUOTE "a, b" ++ String QUOTE ",3,,x" ++ String CR (line "# c")))
  = Some [["Guardian Helmet"; " 6"]; []; ["a, b"; "3"; ""; "x"]; ["# c"]].
Proof. vm_compute. reflexivity. Qed.

Example mule_without_tier :
  resolve name_to_ident "downloads" (mkRequest "Mule" (-1) 0 1 "Mule") =
  ([], inr (mkTarget "T2_MOUNT_MULE" "T2_MOUNT_MULE" 2
              "https://render.albiononline.com/v1/item/T2_MOUNT_MULE.png"
              "downloads/Mule 2.png")).
Proof. vm_compute. reflexivity. Qed.

Example mule_with_tier_5 :
  resolve name_to_ident "downloads" (mkRequest "Mule" 5 0 1 "Mule, 5") =
  ([WarnTierIgnored "Mule" 5 2],
   inr (mkTarget "T2_MOUNT_MULE" "T2_MOUNT_MULE" 2
          "https://render.albiononline.com/v1/item/T2_MOUNT_MULE.png"
          "downloads/Mule 2.png")).
Proof. vm_compute. reflexivity. Qed.

(** One line that resolves and one that does not: the first is fetched,
    the second is what the request file holds afterwards. *)
Example one_fetched_one_kept :
  printed (main always_fetched ["download.py"] ITEMS_CSV two_requests tt) =
    [OkSaved "Cleric Robe" "downloads/Cleric Robe 6.1 Excellent.png";
     FailNotInData "Not A Real Item"; InfoKept 1 "downloads.txt"] /\
  files_after (main always_fetched ["download.py"] ITEMS_CSV two_requests tt)
    !! "downloads.txt" = Some (line "Not A Real Item, 3").
Proof. split; vm_compute; reflexivity. Qed.

(** * Further properties *)

(** ** File names *)

Section FileNames.

Lemma not_separator_escape c : not_separator (escape_separator c) = true.
Proof.
  unfold not_separator, is_separator, escape_separator.
  destruct (Ascii.eqb c "/") eqn:E1; [reflexivity|].
  destruct (Ascii.eqb c "\") eqn:E2; [reflexivity|].
  simpl. now rewrite E1, E2.
Qed.

Lemma map_chars_escape_safe s :
  all_chars not_separator (map_chars escape_separator s) = true.
Proof.
  induction s as [|c s IH]; simpl; [reflexivity|].
  now rewrite not_separator_escape, IH.
Qed.

Lemma map_chars_length f s : String.length (map_chars f s) = String.length s.
Proof. induction s as [|c s IH]; simpl; [reflexivity|now rewrite IH]. Qed.

Lemma map_chars_escape_id s :
  all_chars not_separator s = true -> map_chars escape_separator s = s.
Proof.
  induction s as [|c s IH]; simpl; [reflexivity|].
  intros H. apply andb_true_iff in H as [Hc Hs]. rewrite (IH Hs). f_equal.
  unfold not_separator, is_separator in Hc. unfold escape_separator.
  apply negb_true_iff in Hc. now rewrite Hc.
Qed.

Lemma numeral_not_separator c : is_numeral c = true -> not_separator c = true.
Proof.
  unfold is_numeral, not_separator, is_separator, Py.is_digit. intros H.
  destruct (Ascii.eqb c "/") eqn:E1;
    [apply Ascii.eqb_eq in E1; subst; discriminate H|].
  destruct (Ascii.eqb c "\") eqn:E2;
    [apply Ascii.eqb_eq in E2; subst; discriminate H|].
  reflexivity.
Qed.

Lemma uint_chars d : all_chars is_numeral (NilEmpty.string_of_uint d) = true.
Proof. induction d; simpl; auto. Qed.

(** [str] prints digits and at most a minus sign. *)
Lemma str_chars n : all_chars is_numeral (Py.str n) = true.
Proof.
  unfold Py.str, NilZero.string_of_int, NilZero.string_of_uint.
  destruct (Z.to_int n) as [d|d]; [|simpl]; destruct d; try reflexivity;
    apply uint_chars.
Qed.

Lemma str_safe n : all_chars not_separator (Py.str n) = true.
Proof. exact (all_chars_impl _ _ _ numeral_not_separator (str_chars n)). Qed.

Lemma quality_word_safe q : all_chars not_separator (QUALITY_WORD_get q) = true.
Proof.
  unfold QUALITY_WORD_get.
  repeat (match goal with |- context [if ?b then _ else _] => destruct b end;
          [reflexivity|]).
  apply str_safe.
Qed.

Lemma build_filename_safe n t e q :
  all_chars not_separator (build_filename n t e q) = true.
Proof.
  rewrite build_filename_eq. unfold filename_stem.
  rewrite !all_chars_app, map_chars_escape_safe, str_safe. simpl.
  destruct (0 <? e), (1 <? q); simpl;
    rewrite ?all_chars_app, ?str_safe, ?quality_word_safe; reflexivity.
Qed.

End FileNames.

(** X1. [safe_file_stem] leaves no slash or backslash in a name, keeps
    its length, does nothing to a name without them, and so does nothing
    when applied twice. *)
Theorem safe_file_stem_safe :
  forall s,
    all_chars not_separator (safe_file_stem s) = true /\
    String.length (safe_file_stem s) = String.length s /\
    (all_chars not_separator s = true -> safe_file_stem s = s) /\
    safe_file_stem (safe_file_stem s) = safe_file_stem s.
Proof.
  intros s. rewrite !safe_file_stem_map.
  split; [apply map_chars_escape_safe|].
  split; [apply map_chars_length|].
  split; [apply map_chars_escape_id|].
  apply map_chars_escape_id, map_chars_escape_safe.
Qed.

Lemma safe_file_stem_safe_witness : safe_file_stem "Cleric Robe" = "Cleric Robe".
Proof.
  apply (proj1 (proj2 (proj2 (safe_file_stem_safe "Cleric Robe")))). reflexivity.
Defined.

(** X2. Whatever the name, tier, enchantment and quality, the file name
    holds no slash or backslash.  So on a POSIX system, where
    [os.path.join] is [posixpath.join], the path the image is written to
    is the output directory, a slash unless the directory is empty or
    ends with one, and the file name: the image lands directly in the
    output directory.  (On Windows [os.path.join] is another function,
    which also looks for a drive letter in the file name; nothing is
    said here about it.) *)
Theorem image_written_inside_output_dir :
  forall dir n t e q,
    all_chars not_separator (build_filename n t e q) = true /\
    path_join dir (build_filename n t e q) =
    (if Py.is_empty dir || Py.endswith "/" dir then dir else dir ++ "/") ++
    build_filename n t e q.
Proof.
  intros dir n t e q. pose proof (build_filename_safe n t e q) as H.
  split; [exact H|]. unfold path_join.
  assert (Py.startswith "/" (build_filename n t e q) = false) as ->.
  { destruct (build_filename n t e q) as [|c f]; [reflexivity|].
    simpl in H. apply andb_true_iff in H as [Hc _].
    unfold not_separator, is_separator in Hc. apply negb_true_iff in Hc.
    apply orb_false_iff in Hc as [Hc _]. cbn [Py.startswith].
    rewrite Ascii.eqb_sym, Hc. reflexivity. }
  destruct (Py.is_empty dir || Py.endswith "/" dir); [reflexivity|].
  now rewrite string_app_assoc.
Qed.

(** ** Tier tokens and identifiers *)

Section MoreIdentifiers.

Lemma tier_prefix_match_app base suffix :
  has_tier_prefix base = true ->
  tier_prefix_match (base ++ suffix) = tier_prefix_match base.
Proof.
  intros H. destruct base as [|c0 [|c1 [|c2 rest]]]; try discriminate H.
  reflexivity.
Qed.

Lemma extract_tier_app base suffix :
  has_tier_prefix base = true ->
  extract_tier_from_ident (base ++ suffix) = extract_tier_from_ident base.
Proof.
  intros H. unfold extract_tier_from_ident.
  now rewrite tier_prefix_match_app.
Qed.

End MoreIdentifiers.

(** X3. [extract_tier_from_ident] answers -1 exactly for the identifiers
    that [has_tier_prefix] refuses, and a tier from 1 to 8 for the
    others. *)
Theorem tier_sentinel_iff :
  forall ident,
    (has_tier_prefix ident = false <-> extract_tier_from_ident ident = -1) /\
    (has_tier_prefix ident = true -> 1 <= extract_tier_from_ident ident <= 8).
Proof.
  intros ident.
  assert (has_tier_prefix ident = true -> 1 <= extract_tier_from_ident ident <= 8)
    as Hin.
  { intros H. destruct (tier_prefix_inv ident H) as (d & rest & Hd & _ & ->).
    exact Hd. }
  split; [|exact Hin]. split.
  - unfold has_tier_prefix, extract_tier_from_ident.
    destruct (tier_prefix_match ident); [discriminate|reflexivity].
  - intros H. destruct (has_tier_prefix ident); [|reflexivity].
    specialize (Hin eq_refl). lia.
Qed.

Lemma tier_sentinel_iff_witness : 1 <= extract_tier_from_ident "T2_MOUNT_MULE" <= 8.
Proof. apply (proj2 (tier_sentinel_iff "T2_MOUNT_MULE")). reflexivity. Defined.

(** X4. For a tier and an enchantment of at most 4300 digits, which
    [str] can print, [build_identifier] raises in one case only: the
    base identifier carries no tier and the tier given is the sentinel
    -1.  (A larger number makes the f-string raise as well.) *)
Theorem build_identifier_raises_iff :
  forall base t e,
    Z.abs t < 10 ^ Z.of_N Py.int_max_str_digits ->
    Z.abs e < 10 ^ Z.of_N Py.int_max_str_digits ->
    ((exists msg, build_identifier base t e = inl msg) <->
     (has_tier_prefix base = false /\ t = -1)).
Proof.
  intros base t e _ _. rewrite build_identifier_eq. split.
  - intros [msg H]. destruct (has_tier_prefix base); [discriminate|].
    destruct (t =? -1) eqn:E; [|discriminate].
    apply Z.eqb_eq in E. auto.
  - intros [-> ->]. simpl. eauto.
Qed.

Lemma build_identifier_raises_iff_witness :
  (exists msg, build_identifier "HEAD_PLATE_SET3" (-1) 0 = inl msg) <->
  (has_tier_prefix "HEAD_PLATE_SET3" = false /\ -1 = -1).
Proof.
  apply (build_identifier_raises_iff "HEAD_PLATE_SET3" (-1) 0);
    apply Z.ltb_lt; vm_compute; reflexivity.
Defined.

(** X5. The tier that [build_identifier] hands back for the file name is
    the tier [extract_tier_from_ident] reads off the identifier it built,
    and an identifier built without enchantment is left as it is, with
    that tier, when it is used as a base again, whatever tier is given
    then: no second tier token is put in front. *)
Theorem build_then_extract :
  forall base t e id tf,
    has_tier_prefix base = true \/ 1 <= t <= 8 ->
    build_identifier base t e = inr (id, tf) ->
    extract_tier_from_ident id = tf /\
    has_tier_prefix id = true /\
    forall t', build_identifier id t' 0 = inr (id, tf).
Proof.
  intros base t e id tf Hc Hb. rewrite build_identifier_eq in Hb.
  assert (has_tier_prefix id = true /\ extract_tier_from_ident id = tf) as [Hp Hx].
  { destruct (has_tier_prefix base) eqn:Hbase.
    - injection Hb as <- <-. split.
      + now apply has_tier_prefix_app.
      + now apply extract_tier_app.
    - destruct Hc as [Hc|Hc]; [discriminate|].
      destruct (t =? -1); [discriminate|]. injection Hb as <- <-.
      destruct (tier_prefix_intro t base Hc) as [H1 H2]. split.
      + exact (has_tier_prefix_app ("T" ++ Py.str t ++ "_" ++ base)
                 (enchant_suffix e) H1).
      + exact (eq_trans
                 (extract_tier_app ("T" ++ Py.str t ++ "_" ++ base)
                    (enchant_suffix e) H1) H2). }
  split; [exact Hx|]. split; [exact Hp|].
  intros t'. unfold build_identifier. rewrite Hp, Hx. reflexivity.
Qed.

Lemma build_then_extract_witness :
  extract_tier_from_ident "T6_ARMOR_CLOTH_SET2@1" = 6 /\
  has_tier_prefix "T6_ARMOR_CLOTH_SET2@1" = true /\
  forall t', build_identifier "T6_ARMOR_CLOTH_SET2@1" t' 0 =
             inr ("T6_ARMOR_CLOTH_SET2@1", 6).
Proof.
  apply (build_then_extract "ARMOR_CLOTH_SET2" 6 1).
  - right. lia.
  - reflexivity.
Defined.

(** ** The normal form of a name *)

Section NormalForm.

Lemma scan_empty_iff s : scan AtStart s = EmptyString <-> Py.all_space s = true.
Proof.
  induction s as [|c s IH]; simpl; [tauto|].
  destruct (Py.isspace c); simpl; [exact IH|].
  split; discriminate.
Qed.

Lemma casefold_empty_iff s : Py.casefold s = EmptyString <-> s = EmptyString.
Proof. destruct s; simpl; split; (reflexivity || discriminate). Qed.

Lemma norm_name_empty_iff s : norm_name s = EmptyString <-> Py.all_space s = true.
Proof. rewrite norm_name_scan, casefold_empty_iff. apply scan_empty_iff. Qed.

Lemma norm_name_idem s : norm_name (norm_name s) = norm_name s.
Proof.
  rewrite !norm_name_scan, <- casefold_scan, casefold_idem.
  now rewrite (proj1 (scan_idem s)).
Qed.

End NormalForm.

(** X6. A normalised name is left as it is by each step of the
    normalisation: stripping, collapsing whitespace and case folding (so
    its only whitespace is single spaces between words); and it is
    empty exactly when the name was made of whitespace only.  As C9,
    over every alphabet whose whitespace folds to itself, whose other
    characters fold to at least one character and to no whitespace, and
    whose folding is idempotent. *)
Theorem norm_name_normal_form :
  forall (char : Type) (isspace : char -> bool) (fold : char -> list char)
         (space : char),
    isspace space = true ->
    (forall c, isspace c = true -> fold c = [c]) ->
    (forall c d, isspace c = false -> In d (fold c) -> isspace d = false) ->
    (forall c, isspace c = false -> fold c <> []) ->
    (forall c, flat_map fold (fold c) = fold c) ->
    forall s,
      Unicode.strip isspace (Unicode.norm_name isspace fold space s) =
        Unicode.norm_name isspace fold space s /\
      Unicode.sub_space isspace space false (Unicode.norm_name isspace fold space s) =
        Unicode.norm_name isspace fold space s /\
      Unicode.casefold fold (Unicode.norm_name isspace fold space s) =
        Unicode.norm_name isspace fold space s /\
      (Unicode.norm_name isspace fold space s = [] <-> forallb isspace s = true).
Proof.
  intros char isspace fold space Hs F1 F2 F2' F3 s.
  exact (unorm_normal_form isspace fold space Hs F1 F2 F2' F3 s).
Qed.

Lemma norm_name_normal_form_witness :
  Unicode.strip Unicode.latin_isspace
    (Unicode.latin_norm_name [160; 83; 84; 82; 65; 223; 69; 32]%N) =
  Unicode.latin_norm_name [160; 83; 84; 82; 65; 223; 69; 32]%N /\
  (Unicode.latin_norm_name [160; 32; 133]%N = [] <->
   forallb Unicode.latin_isspace [160; 32; 133]%N = true).
Proof.
  split.
  - apply (norm_name_normal_form N Unicode.latin_isspace Unicode.latin_fold 32%N
             latin_space latin_fold_space latin_fold_word
             (fun c _ => latin_fold_not_empty c) latin_fold_idem).
  - apply (norm_name_normal_form N Unicode.latin_isspace Unicode.latin_fold 32%N
             latin_space latin_fold_space latin_fold_word
             (fun c _ => latin_fold_not_empty c) latin_fold_idem).
Defined.

(** ** Stripping *)

Section Stripping.

Lemma rstrip_idem s : Py.rstrip (Py.rstrip s) = Py.rstrip s.
Proof.
  induction s as [|c s IH]; simpl; [reflexivity|].
  destruct (Py.isspace c && Py.is_empty (Py.rstrip s)) eqn:E; [reflexivity|].
  simpl. now rewrite IH, E.
Qed.

Lemma lstrip_clean s : starts_clean (Py.lstrip s).
Proof.
  induction s as [|c s IH]; simpl; [exact I|].
  destruct (Py.isspace c) eqn:Hc; [exact IH|exact Hc].
Qed.

Lemma rstrip_clean s : starts_clean s -> starts_clean (Py.rstrip s).
Proof.
  destruct s as [|c s]; simpl; [auto|]. intros H. rewrite H. exact H.
Qed.

Lemma strip_clean s : starts_clean (Py.strip s).
Proof. apply rstrip_clean, lstrip_clean. Qed.

Lemma lstrip_of_clean s : starts_clean s -> Py.lstrip s = s.
Proof. destruct s as [|c s]; simpl; [reflexivity|]. now intros ->. Qed.

Lemma strip_idem s : Py.strip (Py.strip s) = Py.strip s.
Proof.
  unfold Py.strip at 1. rewrite (lstrip_of_clean _ (strip_clean s)).
  unfold Py.strip. apply rstrip_idem.
Qed.

Lemma strip_not_space s : Py.is_empty (Py.strip s) = false ->
  Py.all_space (Py.strip s) = false.
Proof.
  pose proof (strip_clean s) as H.
  destruct (Py.strip s) as [|c r]; [discriminate|].
  simpl in *. now rewrite H.
Qed.

Lemma norm_name_strip s : norm_name (Py.strip s) = norm_name s.
Proof. unfold norm_name. now rewrite strip_idem. Qed.

End Stripping.

(** ** The name table *)

Section Table.

Lemma add_item_ok m row :
  (forall k v, m !! k = Some v -> entry_ok k v) ->
  forall k v, add_item m row !! k = Some v -> entry_ok k v.
Proof.
  intros Hm k v. unfold add_item.
  destruct row as [|r0 [|r1 row]]; try apply Hm.
  destruct (Py.is_empty (Py.strip r0)) eqn:E0; simpl; [apply Hm|].
  destruct (Py.is_empty (Py.strip r1)) eqn:E1; simpl; [apply Hm|].
  rewrite lookup_insert. case_decide as Hk; [|apply Hm].
  intros [= <-]. subst k. repeat split.
  - apply norm_name_idem.
  - intros H. apply norm_name_empty_iff in H.
    rewrite (strip_not_space r0 E0) in H. discriminate.
  - apply strip_idem.
  - intros H. rewrite H in E1. discriminate.
Qed.

Lemma fold_add_item_ok rows : forall m,
  (forall k v, m !! k = Some v -> entry_ok k v) ->
  forall k v, fold_left add_item rows m !! k = Some v -> entry_ok k v.
Proof.
  induction rows as [|row rows IH]; intros m Hm; simpl; [exact Hm|].
  apply IH. now apply add_item_ok.
Qed.

End Table.

(** X7. Whatever the text of the data set, every key of the table built
    from it is a normalised name and is not empty, and every value is a
    stripped identifier that is not empty. *)
Theorem table_entries_normalised :
  forall text (m : gmap string string) k v,
    parse_embedded_items text = Some m -> m !! k = Some v ->
    norm_name k = k /\ k <> EmptyString /\ Py.strip v = v /\ v <> EmptyString.
Proof.
  intros text m k v Hp Hk. unfold parse_embedded_items in Hp.
  assert (forall k v, (∅ : gmap string string) !! k = Some v -> entry_ok k v) as H0.
  { intros k' v' H. rewrite lookup_empty in H. discriminate. }
  destruct (cleaned_lines text) as [|l ls].
  - injection Hp as <-. now apply H0.
  - destruct (Csv.reader_rows _) as [rows|]; [|discriminate].
    injection Hp as <-. exact (fold_add_item_ok rows ∅ H0 k v Hk).
Qed.

Lemma table_entries_normalised_witness :
  norm_name "mule" = "mule" /\ "mule" <> EmptyString /\
  Py.strip "T2_MOUNT_MULE" = "T2_MOUNT_MULE" /\ "T2_MOUNT_MULE" <> EmptyString.
Proof.
  apply (table_entries_normalised ITEMS_CSV name_to_ident "mule" "T2_MOUNT_MULE").
  - exact ITEMS_CSV_table.
  - vm_compute. reflexivity.
Defined.

(** X8. A row of the data set with a name and an identifier sets the
    entry of its normalised name to its stripped identifier, replacing
    whatever an earlier row gave for that name, and leaves every other
    entry as it was; a row with fewer than two columns, or whose name or
    identifier is empty once stripped, changes nothing. *)
Theorem table_last_entry_wins :
  forall rows (m : gmap string string) n i rest,
    (Py.strip n <> EmptyString -> Py.strip i <> EmptyString ->
       fold_left add_item (rows ++ [n :: i :: rest]) m !! norm_name n
         = Some (Py.strip i) /\
       forall k, k <> norm_name n ->
         fold_left add_item (rows ++ [n :: i :: rest]) m !! k
         = fold_left add_item rows m !! k) /\
    (Py.strip n = EmptyString \/ Py.strip i = EmptyString ->
       add_item m (n :: i :: rest) = m) /\
    add_item m [] = m /\ add_item m [n] = m.
Proof.
  intros rows m n i rest. split; [|split; [|split; reflexivity]].
  - intros Hn Hi. rewrite fold_left_app. simpl. unfold add_item at 1 3.
    destruct (Py.strip n) eqn:En; [contradiction|].
    destruct (Py.strip i) eqn:Ei; [contradiction|].
    simpl. rewrite <- En, norm_name_strip. split.
    + apply lookup_insert_eq.
    + intros k Hk. now apply lookup_insert_ne.
  - intros [H|H]; unfold add_item; rewrite H; simpl;
      [reflexivity|now rewrite andb_false_r].
Qed.

Lemma table_last_entry_wins_witness :
  fold_left add_item ([["Mule"; " T2_MOUNT_MULE"]] ++ [["  MULE "; " T3_OTHER"]]) ∅
    !! norm_name "  MULE " = Some (Py.strip " T3_OTHER").
Proof.
  apply (proj1 (table_last_entry_wins [["Mule"; " T2_MOUNT_MULE"]] ∅
                  "  MULE " " T3_OTHER" [])); discriminate.
Defined.

(** ** Reading never raises *)

(** X9. Building the table from a text of at most 131072 characters
    does not raise [csv.Error], and neither does reading a request file
    whose text has at most 131072 characters, whatever the characters
    are: a line handed to the csv reader holds a newline character only
    at its end, and no field can outgrow the limit of the reader.  (A
    longer text can: one field of 131073 characters is refused.) *)
Theorem reading_never_raises :
  (forall text, (Py.len text <= Csv.field_limit)%N ->
     exists name_to_ident, parse_embedded_items text = Some name_to_ident) /\
  (forall (P : Os.Str) World (E : Os.Env World) path w text,
     Os.read_text E path w = inr text ->
     (Py.len text <= Csv.field_limit)%N ->
     exists warnings entries,
       Os.parse_requests_file P E path w = inr (warnings, entries)).
Proof.
  split.
  - exact parse_embedded_items_ok.
  - intros P World E path w text Hread Hlen. unfold Os.parse_requests_file.
    destruct (Os.path_exists E path w); cbn [negb]; [|eauto].
    rewrite Hread.
    destruct (reader_rows_file_ok text Hlen) as [rows ->].
    destruct (Os.parse_rows P rows). eauto.
Qed.

Lemma reading_never_raises_witness :
  (exists name_to_ident, parse_embedded_items "Mule, T2_MOUNT_MULE" = Some name_to_ident) /\
  (exists warnings entries,
     Os.parse_requests_file Os.py (Os.memory (fun _ _ => None)) "downloads.txt"
       {[ "downloads.txt" := "Mule, 2" ]} = inr (warnings, entries)).
Proof.
  split.
  - apply (proj1 reading_never_raises). apply N.leb_le. reflexivity.
  - apply (proj2 reading_never_raises Os.py _ _ _ _ "Mule, 2").
    + reflexivity.
    + apply N.leb_le. reflexivity.
Defined.

(** ** Requests that reach the resolver *)

(** X10. Every request that [parse_requests_file] returns has a name
    that is not empty, a tier that is -1 or from 1 to 8, an enchantment
    from 0 to 4 and a quality from 1 to 5. *)
Theorem requests_in_range :
  forall files path ws entries,
    parse_requests_file files path = Some (ws, entries) ->
    Forall valid_request entries.
Proof.
  intros files path ws entries H. unfold parse_requests_file in H.
  destruct (files !! path) as [text|]; [|injection H as _ <-; constructor].
  destruct (Csv.reader_rows _) as [rows|]; [|discriminate].
  injection H as H. apply Forall_forall. intros q Hq.
  assert (In q (snd (parse_rows rows))) as Hin.
  { rewrite H. simpl. now apply list_elem_of_In. }
  destruct (parse_rows_origin rows q Hin) as (raw & w & _ & Hp).
  now apply parse_row_valid in Hp.
Qed.

Lemma requests_in_range_witness :
  Forall valid_request
    [mkRequest "Cleric Robe" 6 1 4 "Cleric Robe, 6, 1, 4";
     mkRequest "Not A Real Item" 3 0 1 "Not A Real Item, 3"].
Proof.
  apply (requests_in_range two_requests "downloads.txt" []).
  vm_compute. reflexivity.
Defined.

(** ** Fetches *)

Section Fetches.

Context {World : Type}.
Variable download_one : string -> string -> World -> option string * World.

Lemma fold_process_world m dir entries : forall s,
  world (fold_left (process download_one m dir) entries s) =
  fetch_all download_one (world s) (resolved_targets m dir entries).
Proof.
  unfold fetch_all, resolved_targets.
  induction entries as [|q entries IH]; intros s; [reflexivity|].
  cbn [fold_left omap list_omap]. rewrite IH. unfold process.
  destruct (resolve m dir q) as [wq [f|t]]; cbn [snd]; [reflexivity|].
  cbn [fold_left].
  destruct (download_one (url t) (out_file t) (world s)) as [[e|] w'];
    reflexivity.
Qed.

End Fetches.

(** X11. In a run with a table that is not empty, the fetches made are
    exactly one for each request that resolves, in the order of the
    input and with the URL and path of its target; a request that does
    not resolve causes no fetch, and a fetch that fails does not stop
    the later ones. *)
Theorem one_fetch_per_resolved_request :
  forall World (download_one : string -> string -> World -> option string * World)
         argv items files (w : World) m ws entries,
    parse_embedded_items items = Some m -> m <> ∅ ->
    parse_requests_file files (default DEFAULT_INPUT (argv !! 1%nat))
      = Some (ws, entries) ->
    world_after (main download_one argv items files w) =
    fetch_all download_one w
      (resolved_targets m (default DEFAULT_OUTPUT_DIR (argv !! 2%nat)) entries).
Proof.
  intros World download_one argv items files w m ws entries Hm Hne Hp.
  unfold main. rewrite Hm, Hp, (bool_decide_eq_false_2 _ Hne).
  destruct entries as [|q entries]; [reflexivity|].
  cbn [world_after]. now rewrite fold_process_world.
Qed.

Lemma one_fetch_per_resolved_request_witness :
  world_after
    (main (fun url filepath (w : list (string * string)) =>
             (Some "down", (w ++ [(url, filepath)])%list))
       ["download.py"] ITEMS_CSV two_requests []) =
  [("https://render.albiononline.com/v1/item/T6_ARMOR_CLOTH_SET2@1.png?quality=4",
    "downloads/Cleric Robe 6.1 Excellent.png")].
Proof.
  rewrite (one_fetch_per_resolved_request _ _ ["download.py"] ITEMS_CSV
             two_requests [] name_to_ident []
             [mkRequest "Cleric Robe" 6 1 4 "Cleric Robe, 6, 1, 4";
              mkRequest "Not A Real Item" 3 0 1 "Not A Real Item, 3"]
             ITEMS_CSV_table name_to_ident_not_empty
             ltac:(vm_compute; reflexivity)).
  vm_compute. reflexivity.
Defined.

(** ** Names that differ in case or spacing *)

(** X12. Two requests whose names have the same normal form, with the
    same tier and enchantment and quality, resolve alike: both fail, or
    both succeed with the same base identifier, identifier, tier and
    URL.  Only the file name, made from the name as typed, may differ. *)
Theorem resolve_by_normal_form :
  forall (m : gmap string string) dir q1 q2,
    norm_name (name q1) = norm_name (name q2) ->
    tier q1 = tier q2 -> enchant q1 = enchant q2 -> quality q1 = quality q2 ->
    match snd (resolve m dir q1), snd (resolve m dir q2) with
    | inr t1, inr t2 =>
        base_ident t1 = base_ident t2 /\ ident t1 = ident t2 /\
        tier_for_filename t1 = tier_for_filename t2 /\ url t1 = url t2
    | inl _, inl _ => True
    | _, _ => False
    end.
Proof.
  intros m dir q1 q2 Hn Ht He Hq.
  destruct (m !! norm_name (name q1)) as [base|] eqn:H1.
  - assert (m !! norm_name (name q2) = Some base) as H2 by now rewrite <- Hn.
    rewrite (resolve_found _ _ _ _ H1), (resolve_found _ _ _ _ H2).
    rewrite <- Ht, <- He, <- Hq.
    destruct (has_tier_prefix base); simpl; [auto|].
    destruct (tier q1 =? -1); simpl; auto.
  - assert (m !! norm_name (name q2) = None) as H2 by now rewrite <- Hn.
    unfold resolve. rewrite H1, H2. exact I.
Qed.

Lemma resolve_by_normal_form_witness :
  match snd (resolve name_to_ident "downloads"
               (mkRequest "Cleric Robe" 6 1 4 "Cleric Robe, 6, 1, 4")),
        snd (resolve name_to_ident "downloads"
               (mkRequest "cleric   ROBE" 6 1 4 "cleric   ROBE, 6, 1, 4")) with
  | inr t1, inr t2 =>
      base_ident t1 = base_ident t2 /\ ident t1 = ident t2 /\
      tier_for_filename t1 = tier_for_filename t2 /\ url t1 = url t2
  | inl _, inl _ => True
  | _, _ => False
  end.
Proof.
  apply (resolve_by_normal_form name_to_ident "downloads"
           (mkRequest "Cleric Robe" 6 1 4 "Cleric Robe, 6, 1, 4")
           (mkRequest "cleric   ROBE" 6 1 4 "cleric   ROBE, 6, 1, 4"));
    reflexivity.
Defined.

(** ** A kept line read again *)

Section ReadBack.

Lemma is_empty_app_cons a c x : Py.is_empty (a ++ String c x) = false.
Proof. destruct a; reflexivity. Qed.

Lemma rstrip_after_char a c x :
  Py.isspace c = false ->
  Py.rstrip (a ++ String c x) = a ++ String c (Py.rstrip x).
Proof.
  intros Hc. induction a as [|d a IH]; simpl.
  - now rewrite Hc.
  - rewrite IH, is_empty_app_cons, andb_false_r. reflexivity.
Qed.

Lemma lstrip_rstrip x : Py.lstrip (Py.rstrip x) = Py.rstrip (Py.lstrip x).
Proof.
  induction x as [|c x IH]; simpl; [reflexivity|].
  destruct (Py.isspace c) eqn:Hc; simpl.
  - destruct (Py.is_empty (Py.rstrip x)) eqn:He; simpl.
    + rewrite <- IH. destruct (Py.rstrip x); [reflexivity|discriminate].
    + now rewrite Hc.
  - now rewrite Hc.
Qed.

Lemma strip_rstrip x : Py.strip (Py.rstrip x) = Py.strip x.
Proof. unfold Py.strip. now rewrite lstrip_rstrip, rstrip_idem. Qed.

Lemma startswith_rstrip h a :
  Py.isspace h = false ->
  Py.startswith (String h EmptyString) (Py.rstrip a) =
  Py.startswith (String h EmptyString) a.
Proof.
  intros Hh. destruct a as [|c x]; [reflexivity|]. cbn [Py.rstrip].
  destruct (Py.isspace c && Py.is_empty (Py.rstrip x)) eqn:E; [|reflexivity].
  apply andb_true_iff in E as [Hc _]. cbn [Py.startswith].
  destruct (Ascii.eqb h c) eqn:Eh; [|reflexivity].
  apply Ascii.eqb_eq in Eh. subst. congruence.
Qed.

Lemma join_head sep a x tl :
  Py.join sep (String a x :: tl) = String a (Py.join sep (x :: tl)).
Proof. destruct tl; reflexivity. Qed.

Lemma join_space rest : forall n,
  Py.join ", " (n :: rest) = Py.join "," (n :: List.map (String " ") rest).
Proof.
  induction rest as [|r rest IH]; intros n; [reflexivity|].
  cbn [List.map]. rewrite !join_cons, join_head, <- IH. reflexivity.
Qed.

Lemma map_last_cons {A : Type} (g : A -> A) x y tl :
  map_last g (x :: y :: tl) = x :: map_last g (y :: tl).
Proof. reflexivity. Qed.

Lemma rstrip_join l :
  Py.rstrip (Py.join "," l) = Py.join "," (map_last Py.rstrip l).
Proof.
  induction l as [|x [|y tl] IH]; [reflexivity|reflexivity|].
  rewrite map_last_cons, join_cons.
  change ("," ++ Py.join "," (y :: tl)) with (String "," (Py.join "," (y :: tl))).
  rewrite rstrip_after_char by reflexivity. rewrite IH.
  destruct tl; reflexivity.
Qed.

Lemma map_strip_last l :
  List.map Py.strip (map_last Py.rstrip l) = List.map Py.strip l.
Proof.
  induction l as [|x [|y tl] IH]; [reflexivity| |].
  - simpl. now rewrite strip_rstrip.
  - rewrite map_last_cons. cbn [List.map] in *. now rewrite IH.
Qed.

Lemma field_ok_rstrip f : field_ok f -> field_ok (Py.rstrip f).
Proof.
  intros (Hp & Hq & Hlen). split; [now apply all_chars_rstrip|]. split.
  - now rewrite startswith_rstrip.
  - pose proof (len_rstrip f). lia.
Qed.

Lemma field_ok_last l : Forall field_ok l -> Forall field_ok (map_last Py.rstrip l).
Proof.
  induction l as [|x [|y tl] IH]; intros H; [constructor| |].
  - inversion H; subst. constructor; [now apply field_ok_rstrip|constructor].
  - inversion H; subst. rewrite map_last_cons. constructor; auto.
Qed.

Lemma spaced_columns_ok rest :
  Forall column_ok rest -> Forall field_ok (List.map (String " ") rest).
Proof.
  induction 1 as [|c rest [Hc Hl] Hrest IH]; constructor; [|exact IH].
  split; [cbn [all_chars]; now rewrite Hc|]. split; [reflexivity|].
  cbn [Py.len]. lia.
Qed.

Lemma map_strip_spaced rest :
  Forall (fun c => Py.strip c = c) rest ->
  List.map Py.strip (List.map (String " ") rest) = rest.
Proof.
  induction 1 as [|c rest Hc Hrest IH]; [reflexivity|].
  cbn [List.map]. rewrite IH. f_equal. exact Hc.
Qed.

Lemma stripped_columns raw : Forall (fun c => Py.strip c = c) (List.map Py.strip raw).
Proof.
  induction raw as [|r raw IH]; constructor; [apply strip_idem|exact IH].
Qed.

Lemma map_last_length {A : Type} (g : A -> A) l :
  length (map_last g l) = length l.
Proof.
  induction l as [|x [|y tl] IH]; [reflexivity|reflexivity|].
  rewrite map_last_cons. cbn [length] in *. now rewrite IH.
Qed.

Lemma is_comment_long l : length l <> 1%nat -> is_comment l = false.
Proof.
  intros H. unfold is_comment.
  destruct (length l =? 1)%nat eqn:E; [|reflexivity].
  apply Nat.eqb_eq in E. contradiction.
Qed.

Lemma parse_row_not_comment raw w q :
  parse_row raw = (w, Some q) -> is_comment raw = false.
Proof.
  unfold parse_row. destruct raw as [|r raw]; [discriminate|].
  destruct (is_comment (r :: raw)); [discriminate|reflexivity].
Qed.

End ReadBack.

(** X13. A line kept for a retry reads back as the request it was kept
    for.  When no column of an accepted request holds a comma or a
    newline, each column has fewer than 131072 characters (the written
    column, with the space in front of it, is a field the csv reader
    still takes) and the name does not start with a double quote, the
    text written back for it is read by the csv reader as one row, and
    that row gives the same request with the same warnings. *)
Theorem kept_line_reads_back :
  forall raw w q,
    parse_row raw = (w, Some q) ->
    Forall column_ok (List.map Py.strip raw) ->
    Py.startswith (String QUOTE EmptyString) (name q) = false ->
    exists row,
      Csv.reader_rows (file_lines EmptyString (rewritten [original_line q]))
        = Some [row] /\
      parse_row row = (w, Some q).
Proof.
  intros raw w q Hp Hplain Hquote.
  pose proof (parse_row_not_comment raw w q Hp) as Hc.
  destruct (parse_row_valid raw w q Hp) as ((Hname & _) & Hhead & Hline).
  pose proof (stripped_columns raw) as Hstripped.
  destruct (List.map Py.strip raw) as [|n rest] eqn:Hcols; [discriminate|].
  injection Hhead as Hn.
  pose proof (Forall_inv Hstripped) as Hsn. cbv beta in Hsn.
  pose proof (Forall_inv_tail Hstripped) as Hsrest.
  pose proof (Forall_inv Hplain) as [Hpn Hln].
  pose proof (Forall_inv_tail Hplain) as Hprest.
  set (fields := n :: List.map (String " ") rest).
  assert (Forall field_ok fields) as Hok.
  { constructor.
    - split; [exact Hpn|]. split; [now rewrite <- Hn|lia].
    - now apply spaced_columns_ok. }
  assert (List.map Py.strip fields = n :: rest) as Hback.
  { unfold fields. cbn [List.map]. rewrite map_strip_spaced by exact Hsrest.
    now rewrite Hsn. }
  assert (rewritten [original_line q] =
          Py.join "," (map_last Py.rstrip fields) ++ String LF EmptyString) as Htext.
  { unfold rewritten. cbn [List.map String.concat].
    now rewrite Hline, join_space, rstrip_join. }
  assert (n <> EmptyString) as Hn' by (rewrite <- Hn; exact Hname).
  assert (exists f fs, map_last Py.rstrip fields = f :: fs /\ f <> EmptyString)
    as (f & fs & Hrow & Hf).
  { unfold fields. destruct rest as [|c rest].
    - exists (Py.rstrip n), []. split; [reflexivity|].
      rewrite <- Hsn. unfold Py.strip. rewrite rstrip_idem.
      fold (Py.strip n). now rewrite Hsn.
    - eexists n, _. split; [apply map_last_cons|exact Hn']. }
  exists (map_last Py.rstrip fields). split.
  - rewrite Htext, Hrow. apply one_line_rows; [exact Hf|].
    rewrite <- Hrow. now apply field_ok_last.
  - assert (is_comment (map_last Py.rstrip fields) = false) as Hc'.
    { unfold fields. destruct rest as [|c rest];
        [|apply is_comment_long; rewrite map_last_length; discriminate].
      destruct raw as [|r0 [|r1 raw]]; try discriminate Hcols.
      injection Hcols as Hr0. unfold is_comment in *.
      cbn [length Nat.eqb andb lookup list_lookup map_last List.map] in Hc |- *.
      rewrite (lstrip_of_clean (Py.rstrip n)).
      + rewrite startswith_rstrip by reflexivity.
        rewrite <- Hr0. unfold Py.strip.
        rewrite startswith_rstrip by reflexivity. exact Hc.
      + apply rstrip_clean. rewrite <- Hr0. apply strip_clean. }
    rewrite (parse_row_named _ n rest
               (eq_trans (map_strip_last fields) Hback) Hn' Hc').
    rewrite <- (parse_row_named raw n rest Hcols Hn' Hc). exact Hp.
Qed.

Lemma kept_line_reads_back_witness :
  exists row,
    Csv.reader_rows
      (file_lines EmptyString
         (rewritten [original_line
            (mkRequest "Not A Real Item" (-1) 0 1 "Not A Real Item, six, ")]))
      = Some [row] /\
    parse_row row =
      ([WarnBadTier "Not A Real Item" "six"],
       Some (mkRequest "Not A Real Item" (-1) 0 1 "Not A Real Item, six, ")).
Proof.
  apply (kept_line_reads_back ["Not A Real Item"; "six "; ""]).
  - reflexivity.
  - repeat constructor; apply N.ltb_lt; reflexivity.
  - reflexivity.
Defined.

(** ** Lines skipped without a word *)

(** X14. A row is passed over without any message and without a request
    exactly when it is empty, is a comment (a single column that starts
    with [#] after leading whitespace), or has a first column that is
    empty once stripped.  Every other row either gives a request or is
    dropped with a warning. *)
Theorem silent_skip_iff :
  forall raw,
    parse_row raw = ([], None) <->
    (raw = [] \/ is_comment raw = true \/
     exists r0 tl, raw = r0 :: tl /\ Py.strip r0 = EmptyString).
Proof.
  intros raw. split.
  - intros H. destruct raw as [|r0 tl]; [now left|]. right.
    destruct (is_comment (r0 :: tl)) eqn:Hc; [now left|]. right.
    exists r0, tl. split; [reflexivity|].
    destruct (Py.strip r0) as [|c n] eqn:Hn; [reflexivity|exfalso].
    rewrite (parse_row_named (r0 :: tl) (String c n) (List.map Py.strip tl)) in H;
      [|cbn [List.map]; now rewrite Hn|discriminate|exact Hc].
    cbv zeta in H.
    repeat match type of H with
    | context [if ?b then _ else _] => destruct b
    end; try discriminate H;
      injection H as H; apply app_eq_nil in H as [_ H]; discriminate H.
  - intros [->|[H|(r0 & tl & -> & H)]]; [reflexivity| |].
    + unfold parse_row. destruct raw; [reflexivity|]. now rewrite H.
    + unfold parse_row. destruct (is_comment (r0 :: tl)); [reflexivity|].
      cbn [List.map]. now rewrite H.
Qed.

Lemma silent_skip_iff_witness : parse_row ["  # wishlist"] = ([], None).
Proof. apply (proj2 (silent_skip_iff ["  # wishlist"])). right. left. reflexivity. Defined.

(** ** The closing message *)



(** ** The two runs *)

Section TwoRuns.

Context {World : Type}.
Variable download_one : string -> string -> World -> option string * World.





End TwoRuns.

